(** * Tax-data extraction pipeline (ragExtractor): a shallow embedding

    The development follows the extraction module of the repository
    (the RAGExtractor class and the utility functions in front of it):
    the JSON recovery cascade, the classification of a parsed response,
    the four per-shape mappings, the cross-validation against the
    auxiliary figures, the soft constraints and the provider loop.

    Conventions of the embedding.
    - A JavaScript string is a [string] of bytes; a character outside
      ASCII is its UTF-8 byte sequence, and only the ASCII white space
      counts as white space.
    - A JavaScript number is a [number]: NaN, the two infinities, or an
      exact rational.  Rounding, overflow and the sign of zero are not
      represented.
    - A value of unknown shape (the result of JSON.parse) is a [value].
    - A thrown exception is the [Throw] case of [result].
    - The text written to the console is kept only where a function
      collects it in an array of its own (the warnings and corrections)
      and for the three stages of the JSON recovery. *)

From Stdlib Require Import List String Ascii Bool Arith ZArith QArith Qabs Qminmax Lia Lqa.
From Stdlib Require Import DecimalString Permutation.
Import ListNotations.

Set Implicit Arguments.
Set Warnings "-register-all".
Close Scope Q_scope.
Open Scope nat_scope.

(* ===================================================================== *)
(** ** Characters and strings *)
(* ===================================================================== *)

Module JSString.

Definition code (c : ascii) : nat := nat_of_ascii c.

Definition in_range (lo hi : nat) (c : ascii) : bool :=
  (lo <=? code c) && (code c <=? hi).

Definition is_digit (c : ascii) : bool := in_range 48 57 c.
Definition is_upper (c : ascii) : bool := in_range 65 90 c.
Definition is_lower (c : ascii) : bool := in_range 97 122 c.
Definition is_alpha (c : ascii) : bool := is_upper c || is_lower c.

(** [\w] of a regular expression: letters, digits and the underscore. *)
Definition is_word (c : ascii) : bool :=
  is_alpha c || is_digit c || (code c =? 95).

(** White space and line terminators: tab, line feed, vertical tab, form
    feed, carriage return and the space. *)
Definition is_space (c : ascii) : bool :=
  in_range 9 13 c || (code c =? 32).

Definition is_line_terminator (c : ascii) : bool :=
  (code c =? 10) || (code c =? 13).

Definition to_upper (c : ascii) : ascii :=
  if is_lower c then ascii_of_nat (code c - 32) else c.

Definition to_lower (c : ascii) : ascii :=
  if is_upper c then ascii_of_nat (code c + 32) else c.

Definition chars (s : string) : list ascii := list_ascii_of_string s.
Definition str (l : list ascii) : string := string_of_list_ascii l.

(** The double quote, and a text in which the apostrophe stands for it. *)
Definition dquote : ascii := ascii_of_nat 34.
Definition DQ : string := String dquote EmptyString.

Definition quoted (s : string) : string :=
  str (map (fun c => if (code c =? 39) then dquote else c) (chars s)).

Fixpoint drop_while (p : ascii -> bool) (l : list ascii) : list ascii :=
  match l with
  | [] => []
  | c :: l' => if p c then drop_while p l' else l
  end.

Definition trim_start (l : list ascii) : list ascii := drop_while is_space l.
Definition trim_end (l : list ascii) : list ascii :=
  rev (drop_while is_space (rev l)).

(** [s.trim()] *)
Definition trim (s : string) : string := str (trim_end (trim_start (chars s))).

Fixpoint prefix_of (p l : list ascii) : bool :=
  match p, l with
  | [], _ => true
  | _ :: _, [] => false
  | a :: p', b :: l' => (code a =? code b) && prefix_of p' l'
  end.

(** [s.startsWith(p)] and [s.endsWith(p)] *)
Definition startsWith (s p : string) : bool := prefix_of (chars p) (chars s).
Definition endsWith (s p : string) : bool :=
  prefix_of (rev (chars p)) (rev (chars s)).

(** Index of the first occurrence of [p] in [l] at or after position [i]. *)
Fixpoint index_from (p l : list ascii) (i : nat) : option nat :=
  if prefix_of p l then Some i
  else match l with
       | [] => None
       | _ :: l' => index_from p l' (S i)
       end.

(** [s.indexOf(p)]: [None] is the -1 of JavaScript. *)
Definition indexOf (s p : string) : option nat :=
  index_from (chars p) (chars s) 0.

(** Index of the last occurrence. *)
Fixpoint last_index_from (p l : list ascii) (i : nat) (found : option nat)
  : option nat :=
  let found' := if prefix_of p l then Some i else found in
  match l with
  | [] => found'
  | _ :: l' => last_index_from p l' (S i) found'
  end.

Definition lastIndexOf (s p : string) : option nat :=
  last_index_from (chars p) (chars s) 0 None.

(** [s.includes(p)] *)
Definition includes (s p : string) : bool :=
  match indexOf s p with Some _ => true | None => false end.

(** [s.slice(i)] and [s.slice(0, j)] for indices inside the string. *)
Definition slice_from (s : string) (i : nat) : string :=
  str (skipn i (chars s)).
Definition slice_to (s : string) (j : nat) : string :=
  str (firstn j (chars s)).

(** [s.split(sep)] for a separator of one character. *)
Fixpoint split_chars (sep : ascii) (l : list ascii) (cur : list ascii)
  : list (list ascii) :=
  match l with
  | [] => [rev cur]
  | c :: l' =>
      if (code c =? code sep) then rev cur :: split_chars sep l' []
      else split_chars sep l' (c :: cur)
  end.

Definition split (sep : ascii) (s : string) : list string :=
  map str (split_chars sep (chars s) []).

Definition newline : ascii := ascii_of_nat 10.
Definition space : ascii := ascii_of_nat 32.

(** [a.join(sep)] *)
Fixpoint join (sep : string) (l : list string) : string :=
  match l with
  | [] => EmptyString
  | [x] => x
  | x :: l' => (x ++ sep ++ join sep l')%string
  end.

Definition string_eqb (a b : string) : bool := String.eqb a b.

End JSString.

(* ===================================================================== *)
(** ** Regular expressions

    The backtracking matcher of the language: a pattern is matched
    against the input with a continuation, alternatives are tried from
    left to right, a greedy quantifier tries one more iteration before
    it tries to stop, and an iteration that consumes nothing is
    rejected once the minimum is reached. *)
(* ===================================================================== *)

Module Regex.
Import JSString.

Inductive citem : Type :=
| CChar (c : ascii)
| CRange (lo hi : ascii)
| CDigit (neg : bool)
| CSpace (neg : bool)
| CWord (neg : bool).

Inductive regex : Type :=
| REmpty
| RChar (c : ascii)
| RAny
| RSet (neg : bool) (items : list citem)
| RSeq (r1 r2 : regex)
| RAlt (r1 r2 : regex)
| RRepeat (min : nat) (max : option nat) (greedy : bool) (r : regex)
| RGroup (n : nat) (r : regex)
| RBol
| REol
| RWordB (neg : bool).

(** A compiled regular expression keeps its source text, which the
    extractor reads through [pattern.source]. *)
Record RegExp : Type := mkRegExp {
  source : string;
  ignoreCase : bool;
  multiline : bool;
  pattern : option regex
}.

Record mstate : Type := mkState {
  prev : option ascii;
  rest : list ascii;
  pos : nat;
  caps : list (nat * list ascii)
}.

Definition item_mem (it : citem) (c : ascii) : bool :=
  match it with
  | CChar x => code x =? code c
  | CRange lo hi => in_range (code lo) (code hi) c
  | CDigit neg => xorb neg (is_digit c)
  | CSpace neg => xorb neg (is_space c)
  | CWord neg => xorb neg (is_word c)
  end.

(** With the flag i a character belongs to a class when one of its two
    cases does. *)
Definition item_match (ci : bool) (it : citem) (c : ascii) : bool :=
  if ci then item_mem it c || item_mem it (to_upper c) || item_mem it (to_lower c)
  else item_mem it c.

Definition set_match (ci neg : bool) (items : list citem) (c : ascii) : bool :=
  xorb neg (existsb (fun it => item_match ci it c) items).

Definition char_match (ci : bool) (x c : ascii) : bool :=
  if ci then code (to_upper x) =? code (to_upper c) else code x =? code c.

Definition advance (c : ascii) (l : list ascii) (s : mstate) : mstate :=
  mkState (Some c) l (S (pos s)) (caps s).

Definition set_cap (n : nat) (txt : list ascii) (s : mstate) : mstate :=
  mkState (prev s) (rest s) (pos s) ((n, txt) :: caps s).

Definition clear_caps (ns : list nat) (s : mstate) : mstate :=
  mkState (prev s) (rest s) (pos s)
    (filter (fun p => negb (existsb (Nat.eqb (fst p)) ns)) (caps s)).

Fixpoint get_cap (n : nat) (l : list (nat * list ascii)) : option (list ascii) :=
  match l with
  | [] => None
  | (m, t) :: l' => if m =? n then Some t else get_cap n l'
  end.

Fixpoint groups (r : regex) : list nat :=
  match r with
  | RSeq a b | RAlt a b => groups a ++ groups b
  | RRepeat _ _ _ a => groups a
  | RGroup n a => n :: groups a
  | _ => []
  end.

Definition at_bol (ml : bool) (s : mstate) : bool :=
  match prev s with
  | None => true
  | Some c => ml && is_line_terminator c
  end.

Definition at_eol (ml : bool) (s : mstate) : bool :=
  match rest s with
  | [] => true
  | c :: _ => ml && is_line_terminator c
  end.

Definition at_word_boundary (s : mstate) : bool :=
  let a := match prev s with Some c => is_word c | None => false end in
  let b := match rest s with c :: _ => is_word c | [] => false end in
  xorb a b.

Definition is_zero_max (m : option nat) : bool :=
  match m with Some 0 => true | _ => false end.

Fixpoint rmatch (ci ml : bool) (r : regex) (s : mstate)
  (k : mstate -> option mstate) {struct r} : option mstate :=
  match r with
  | REmpty => k s
  | RChar x =>
      match rest s with
      | c :: l => if char_match ci x c then k (advance c l s) else None
      | [] => None
      end
  | RAny =>
      match rest s with
      | c :: l => if is_line_terminator c then None else k (advance c l s)
      | [] => None
      end
  | RSet neg items =>
      match rest s with
      | c :: l => if set_match ci neg items c then k (advance c l s) else None
      | [] => None
      end
  | RSeq r1 r2 => rmatch ci ml r1 s (fun s' => rmatch ci ml r2 s' k)
  | RAlt r1 r2 =>
      match rmatch ci ml r1 s k with
      | Some e => Some e
      | None => rmatch ci ml r2 s k
      end
  | RGroup n r' =>
      rmatch ci ml r' s
        (fun s' => k (set_cap n (firstn (pos s' - pos s) (rest s)) s'))
  | RBol => if at_bol ml s then k s else None
  | REol => if at_eol ml s then k s else None
  | RWordB neg => if xorb neg (at_word_boundary s) then k s else None
  | RRepeat min max greedy r' =>
      (fix rep (fuel min : nat) (max : option nat) (s : mstate) {struct fuel}
         : option mstate :=
         match fuel with
         | O => None
         | S fuel' =>
             if is_zero_max max then k s
             else
               let again := fun s' =>
                 if (min =? 0) && (pos s' =? pos s) then None
                 else rep fuel' (Nat.pred min) (option_map Nat.pred max) s' in
               let s0 := clear_caps (groups r') s in
               if 0 <? min then rmatch ci ml r' s0 again
               else if greedy then
                 match rmatch ci ml r' s0 again with
                 | Some e => Some e
                 | None => k s
                 end
               else
                 match k s with
                 | Some e => Some e
                 | None => rmatch ci ml r' s0 again
                 end
         end) (S (min + List.length (rest s))) min max s
  end.

(** One match, as [exec] returns it: where it starts, the state at its
    end, and the matched text. *)
Record found : Type := mkFound {
  index : nat;
  matched : string;
  final : mstate
}.

(** The text of group [n] of a match; [None] when the group took no part
    (the undefined of JavaScript).  Group 0 is the whole match. *)
Definition group (n : nat) (m : found) : option string :=
  match n with
  | O => Some (matched m)
  | _ => option_map str (get_cap n (caps (final m)))
  end.

Fixpoint exec_from (ci ml : bool) (r : regex) (pv : option ascii) (i : nat)
  (inp : list ascii) : option found :=
  match rmatch ci ml r (mkState pv inp i []) Some with
  | Some e => Some (mkFound i (str (firstn (pos e - i) inp)) e)
  | None =>
      match inp with
      | [] => None
      | c :: inp' => exec_from ci ml r (Some c) (S i) inp'
      end
  end.

(** [s.match(re)] for a regular expression without the flag g. *)
Definition exec (re : RegExp) (s : string) : option found :=
  match pattern re with
  | Some r => exec_from (ignoreCase re) (multiline re) r None 0 (chars s)
  | None => None
  end.

(** [re.test(s)] *)
Definition test (re : RegExp) (s : string) : bool :=
  match exec re s with Some _ => true | None => false end.

(** Replacement templates: literal text and [$n]. *)
Inductive tpart : Type :=
| TLit (c : ascii)
| TGroup (n : nat).

Fixpoint template (l : list ascii) : list tpart :=
  match l with
  | [] => []
  | d :: l1 =>
      match l1 with
      | c :: l2 =>
          if (code d =? 36) && in_range 49 57 c
          then TGroup (code c - 48) :: template l2
          else TLit d :: template l1
      | [] => [TLit d]
      end
  end.

Definition expand (t : list tpart) (e : mstate) : list ascii :=
  flat_map (fun p =>
    match p with
    | TLit c => [c]
    | TGroup n => match get_cap n (caps e) with Some x => x | None => [] end
    end) t.

(** [s.replace(re, t)] for a regular expression with the flag g: the
    matches are found from left to right, they do not overlap, and after
    an empty match the search moves on by one character. *)
Fixpoint replace_from (fuel : nat) (ci ml : bool) (r : regex) (t : list tpart)
  (pv : option ascii) (i : nat) (inp : list ascii) : list ascii :=
  match fuel with
  | O => inp
  | S fuel' =>
      match rmatch ci ml r (mkState pv inp i []) Some with
      | Some e =>
          if pos e =? i then
            match inp with
            | [] => expand t e
            | c :: inp' =>
                expand t e ++ c :: replace_from fuel' ci ml r t (Some c) (S i) inp'
            end
          else
            expand t e ++ replace_from fuel' ci ml r t (prev e) (pos e) (rest e)
      | None =>
          match inp with
          | [] => []
          | c :: inp' => c :: replace_from fuel' ci ml r t (Some c) (S i) inp'
          end
      end
  end.

Definition replace (re : RegExp) (t : string) (s : string) : string :=
  match pattern re with
  | Some r =>
      str (replace_from (S (String.length s)) (ignoreCase re) (multiline re) r
             (template (chars t)) None 0 (chars s))
  | None => s
  end.

End Regex.

(* ===================================================================== *)
(** ** The concrete syntax of regular expressions

    The patterns of the extractor are kept as the text between the
    slashes of the source and compiled by this parser, so that each one
    can be compared with the source literally.  A double quote inside a
    pattern is written [\x22]. *)
(* ===================================================================== *)

Module RegexSyntax.
Import JSString Regex.
Local Open Scope char_scope.

Definition hexval (c : ascii) : option nat :=
  if is_digit c then Some (code c - 48)
  else if in_range 97 102 c then Some (code c - 87)
  else if in_range 65 70 c then Some (code c - 55)
  else None.

(** What follows a backslash, as a class item. *)
Definition escape (c : ascii) (l : list ascii) : option (citem * list ascii) :=
  match c with
  | "d" => Some (CDigit false, l)
  | "D" => Some (CDigit true, l)
  | "s" => Some (CSpace false, l)
  | "S" => Some (CSpace true, l)
  | "w" => Some (CWord false, l)
  | "W" => Some (CWord true, l)
  | "n" => Some (CChar (ascii_of_nat 10), l)
  | "r" => Some (CChar (ascii_of_nat 13), l)
  | "t" => Some (CChar (ascii_of_nat 9), l)
  | "f" => Some (CChar (ascii_of_nat 12), l)
  | "v" => Some (CChar (ascii_of_nat 11), l)
  | "x" =>
      match l with
      | h1 :: h2 :: l' =>
          match hexval h1, hexval h2 with
          | Some a, Some b => Some (CChar (ascii_of_nat (16 * a + b)), l')
          | _, _ => None
          end
      | _ => None
      end
  | _ => if is_word c then None else Some (CChar c, l)
  end.

Definition class_atom (l : list ascii) : option (citem * list ascii) :=
  match l with
  | "\" :: c :: l' => escape c l'
  | c :: l' => Some (CChar c, l')
  | [] => None
  end.

Fixpoint parse_class (fuel : nat) (l : list ascii) (acc : list citem)
  : option (list citem * list ascii) :=
  match fuel with
  | O => None
  | S f =>
      match l with
      | [] => None
      | "]" :: l' => Some (rev acc, l')
      | _ =>
          match class_atom l with
          | None => None
          | Some (CChar lo, "-" :: "]" :: l2) =>
              Some (rev (CChar "-" :: CChar lo :: acc), l2)
          | Some (CChar lo, "-" :: l2) =>
              match class_atom l2 with
              | Some (CChar hi, l3) => parse_class f l3 (CRange lo hi :: acc)
              | Some (it, l3) => parse_class f l3 (it :: CChar "-" :: CChar lo :: acc)
              | None => None
              end
          | Some (it, l1) => parse_class f l1 (it :: acc)
          end
      end
  end.

Fixpoint digits_value (l : list ascii) (acc : nat) : nat * list ascii :=
  match l with
  | c :: l' => if is_digit c then digits_value l' (10 * acc + (code c - 48)) else (acc, l)
  | [] => (acc, l)
  end.

Definition starts_with_digit (l : list ascii) : bool :=
  match l with c :: _ => is_digit c | [] => false end.

(** A quantifier: its bounds and what follows it. *)
Definition parse_quant (l : list ascii) : option (nat * option nat * list ascii) :=
  match l with
  | "*" :: l' => Some (0, None, l')
  | "+" :: l' => Some (1, None, l')
  | "?" :: l' => Some (0, Some 1, l')
  | "{" :: l' =>
      if starts_with_digit l' then
        let '(n, l1) := digits_value l' 0 in
        match l1 with
        | "}" :: l2 => Some (n, Some n, l2)
        | "," :: "}" :: l2 => Some (n, None, l2)
        | "," :: l2 =>
            if starts_with_digit l2 then
              let '(m, l3) := digits_value l2 0 in
              match l3 with
              | "}" :: l4 => Some (n, Some m, l4)
              | _ => None
              end
            else None
        | _ => None
        end
      else None
  | _ => None
  end.

Definition quantify (r : regex) (l : list ascii) : regex * list ascii :=
  match parse_quant l with
  | Some (mn, mx, "?" :: l') => (RRepeat mn mx false r, l')
  | Some (mn, mx, l') => (RRepeat mn mx true r, l')
  | None => (r, l)
  end.

Definition seq (a b : regex) : regex :=
  match b with REmpty => a | _ => RSeq a b end.

Definition atom_of (it : citem) : regex :=
  match it with CChar c => RChar c | _ => RSet false [it] end.

Fixpoint parse_disj (fuel : nat) (l : list ascii) (g : nat)
  : option (regex * list ascii * nat) :=
  match fuel with
  | O => None
  | S f =>
      match parse_seq f l g with
      | Some (r1, "|" :: l2, g1) =>
          match parse_disj f l2 g1 with
          | Some (r2, l3, g2) => Some (RAlt r1 r2, l3, g2)
          | None => None
          end
      | other => other
      end
  end
with parse_seq (fuel : nat) (l : list ascii) (g : nat)
  : option (regex * list ascii * nat) :=
  match fuel with
  | O => None
  | S f =>
      match l with
      | [] => Some (REmpty, l, g)
      | ")" :: _ => Some (REmpty, l, g)
      | "|" :: _ => Some (REmpty, l, g)
      | _ =>
          match parse_term f l g with
          | Some (t, l1, g1) =>
              match parse_seq f l1 g1 with
              | Some (ts, l2, g2) => Some (seq t ts, l2, g2)
              | None => None
              end
          | None => None
          end
      end
  end
with parse_term (fuel : nat) (l : list ascii) (g : nat)
  : option (regex * list ascii * nat) :=
  match fuel with
  | O => None
  | S f =>
      match l with
      | [] => None
      | "^" :: l' => Some (RBol, l', g)
      | "$" :: l' => Some (REol, l', g)
      | "\" :: "b" :: l' => Some (RWordB false, l', g)
      | "\" :: "B" :: l' => Some (RWordB true, l', g)
      | "(" :: "?" :: ":" :: l' =>
          match parse_disj f l' g with
          | Some (r, ")" :: l1, g1) =>
              let '(q, l2) := quantify r l1 in Some (q, l2, g1)
          | _ => None
          end
      | "(" :: l' =>
          match parse_disj f l' (S g) with
          | Some (r, ")" :: l1, g1) =>
              let '(q, l2) := quantify (RGroup g r) l1 in Some (q, l2, g1)
          | _ => None
          end
      | "[" :: "^" :: l' =>
          match parse_class (S (List.length l')) l' [] with
          | Some (items, l1) =>
              let '(q, l2) := quantify (RSet true items) l1 in Some (q, l2, g)
          | None => None
          end
      | "[" :: l' =>
          match parse_class (S (List.length l')) l' [] with
          | Some (items, l1) =>
              let '(q, l2) := quantify (RSet false items) l1 in Some (q, l2, g)
          | None => None
          end
      | "." :: l' => let '(q, l2) := quantify RAny l' in Some (q, l2, g)
      | "\" :: c :: l' =>
          match escape c l' with
          | Some (it, l1) =>
              let '(q, l2) := quantify (atom_of it) l1 in Some (q, l2, g)
          | None => None
          end
      | "*" :: _ => None
      | "+" :: _ => None
      | "?" :: _ => None
      | c :: l' => let '(q, l2) := quantify (RChar c) l' in Some (q, l2, g)
      end
  end.

Definition compile (src : string) : option regex :=
  match parse_disj (4 * String.length src + 8) (chars src) 1 with
  | Some (r, [], _) => Some r
  | _ => None
  end.

(** [/src/flags] *)
Definition RE (src flags : string) : RegExp :=
  mkRegExp src (includes flags "i") (includes flags "m") (compile src).

Definition compiled (re : RegExp) : bool :=
  match pattern re with Some _ => true | None => false end.

End RegexSyntax.

(* ===================================================================== *)
(** ** Numbers *)
(* ===================================================================== *)

Module JSNumber.
Import JSString.

Inductive number : Type :=
| NaN
| PInf
| NInf
| Fin (q : Q).

Definition of_Z (z : Z) : number := Fin (inject_Z z).
Definition zero : number := of_Z 0.

Definition Qltb (a b : Q) : bool := negb (Qle_bool b a).

Definition isNaN (n : number) : bool :=
  match n with NaN => true | _ => false end.

Definition isFinite (n : number) : bool :=
  match n with Fin _ => true | _ => false end.

Definition neg (n : number) : number :=
  match n with
  | NaN => NaN
  | PInf => NInf
  | NInf => PInf
  | Fin q => Fin (- q)
  end.

Definition add (a b : number) : number :=
  match a, b with
  | NaN, _ | _, NaN => NaN
  | PInf, NInf | NInf, PInf => NaN
  | PInf, _ | _, PInf => PInf
  | NInf, _ | _, NInf => NInf
  | Fin x, Fin y => Fin (x + y)
  end.

Definition sub (a b : number) : number := add a (neg b).

(** The infinity whose sign is that of [q] times the sign [s]; a zero
    factor gives NaN. *)
Definition inf_times (positive : bool) (q : Q) : number :=
  if Qeq_bool q 0 then NaN
  else if Bool.eqb positive (Qltb 0 q) then PInf else NInf.

Definition mul (a b : number) : number :=
  match a, b with
  | NaN, _ | _, NaN => NaN
  | PInf, PInf | NInf, NInf => PInf
  | PInf, NInf | NInf, PInf => NInf
  | PInf, Fin q | Fin q, PInf => inf_times true q
  | NInf, Fin q | Fin q, NInf => inf_times false q
  | Fin x, Fin y => Fin (x * y)
  end.

Definition div (a b : number) : number :=
  match a, b with
  | NaN, _ | _, NaN => NaN
  | Fin _, PInf | Fin _, NInf => zero
  | PInf, Fin q => if Qltb q 0 then NInf else PInf
  | NInf, Fin q => if Qltb q 0 then PInf else NInf
  | Fin x, Fin y =>
      if Qeq_bool y 0 then
        if Qeq_bool x 0 then NaN else if Qltb 0 x then PInf else NInf
      else Fin (x / y)
  | _, _ => NaN
  end.

(** [Math.abs] *)
Definition abs (n : number) : number :=
  match n with
  | NaN => NaN
  | PInf | NInf => PInf
  | Fin q => Fin (Qabs q)
  end.

(** [a < b]; false as soon as one side is NaN. *)
Definition lt (a b : number) : bool :=
  match a, b with
  | NaN, _ | _, NaN => false
  | Fin x, Fin y => Qltb x y
  | NInf, Fin _ | NInf, PInf | Fin _, PInf => true
  | _, _ => false
  end.

Definition gt (a b : number) : bool := lt b a.

(** [a === b] on numbers. *)
Definition eq (a b : number) : bool :=
  match a, b with
  | Fin x, Fin y => Qeq_bool x y
  | PInf, PInf | NInf, NInf => true
  | _, _ => false
  end.

Definition le (a b : number) : bool := lt a b || eq a b.
Definition ge (a b : number) : bool := le b a.

(** [Math.min] and [Math.max] of two arguments. *)
Definition min (a b : number) : number :=
  match a, b with
  | NaN, _ | _, NaN => NaN
  | _, _ => if lt b a then b else a
  end.

Definition max (a b : number) : number :=
  match a, b with
  | NaN, _ | _, NaN => NaN
  | _, _ => if lt a b then b else a
  end.

(** *** Reading a number from text *)

Fixpoint digits (l : list ascii) (acc : Z) (n : nat) : Z * nat * list ascii :=
  match l with
  | c :: l' =>
      if is_digit c then digits l' (10 * acc + Z.of_nat (code c - 48))%Z (S n)
      else (acc, n, l)
  | [] => (acc, n, l)
  end.

Definition pow10 (n : nat) : Z := (10 ^ Z.of_nat n)%Z.

(** [m * 10^(e - f)] as a reduced fraction. *)
Definition scaled (m : Z) (f : nat) (e : Z) : Q :=
  Qred (if (0 <=? e)%Z
        then Qmake (m * 10 ^ e) (Z.to_pos (pow10 f))
        else Qmake m (Z.to_pos (pow10 f * 10 ^ (- e)))).

(** An exponent part [e], [e+] or [e-] followed by digits; no exponent
    is read when the digits are missing. *)
Definition exponent (l : list ascii) : Z * list ascii :=
  match l with
  | c :: l1 =>
      if (code c =? 101) || (code c =? 69) then
        let '(sgn, l2) :=
          match l1 with
          | s :: l' =>
              if code s =? 45 then ((-1)%Z, l')
              else if code s =? 43 then (1%Z, l') else (1%Z, l1)
          | [] => (1%Z, l1)
          end in
        let '(v, n, l3) := digits l2 0%Z 0 in
        if n =? 0 then (0%Z, l) else ((sgn * v)%Z, l3)
      else (0%Z, l)
  | [] => (0%Z, l)
  end.

(** The longest prefix that is an unsigned decimal literal: digits, an
    optional fraction, an optional exponent. *)
Definition decimal_prefix (l : list ascii) : option (Q * list ascii) :=
  let '(i, ni, l1) := digits l 0%Z 0 in
  let '(fr, nf, l2) :=
    match l1 with
    | c :: l' => if code c =? 46 then digits l' 0%Z 0 else (0%Z, 0, l1)
    | [] => (0%Z, 0, l1)
    end in
  let l2' :=
    match l1 with
    | c :: _ => if (code c =? 46) && (ni + nf =? 0) then l1 else l2
    | [] => l2
    end in
  if ni + nf =? 0 then None
  else
    let '(e, l3) := exponent l2' in
    Some (scaled (i * pow10 nf + fr)%Z nf e, l3).

Definition signed (l : list ascii) : bool * list ascii :=
  match l with
  | c :: l' =>
      if code c =? 45 then (true, l')
      else if code c =? 43 then (false, l') else (false, l)
  | [] => (false, l)
  end.

Definition infinity_text : list ascii := chars "Infinity".

(** [parseFloat(s)] *)
Definition parseFloat (s : string) : number :=
  let '(minus, l) := signed (trim_start (chars s)) in
  if prefix_of infinity_text l then (if minus then NInf else PInf)
  else match decimal_prefix l with
       | Some (q, _) => Fin (if minus then Qred (- q) else q)
       | None => NaN
       end.

(** [parseInt(s, 10)] *)
Definition parseInt (s : string) : number :=
  let '(minus, l) := signed (trim_start (chars s)) in
  let '(v, n, _) := digits l 0%Z 0 in
  if n =? 0 then NaN else of_Z (if minus then - v else v)%Z.

Fixpoint radix_digits (base : nat) (l : list ascii) (acc : Z) : option Z :=
  match l with
  | [] => Some acc
  | c :: l' =>
      let d := if is_digit c then Some (code c - 48)
               else if in_range 97 102 c then Some (code c - 87)
               else if in_range 65 70 c then Some (code c - 55)
               else None in
      match d with
      | Some v => if v <? base
                  then radix_digits base l' (Z.of_nat base * acc + Z.of_nat v)%Z
                  else None
      | None => None
      end
  end.

Definition radix_literal (l : list ascii) : option number :=
  match l with
  | z :: x :: (_ :: _) as ds =>
      if code z =? 48 then
        let base := if (code x =? 120) || (code x =? 88) then 16
                    else if (code x =? 111) || (code x =? 79) then 8
                    else if (code x =? 98) || (code x =? 66) then 2 else 0 in
        if base =? 0 then None else option_map of_Z (radix_digits base ds 0%Z)
      else None
  | _ => None
  end.

(** The conversion of a string to a number (of the operators, not of
    [parseFloat]): the whole text must be a numeric literal. *)
Definition StringToNumber (s : string) : number :=
  let t := trim_end (trim_start (chars s)) in
  match t with
  | [] => zero
  | _ =>
      match radix_literal t with
      | Some n => n
      | None =>
          let '(minus, l) := signed t in
          if list_eq_dec ascii_dec l infinity_text
          then (if minus then NInf else PInf)
          else match decimal_prefix l with
               | Some (q, []) => Fin (if minus then Qred (- q) else q)
               | _ => NaN
               end
      end
  end.

(** *** Writing a number as text

    An integer is written in full and another rational with at most
    seventeen digits after the point; the exponent notation of very
    large and very small numbers is not reproduced. *)

Definition Z_to_string (z : Z) : string :=
  DecimalString.NilZero.string_of_int (Z.to_int z).

Fixpoint fraction_digits (fuel : nat) (r d : Z) : list ascii :=
  match fuel with
  | O => []
  | S f =>
      if (r =? 0)%Z then []
      else ascii_of_nat (48 + Z.to_nat (10 * r / d)) ::
           fraction_digits f ((10 * r) mod d)%Z d
  end.

Definition to_string (n : number) : string :=
  match n with
  | NaN => "NaN"
  | PInf => "Infinity"
  | NInf => "-Infinity"
  | Fin q =>
      let q' := Qred q in
      let d := Zpos (Qden q') in
      let a := Z.abs (Qnum q') in
      let whole := Z_to_string (a / d) in
      let frac := fraction_digits 17 (a mod d)%Z d in
      ((if (Qnum q' <? 0)%Z then "-" else EmptyString) ++ whole ++
       match frac with
       | [] => EmptyString
       | _ => String "."%char (str frac)
       end)%string
  end.

End JSNumber.

(* ===================================================================== *)
(** ** Values of unknown shape, exceptions and the operators *)
(* ===================================================================== *)

Module JSValue.
Import JSString JSNumber.

Inductive value : Type :=
| VUndefined
| VNull
| VBool (b : bool)
| VNum (n : number)
| VStr (s : string)
| VArr (l : list value)
| VObj (o : list (string * value)).

Definition object : Type := list (string * value).

Inductive error : Type :=
| TypeError
| SyntaxError
| Error (msg : string).

Inductive result (A : Type) : Type :=
| Ok (a : A)
| Throw (e : error).

Arguments Ok {A} a.
Arguments Throw {A} e.

Definition bind {A B : Type} (r : result A) (f : A -> result B) : result B :=
  match r with
  | Ok a => f a
  | Throw e => Throw e
  end.

(** [try { r } catch (e) { h }] *)
Definition try_catch {A : Type} (r : result A) (h : error -> result A) : result A :=
  match r with
  | Ok a => Ok a
  | Throw e => h e
  end.

Definition num (z : Z) : value := VNum (of_Z z).

(** The truth value of a condition. *)
Definition ToBoolean (v : value) : bool :=
  match v with
  | VUndefined | VNull => false
  | VBool b => b
  | VNum n => negb (isNaN n || eq n zero)
  | VStr s => negb (string_eqb s EmptyString)
  | VArr _ | VObj _ => true
  end.

(** [a || b] and [a && b] *)
Definition or (a b : value) : value := if ToBoolean a then a else b.
Definition and (a b : value) : value := if ToBoolean a then b else a.

Inductive type_name : Type :=
| TUndefined | TObject | TBoolean | TNumber | TString.

Definition typeof (v : value) : type_name :=
  match v with
  | VUndefined => TUndefined
  | VNull | VArr _ | VObj _ => TObject
  | VBool _ => TBoolean
  | VNum _ => TNumber
  | VStr _ => TString
  end.

Definition is_number (v : value) : bool :=
  match v with VNum _ => true | _ => false end.

Fixpoint lookup (k : string) (o : object) : option value :=
  match o with
  | [] => None
  | (k', v) :: o' => if string_eqb k' k then Some v else lookup k o'
  end.

(** [o[k] = v] on an object: an existing key keeps its place. *)
Fixpoint set (k : string) (v : value) (o : object) : object :=
  match o with
  | [] => [(k, v)]
  | (k', v') :: o' =>
      if string_eqb k' k then (k, v) :: o' else (k', v') :: set k v o'
  end.

(** [delete o[k]] *)
Definition delete (k : string) (o : object) : object :=
  filter (fun p => negb (string_eqb (fst p) k)) o.

(** [v.k] for a name [k] that is neither an index nor a built-in
    property: undefined unless [v] is an object that has the key.
    The access itself throws on undefined and null, see [member]. *)
Definition get (k : string) (v : value) : value :=
  match v with
  | VObj o => match lookup k o with Some x => x | None => VUndefined end
  | _ => VUndefined
  end.

Definition member (k : string) (v : value) : result value :=
  match v with
  | VUndefined | VNull => Throw TypeError
  | _ => Ok (get k v)
  end.

(** [k in v] for such a name: a type error unless [v] is an object or
    an array. *)
Definition has (k : string) (v : value) : result bool :=
  match v with
  | VObj o => Ok (match lookup k o with Some _ => true | None => false end)
  | VArr _ => Ok false
  | _ => Throw TypeError
  end.

(** [Object.keys(v)] of an object or an array. *)
Definition keys (v : value) : list string :=
  match v with
  | VObj o => map fst o
  | VArr l => map (fun i => Z_to_string (Z.of_nat i)) (seq 0 (List.length l))
  | _ => []
  end.

(** The number a value is converted to by an arithmetic operator or a
    comparison with a number.  An array is converted through its text:
    the empty array to 0, an array of one element as that element
    written out, a longer one to NaN. *)
Fixpoint ToNumber (v : value) : number :=
  match v with
  | VUndefined => NaN
  | VNull => zero
  | VBool b => if b then of_Z 1 else zero
  | VNum n => n
  | VStr s => StringToNumber s
  | VObj _ => NaN
  | VArr l =>
      match l with
      | [] => zero
      | [x] =>
          match x with
          | VUndefined | VNull => zero
          | VBool _ | VObj _ => NaN
          | _ => ToNumber x
          end
      | _ => NaN
      end
  end.

(** The text a value is converted to (by [RegExp.test], for instance). *)
Fixpoint ToString (v : value) : string :=
  match v with
  | VUndefined => "undefined"
  | VNull => "null"
  | VBool b => if b then "true" else "false"
  | VNum n => to_string n
  | VStr s => s
  | VObj _ => "[object Object]"
  | VArr l =>
      join ","
        (map (fun x => match x with
                       | VUndefined | VNull => EmptyString
                       | _ => ToString x
                       end) l)
  end.

(** [a === b]; two objects or two arrays that come from different
    places of a parsed text are never the same object. *)
Definition strict_eq (a b : value) : bool :=
  match a, b with
  | VUndefined, VUndefined | VNull, VNull => true
  | VBool x, VBool y => Bool.eqb x y
  | VNum x, VNum y => eq x y
  | VStr x, VStr y => string_eqb x y
  | _, _ => false
  end.

(** The arithmetic and the comparisons of the extractor always have a
    number on one side, so both sides are converted to numbers. *)
Definition v_sub (a b : value) : number := sub (ToNumber a) (ToNumber b).
Definition v_gt (a b : value) : bool := gt (ToNumber a) (ToNumber b).
Definition v_lt (a b : value) : bool := lt (ToNumber a) (ToNumber b).
Definition v_le (a b : value) : bool := le (ToNumber a) (ToNumber b).

End JSValue.

Declare Scope js_scope.
Delimit Scope js_scope with js.
Notation "x <- r ;; k" := (JSValue.bind r (fun x => k))
  (at level 61, r at next level, right associativity) : js_scope.

(* ===================================================================== *)
(** ** JSON.parse

    The built-in parser, as the standard describes it: strict JSON, a
    syntax error on anything else.  A key given twice keeps its first
    place and its last value. *)
(* ===================================================================== *)

Module JSON.
Import JSString JSNumber JSValue.
Local Open Scope char_scope.
Local Open Scope nat_scope.

Definition is_json_space (c : ascii) : bool :=
  (code c =? 32) || (code c =? 9) || (code c =? 10) || (code c =? 13).

Definition skip_ws (l : list ascii) : list ascii := drop_while is_json_space l.

Definition utf8 (cp : nat) : list ascii :=
  if cp <? 128 then [ascii_of_nat cp]
  else if cp <? 2048 then
    [ascii_of_nat (192 + cp / 64); ascii_of_nat (128 + cp mod 64)]
  else
    [ascii_of_nat (224 + cp / 4096); ascii_of_nat (128 + (cp / 64) mod 64);
     ascii_of_nat (128 + cp mod 64)].

Definition hex4 (a b c d : ascii) : option nat :=
  match RegexSyntax.hexval a, RegexSyntax.hexval b,
        RegexSyntax.hexval c, RegexSyntax.hexval d with
  | Some w, Some x, Some y, Some z => Some (4096 * w + 256 * x + 16 * y + z)
  | _, _, _, _ => None
  end.

(** The characters of a string after its opening quote, up to the
    closing one. *)
Fixpoint string_body (l : list ascii) (acc : list ascii)
  : option (string * list ascii) :=
  match l with
  | [] => None
  | c :: l' =>
      if code c =? 34 then Some (str (rev acc), l')
      else if code c <? 32 then None
      else if code c =? 92 then
        match l' with
        | "u" :: a :: b :: c1 :: d :: l2 =>
            match hex4 a b c1 d with
            | Some cp => string_body l2 (rev (utf8 cp) ++ acc)
            | None => None
            end
        | e :: l2 =>
            let plain (x : nat) := string_body l2 (ascii_of_nat x :: acc) in
            match e with
            | "\" => plain 92
            | "/" => plain 47
            | "b" => plain 8
            | "f" => plain 12
            | "n" => plain 10
            | "r" => plain 13
            | "t" => plain 9
            | _ => if code e =? 34 then plain 34 else None
            end
        | [] => None
        end
      else string_body l' (c :: acc)
  end.

(** A number: an optional minus, an integer part without a leading
    zero, an optional fraction and an optional exponent. *)
Definition number_token (l : list ascii) : option (number * list ascii) :=
  let '(minus, l0) :=
    match l with
    | "-" :: l' => (true, l')
    | _ => (false, l)
    end in
  let '(i, ni, l1) :=
    match l0 with
    | "0" :: l' => (0%Z, 1, l')
    | _ => digits l0 0%Z 0
    end in
  if ni =? 0 then None
  else
    let frac :=
      match l1 with
      | "." :: l' =>
          let '(fr, nf, l2) := digits l' 0%Z 0 in
          if nf =? 0 then None else Some (fr, nf, l2)
      | _ => Some (0%Z, 0, l1)
      end in
    match frac with
    | None => None
    | Some (fr, nf, l2) =>
        let ex :=
          match l2 with
          | c :: _ =>
              if (code c =? 101) || (code c =? 69) then
                let '(e, l3) := exponent l2 in
                if List.length l3 =? List.length l2 then None else Some (e, l3)
              else Some (0%Z, l2)
          | [] => Some (0%Z, l2)
          end in
        match ex with
        | None => None
        | Some (e, l3) =>
            let q := scaled (i * pow10 nf + fr)%Z nf e in
            Some (Fin (if minus then Qred (- q) else q), l3)
        end
    end.

Fixpoint parse_value (fuel : nat) (l : list ascii) {struct fuel}
  : option (value * list ascii) :=
  match fuel with
  | O => None
  | S f =>
      match skip_ws l with
      | "{" :: l1 =>
          match skip_ws l1 with
          | "}" :: l2 => Some (VObj [], l2)
          | _ =>
              (fix members (n : nat) (l : list ascii) (acc : object) {struct n}
                 : option (value * list ascii) :=
                 match n with
                 | O => None
                 | S n' =>
                     match skip_ws l with
                     | q :: lk =>
                         if code q =? 34 then
                           match string_body lk [] with
                           | Some (k, l3) =>
                               match skip_ws l3 with
                               | ":" :: l4 =>
                                   match parse_value f l4 with
                                   | Some (v, l5) =>
                                       match skip_ws l5 with
                                       | "," :: l6 => members n' l6 (set k v acc)
                                       | "}" :: l6 => Some (VObj (set k v acc), l6)
                                       | _ => None
                                       end
                                   | None => None
                                   end
                               | _ => None
                               end
                           | None => None
                           end
                         else None
                     | [] => None
                     end
                 end) (List.length l1) l1 []
          end
      | "[" :: l1 =>
          match skip_ws l1 with
          | "]" :: l2 => Some (VArr [], l2)
          | _ =>
              (fix elements (n : nat) (l : list ascii) (acc : list value) {struct n}
                 : option (value * list ascii) :=
                 match n with
                 | O => None
                 | S n' =>
                     match parse_value f l with
                     | Some (v, l5) =>
                         match skip_ws l5 with
                         | "," :: l6 => elements n' l6 (v :: acc)
                         | "]" :: l6 => Some (VArr (rev (v :: acc)), l6)
                         | _ => None
                         end
                     | None => None
                     end
                 end) (List.length l1) l1 []
          end
      | "t" :: "r" :: "u" :: "e" :: l1 => Some (VBool true, l1)
      | "f" :: "a" :: "l" :: "s" :: "e" :: l1 => Some (VBool false, l1)
      | "n" :: "u" :: "l" :: "l" :: l1 => Some (VNull, l1)
      | c :: l1 =>
          if code c =? 34 then
            match string_body l1 [] with
            | Some (s, l2) => Some (VStr s, l2)
            | None => None
            end
          else
            match number_token (c :: l1) with
            | Some (n, l2) => Some (VNum n, l2)
            | None => None
            end
      | [] => None
      end
  end.

(** [JSON.parse(text)] *)
Definition parse (text : string) : result value :=
  match parse_value (S (String.length text)) (chars text) with
  | Some (v, l) =>
      match skip_ws l with
      | [] => Ok v
      | _ => Throw SyntaxError
      end
  | None => Throw SyntaxError
  end.

End JSON.

(* ===================================================================== *)
(** ** The extractor: data and utility functions *)
(* ===================================================================== *)

Module RagExtractor.
Import JSString JSNumber JSValue Regex RegexSyntax.
Local Open Scope string_scope.
Local Open Scope list_scope.
Local Open Scope js_scope.

(** The canonical record.  A field holds whatever value the code puts
    there; [VUndefined] is a field that was never given. *)
Record ExtractedTaxData : Type := mkTaxData {
  taxpayerName : value;
  taxYear : value;
  totalIncome : value;
  totalExpenses : value;
  totalDeductions : value;
  taxableAmount : value;
  taxId : value;
  businessType : value
}.

(** The four numeric fields, as the array [numericFields] names them. *)
Inductive field : Type :=
| FtotalIncome
| FtotalExpenses
| FtotalDeductions
| FtaxableAmount.

Definition get_field (f : field) (d : ExtractedTaxData) : value :=
  match f with
  | FtotalIncome => totalIncome d
  | FtotalExpenses => totalExpenses d
  | FtotalDeductions => totalDeductions d
  | FtaxableAmount => taxableAmount d
  end.

Definition set_totalIncome (v : value) (d : ExtractedTaxData) : ExtractedTaxData :=
  mkTaxData (taxpayerName d) (taxYear d) v (totalExpenses d)
    (totalDeductions d) (taxableAmount d) (taxId d) (businessType d).

Definition set_totalExpenses (v : value) (d : ExtractedTaxData) : ExtractedTaxData :=
  mkTaxData (taxpayerName d) (taxYear d) (totalIncome d) v
    (totalDeductions d) (taxableAmount d) (taxId d) (businessType d).

Definition set_totalDeductions (v : value) (d : ExtractedTaxData) : ExtractedTaxData :=
  mkTaxData (taxpayerName d) (taxYear d) (totalIncome d) (totalExpenses d)
    v (taxableAmount d) (taxId d) (businessType d).

Definition set_taxableAmount (v : value) (d : ExtractedTaxData) : ExtractedTaxData :=
  mkTaxData (taxpayerName d) (taxYear d) (totalIncome d) (totalExpenses d)
    (totalDeductions d) v (taxId d) (businessType d).

Definition set_field (f : field) (v : value) (d : ExtractedTaxData)
  : ExtractedTaxData :=
  match f with
  | FtotalIncome => set_totalIncome v d
  | FtotalExpenses => set_totalExpenses v d
  | FtotalDeductions => set_totalDeductions v d
  | FtaxableAmount => set_taxableAmount v d
  end.

(** The eight canonical fields of a parsed object; the other keys of the
    object are not followed. *)
Definition record_of (data : value) : ExtractedTaxData :=
  mkTaxData (get "taxpayerName" data) (get "taxYear" data)
    (get "totalIncome" data) (get "totalExpenses" data)
    (get "totalDeductions" data) (get "taxableAmount" data)
    (get "taxId" data) (get "businessType" data).

(** The warnings and corrections, one constructor for each message text
    of the source, with the values the text interpolates. *)
Inductive message : Type :=
| RevenueCorrected (from to : value)
| ProfitBeforeTaxCorrected (from to : value)
| GrossProfitInconsistent
| RetainedEarningsWithoutProfit
| NetProfitExceedsProfitBeforeTax
| TaxRateUnusuallyHigh (percent : number)
| InvalidNumericValue (f : field)
| RevenueNotPositive
| ExpensesExceedRevenue
| ExpensesCapped
| TaxableCorrected (calculated : number)
| TaxableDiffers.

(** What [safeJSONParse] writes to the console. *)
Inductive parse_note : Type :=
| InitialParseFailed
| CleanedParseFailed
| AllAttemptsFailed.

(** *** The patterns of the JSON recovery *)

Definition re_fence := Eval vm_compute in RE "```(?:json)?\s*|\s*```" "g".
Definition re_line_comment := Eval vm_compute in RE "\/\/[^\n]*" "g".
Definition re_block_comment := Eval vm_compute in RE "\/\*[\s\S]*?\*\/" "g".
Definition re_trailing_comma := Eval vm_compute in RE ",(\s*[}\]])" "g".
Definition re_property_name :=
  Eval vm_compute in RE "(['\x22])?([a-zA-Z0-9_]+)(['\x22])?\s*:" "g".
Definition re_bare_value :=
  Eval vm_compute in RE ":\s*([a-zA-Z][a-zA-Z0-9_]*)\s*([,}])" "g".
Definition re_spaces := Eval vm_compute in RE "\s+" "g".
Definition re_non_printable := Eval vm_compute in RE "[^\x20-\x7E]" "g".
Definition re_trailing_comma2 := Eval vm_compute in RE ",\s*([}\]])" "g".
Definition re_unquoted_key := Eval vm_compute in RE "([a-zA-Z0-9_]+):" "g".
Definition re_single_quoted :=
  Eval vm_compute in RE ":\s*'([^']*?)'\s*([,}])" "g".
Definition re_embedded_object := Eval vm_compute in RE "{[\s\S]*}" "".

(** [cleanJSONString] *)
Definition cleanJSONString (content : string) : result string :=
  let cleaned := trim content in
  (* If content doesn't start with {, find the first { *)
  let cleaned :=
    match indexOf cleaned "{" with
    | Some firstBrace =>
        if (0 <? firstBrace)%nat then slice_from cleaned firstBrace else cleaned
    | None => cleaned
    end in
  (* If content doesn't end with }, find the last } *)
  let cleaned :=
    match lastIndexOf cleaned "}" with
    | Some lastBrace =>
        if (lastBrace <? String.length cleaned - 1)%nat
        then slice_to cleaned (lastBrace + 1)%nat else cleaned
    | None => cleaned
    end in
  (* Remove markdown code blocks *)
  let cleaned := replace re_fence EmptyString cleaned in
  (* Remove comments (both // and /* */) *)
  let cleaned := replace re_line_comment EmptyString cleaned in
  let cleaned := replace re_block_comment EmptyString cleaned in
  (* Fix common JSON formatting issues *)
  let cleaned := replace re_trailing_comma "$1" cleaned in
  let cleaned := replace re_property_name (quoted "'$2':") cleaned in
  let cleaned := replace re_bare_value (quoted ":'$1'$2") cleaned in
  let cleaned := trim (replace re_spaces " " cleaned) in
  (* Validate JSON structure *)
  if negb (startsWith cleaned "{") || negb (endsWith cleaned "}")
  then Throw (Error "Invalid JSON structure")
  else Ok cleaned.

(** The aggressive cleaning of the last resort. *)
Definition rescue (content : string) : string :=
  let rescued := replace re_non_printable EmptyString content in
  let rescued := replace re_spaces " " rescued in
  let rescued := replace re_trailing_comma2 "$1" rescued in
  let rescued := replace re_unquoted_key (quoted "'$1':") rescued in
  let rescued := replace re_single_quoted (quoted ":'$1'$2") rescued in
  let rescued := replace re_bare_value (quoted ":'$1'$2") rescued in
  (* Extract JSON object if embedded in other text *)
  match exec re_embedded_object rescued with
  | Some m => matched m
  | None => rescued
  end.

(** [safeJSONParse]: the result and the lines written to the console. *)
Definition safeJSONParse (content : string) : result value * list parse_note :=
  match JSON.parse content with
  | Ok v => (Ok v, [])
  | Throw _ =>
      match (cleaned <- cleanJSONString content ;; JSON.parse cleaned) with
      | Ok v => (Ok v, [InitialParseFailed])
      | Throw _ =>
          match JSON.parse (rescue content) with
          | Ok v => (Ok v, [InitialParseFailed; CleanedParseFailed])
          | Throw _ =>
              (Throw (Error "Failed to parse JSON after multiple attempts"),
               [InitialParseFailed; CleanedParseFailed; AllAttemptsFailed])
          end
      end
  end.

(** *** Utility functions *)

Definition re_comma := Eval vm_compute in RE "," "g".
Definition re_parens := Eval vm_compute in RE "[()]" "g".
Definition re_year := Eval vm_compute in RE "(?:20\d{2})" "".
Definition re_limited_line := Eval vm_compute in RE "\b\w+.*LIMITED\b" "i".
Definition re_limited := Eval vm_compute in RE "LIMITED" "i".
Definition re_company :=
  Eval vm_compute in RE "^([A-Z][A-Z\s&]+(?:COMPANY|LIMITED|LTD|INC|CORP))" "m".
Definition re_technology := Eval vm_compute in RE "TECHNOLOGY|TECH|SOFTWARE|IT" "i".
Definition re_trading := Eval vm_compute in RE "TRADING|TRADE" "i".
Definition re_construction := Eval vm_compute in RE "CONSTRUCTION|BUILD" "i".

(** [!match || !match[1]]: no match, or a first group that is missing
    or empty. *)
Definition group1 (m : option found) : option string :=
  match m with
  | Some f =>
      match group 1 f with
      | Some s => if string_eqb s EmptyString then None else Some s
      | None => None
      end
  | None => None
  end.

(** [parseAmount] *)
Definition parseAmount (m : option found) : number :=
  match group1 m with
  | None => zero
  | Some g =>
      let numStr := replace re_comma EmptyString g in
      if includes numStr "(" && includes numStr ")"
      then neg (parseFloat (replace re_parens EmptyString numStr))
      else parseFloat numStr
  end.

(** The first element of a list that satisfies [p], with its index. *)
Fixpoint find_index {A : Type} (p : A -> bool) (l : list A) (i : nat)
  : option (nat * A) :=
  match l with
  | [] => None
  | x :: l' => if p x then Some (i, x) else find_index p l' (S i)
  end.

(** The name and type read off a line that holds the word LIMITED. *)
Definition limited_line (trimmedLine : string) : string * option string :=
  let words := split space trimmedLine in
  match find_index (test re_limited) words 0 with
  | Some (limitedIndex, _) =>
      if (0 <? limitedIndex)%nat
      then (trimmedLine, Some (trim (join " " (firstn limitedIndex words))))
      else (trimmedLine, None)
  | None => (trimmedLine, None)
  end.

Definition is_limited_line (line : string) : bool :=
  let trimmedLine := trim line in
  negb (string_eqb trimmedLine EmptyString) && test re_limited_line trimmedLine.

(** The type inferred from the words of a name. *)
Definition inferred_type (name type : string) : string :=
  if test re_technology name then "Technology"
  else if test re_trading name then "Trading"
  else if test re_construction name then "Construction"
  else type.

(** [extractCompanyInfo]: the name and the type. *)
Definition extractCompanyInfo (text : string) : string * string :=
  let name := "Not provided" in
  let type := "Not provided" in
  let lines := split newline text in
  (* Look for company name patterns *)
  let '(name, type) :=
    match find is_limited_line lines with
    | Some line =>
        match limited_line (trim line) with
        | (n, Some t) => (n, t)
        | (n, None) => (n, type)
        end
    | None => (name, type)
    end in
  (* Try alternative patterns if needed *)
  if string_eqb name "Not provided" then
    match exec re_company text with
    | Some m =>
        let name := trim (match group 1 m with Some s => s | None => EmptyString end) in
        (name, inferred_type name type)
    | None => (name, type)
    end
  else (name, type).

(** [validateNumericValue] *)
Definition validateNumericValue (v : value) : number :=
  match v with
  | VNum n => if isNaN n || negb (isFinite n) then zero else n
  | _ => zero
  end.

(** [validateExpensesRatio] *)
Definition MAX_EXPENSE_RATIO : number := of_Z 5.

Definition validateExpensesRatio (expenses income : number) : number :=
  if gt income zero && gt expenses (mul income (of_Z 3))
  then min expenses (mul income MAX_EXPENSE_RATIO)
  else expenses.

(** [validateTaxableAmount]: the value and the optional warning. *)
Definition validateTaxableAmount (taxableAmount calculatedTaxable totalIncome : number)
  : number * option message :=
  let taxableDifference := abs (sub calculatedTaxable taxableAmount) in
  let significantDifference := max (of_Z 1000) (mul totalIncome (Fin (1 # 10))) in
  if gt taxableDifference significantDifference then
    if eq taxableAmount zero && negb (eq calculatedTaxable zero)
    then (calculatedTaxable, Some (TaxableCorrected calculatedTaxable))
    else (taxableAmount, Some TaxableDiffers)
  else (taxableAmount, None).

(** *** Reading the document text *)

Definition re_header1 := Eval vm_compute in RE "Statement\s+of.*for\s+(.+)" "i".
Definition re_header2 := Eval vm_compute in RE "Financial\s+Statements.*of\s+(.+)" "i".
Definition re_header3 := Eval vm_compute in RE "(.+)\s+Financial\s+Statements" "i".

(** The first header pattern whose capture has a plausible length. *)
Fixpoint header_name (documentText : string) (headerPatterns : list RegExp)
  : option string :=
  match headerPatterns with
  | [] => None
  | pattern :: others =>
      match group1 (exec pattern documentText) with
      | Some g =>
          let extracted := trim g in
          if (3 <? String.length extracted)%nat && (String.length extracted <? 100)%nat
          then Some extracted
          else header_name documentText others
      | None => header_name documentText others
      end
  end.

(** [extractCompanyDetails]: the company name and the business type. *)
Definition extractCompanyDetails (documentText : string) : string * string :=
  (* Patterns 1 and 2 are those of extractCompanyInfo *)
  let '(companyName, businessType) := extractCompanyInfo documentText in
  (* Pattern 3: Look for common financial statement headers *)
  if string_eqb companyName "Not provided" then
    match header_name documentText [re_header1; re_header2; re_header3] with
    | Some extracted => (extracted, businessType)
    | None => (companyName, businessType)
    end
  else (companyName, businessType).

Definition re_revenue_amount := Eval vm_compute in RE "Revenue[^\d]+([-\d,()]+)" "i".
Definition re_other_income := Eval vm_compute in RE "Other\s+income[^\d]+([-\d,()]+)" "i".
Definition re_general_expenses :=
  Eval vm_compute in RE "(?:General|Administrative|Operating)\s+expenses?[^\d]+([-\d,()]+)" "i".
Definition re_cost_of_sales := Eval vm_compute in RE "Cost\s+of\s+sales[^\d]+([-\d,()]+)" "i".
Definition re_direct_expenses := Eval vm_compute in RE "Direct\s+expenses?[^\d]+([-\d,()]+)" "i".
Definition re_capital_allowances :=
  Eval vm_compute in RE "Capital\s+allowances?[^\d]+([-\d,()]+)" "i".
Definition re_depreciation := Eval vm_compute in RE "Depreciation[^\d]+([-\d,()]+)" "i".
Definition re_tax_relief := Eval vm_compute in RE "Tax\s+relief[^\d]+([-\d,()]+)" "i".
Definition re_allowable_deductions :=
  Eval vm_compute in RE "Allowable\s+deductions?[^\d]+([-\d,()]+)" "i".
Definition re_profit_before_tax :=
  Eval vm_compute in RE "Profit\s+before\s+tax[^\d]+([-\d,()]+)" "i".

(** The four amounts of [extractTaxAmounts]. *)
Record TaxAmounts : Type := mkAmounts {
  amtIncome : number;
  amtExpenses : number;
  amtDeductions : number;
  amtTaxable : number
}.

(** [matches.reduce((sum, match) => sum + parseAmount(match), 0)] *)
Definition sum_amounts (matches : list (option found)) : number :=
  fold_left (fun sum m => add sum (parseAmount m)) matches zero.

(** [extractTaxAmounts] *)
Definition extractTaxAmounts (content : string) : TaxAmounts :=
  (* Look for revenue/income *)
  let revenueMatch := exec re_revenue_amount content in
  let otherIncomeMatch := exec re_other_income content in
  let totalIncome := add (parseAmount revenueMatch) (parseAmount otherIncomeMatch) in
  (* Look for expenses *)
  let expensesMatches :=
    [exec re_general_expenses content;
     exec re_cost_of_sales content;
     exec re_direct_expenses content] in
  let totalExpenses := sum_amounts expensesMatches in
  (* Look for deductions *)
  let deductionMatches :=
    [exec re_capital_allowances content;
     exec re_depreciation content;
     exec re_tax_relief content;
     exec re_allowable_deductions content] in
  let totalDeductions := sum_amounts deductionMatches in
  (* Look for profit/loss before tax *)
  let profitMatch := exec re_profit_before_tax content in
  let taxableAmount := parseAmount profitMatch in
  (* If taxable amount is not found, calculate it *)
  let taxableAmount :=
    if eq taxableAmount zero
    then sub (sub totalIncome totalExpenses) totalDeductions
    else taxableAmount in
  mkAmounts totalIncome totalExpenses totalDeductions taxableAmount.

(** *** Cross-validation and soft constraints *)

Record ValidationResults : Type := mkResults {
  correctedRevenue : option value;
  correctedProfitBeforeTax : option value;
  warnings : list message;
  corrections : list message
}.

(** [c || v] for a correction [c] that is a value or null. *)
Definition or_null (c : option value) (v : value) : value :=
  or (match c with Some x => x | None => VNull end) v.

(** [performCrossValidation] *)
Definition performCrossValidation (validation : value) (data : ExtractedTaxData)
  : ValidationResults :=
  let revenue_v := get "revenue" validation in
  let profitBeforeTax_v := get "profitBeforeTax" validation in
  let netProfitAfterTax_v := get "netProfitAfterTax" validation in
  let retainedEarnings_v := get "retainedEarnings" validation in
  let costOfSales_v := get "costOfSales" validation in
  (* 1. Revenue validation *)
  let correctedRevenue :=
    if ToBoolean revenue_v && negb (strict_eq revenue_v (totalIncome data)) then
      if v_gt revenue_v (num 0) &&
         (strict_eq (totalIncome data) (num 0) ||
          gt (div (abs (v_sub revenue_v (totalIncome data))) (ToNumber revenue_v))
             (Fin (1 # 10)))
      then Some revenue_v else None
    else None in
  let corrections1 :=
    match correctedRevenue with
    | Some r => [RevenueCorrected (totalIncome data) r]
    | None => []
    end in
  (* 2. Profit Before Tax validation *)
  let correctedProfitBeforeTax :=
    if ToBoolean profitBeforeTax_v &&
       negb (strict_eq profitBeforeTax_v (taxableAmount data)) then
      if gt (abs (v_sub profitBeforeTax_v (taxableAmount data))) (of_Z 100)
      then Some profitBeforeTax_v else None
    else None in
  let corrections2 :=
    match correctedProfitBeforeTax with
    | Some p => [ProfitBeforeTaxCorrected (taxableAmount data) p]
    | None => []
    end in
  (* 3. Mathematical consistency checks; the source also binds
     profitBeforeTax here and never reads it *)
  let revenue := or_null correctedRevenue (totalIncome data) in
  let warnings3 :=
    if v_gt revenue (num 0) && v_gt (totalExpenses data) (num 0) then
      let grossProfit := v_sub revenue (totalExpenses data) in
      if ToBoolean costOfSales_v then
        let expectedGrossProfit := v_sub revenue costOfSales_v in
        if gt (div (abs (sub grossProfit expectedGrossProfit)) (ToNumber revenue))
              (Fin (2 # 10))
        then [GrossProfitInconsistent] else []
      else []
    else [] in
  (* 4. Retained earnings consistency *)
  let warnings4 :=
    if ToBoolean retainedEarnings_v && ToBoolean netProfitAfterTax_v then
      if v_gt retainedEarnings_v (num 0) && v_le netProfitAfterTax_v (num 0)
      then [RetainedEarningsWithoutProfit] else []
    else [] in
  (* 5. Profit before tax vs after tax relationship *)
  let warnings5 :=
    if ToBoolean profitBeforeTax_v && ToBoolean netProfitAfterTax_v then
      let taxAmount := v_sub profitBeforeTax_v netProfitAfterTax_v in
      if lt taxAmount zero then [NetProfitExceedsProfitBeforeTax]
      else if v_gt profitBeforeTax_v (num 0) &&
              gt (div taxAmount (ToNumber profitBeforeTax_v)) (Fin (5 # 10))
      then [TaxRateUnusuallyHigh
              (mul (div taxAmount (ToNumber profitBeforeTax_v)) (of_Z 100))]
      else []
    else [] in
  mkResults correctedRevenue correctedProfitBeforeTax
    (warnings3 ++ warnings4 ++ warnings5) (corrections1 ++ corrections2).

Definition numericFields : list field :=
  [FtotalIncome; FtotalExpenses; FtotalDeductions; FtaxableAmount].

(** One turn of the loop over [numericFields]. *)
Definition validate_field (st : ExtractedTaxData * list message) (f : field)
  : ExtractedTaxData * list message :=
  let '(constrainedData, warnings) := st in
  let originalValue := get_field f constrainedData in
  let validatedValue := validateNumericValue originalValue in
  if negb (strict_eq (VNum validatedValue) originalValue)
  then (set_field f (VNum validatedValue) constrainedData,
        warnings ++ [InvalidNumericValue f])
  else (constrainedData, warnings).

(** [applySoftConstraints]: the constrained record and the warnings it
    writes to the console. *)
Definition applySoftConstraints (data : ExtractedTaxData)
  : ExtractedTaxData * list message :=
  (* Validate numeric fields *)
  let '(constrainedData, warnings) := fold_left validate_field numericFields (data, []) in
  (* Validate revenue *)
  let warnings :=
    if v_le (totalIncome constrainedData) (num 0) &&
       negb (strict_eq (businessType constrainedData) (VStr "Holding Company"))
    then warnings ++ [RevenueNotPositive] else warnings in
  (* Validate and adjust expenses if needed *)
  let validatedExpenses :=
    validateExpensesRatio (ToNumber (totalExpenses constrainedData))
      (ToNumber (totalIncome constrainedData)) in
  let '(constrainedData, warnings) :=
    if negb (strict_eq (VNum validatedExpenses) (totalExpenses constrainedData))
    then (set_totalExpenses (VNum validatedExpenses) constrainedData,
          warnings ++ [ExpensesCapped])
    else (constrainedData, warnings) in
  (* Validate taxable amount *)
  let calculatedTaxable :=
    sub (v_sub (totalIncome constrainedData) (totalExpenses constrainedData))
        (ToNumber (totalDeductions constrainedData)) in
  let '(validatedTaxable, taxableWarning) :=
    validateTaxableAmount (ToNumber (taxableAmount constrainedData))
      calculatedTaxable (ToNumber (totalIncome constrainedData)) in
  match taxableWarning with
  | Some w => (set_taxableAmount (VNum validatedTaxable) constrainedData, warnings ++ [w])
  | None => (constrainedData, warnings)
  end.

(** What [validateExtractedData] writes to the console besides the
    record it returns. *)
Record Diagnostics : Type := mkDiagnostics {
  validationWarnings : list message;
  appliedCorrections : list message;
  constraintWarnings : list message
}.

(** [validateExtractedData] *)
Definition validateExtractedData (data : value) : ExtractedTaxData * Diagnostics :=
  let validationData := get "validationData" data in
  let validatedData := record_of data in
  let '(validatedData, ws, cs) :=
    if ToBoolean validationData then
      (* Cross-verification checks *)
      let validationResults := performCrossValidation validationData (record_of data) in
      (* Apply corrections based on validation *)
      let validatedData :=
        match correctedRevenue validationResults with
        | Some r => set_totalIncome r validatedData
        | None => validatedData
        end in
      let validatedData :=
        match correctedProfitBeforeTax validationResults with
        | Some p => set_taxableAmount p validatedData
        | None => validatedData
        end in
      (validatedData, warnings validationResults, corrections validationResults)
    else (validatedData, [], []) in
  (* Apply soft constraints *)
  let '(validatedData, constraint_ws) := applySoftConstraints validatedData in
  (validatedData, mkDiagnostics ws cs constraint_ws).

(** *** Amounts scanned from the lines of the document

    The cedi sign and the letters GH followed by the cent sign are
    written as their UTF-8 bytes. *)

Definition re_paren_cedis :=
  Eval vm_compute in RE "\(\s*(?:GH\xC2\xA2|\xE2\x82\xB5)?\s*([\d,]+(?:\.\d+)?)\s*\)" "".
Definition re_cedis :=
  Eval vm_compute in RE "(?:GH\xC2\xA2|\xE2\x82\xB5)\s*([\d,]+(?:\.\d+)?)" "".
Definition re_paren_number := Eval vm_compute in RE "\(\s*([\d,]+(?:\.\d+)?)\s*\)" "".
Definition re_number := Eval vm_compute in RE "([\d,]+(?:\.\d+)?)" "".

Definition revenuePatterns : list RegExp := Eval vm_compute in
  [RE "Revenue\s+(?:GH\xC2\xA2)?\s*(\d{1,3}(?:,\d{3})*(?:\.\d+)?)" "i";
   RE "Sales\s+(?:GH\xC2\xA2)?\s*(\d{1,3}(?:,\d{3})*(?:\.\d+)?)" "i";
   RE "Turnover\s+(?:GH\xC2\xA2)?\s*(\d{1,3}(?:,\d{3})*(?:\.\d+)?)" "i"].

Definition profitPatterns : list RegExp := Eval vm_compute in
  [RE "Profit\s+before\s+tax\s+\((\d{1,3}(?:,\d{3})*(?:\.\d+)?)\)" "i";
   RE "Profit\s+before\s+tax\s+(?:GH\xC2\xA2)?\s*(\d{1,3}(?:,\d{3})*(?:\.\d+)?)" "i";
   RE "Profit.*before.*tax.*\((\d{1,3}(?:,\d{3})*(?:\.\d+)?)\)" "i"].

Definition expensePatterns : list RegExp := Eval vm_compute in
  [RE "General\s*&?\s*(?:admin?\.?|administrative)\s*expenses?\s+\((\d{1,3}(?:,\d{3})*(?:\.\d+)?)\)" "i";
   RE "Operating\s+expenses?\s+(?:GH\xC2\xA2)?\s*(\d{1,3}(?:,\d{3})*(?:\.\d+)?)" "i";
   RE "Total\s+(?:GH\xC2\xA2)?\s*(\d{1,3}(?:,\d{3})*(?:\.\d+)?)" "i"].

Definition deductionPatterns : list RegExp := Eval vm_compute in
  [RE "Capital\s+[Aa]llowances?\s+\((\d{1,3}(?:,\d{3})*(?:\.\d+)?)\)" "i";
   RE "Capital\s+[Aa]llowances?\s+(?:GH\xC2\xA2)?\s*(\d{1,3}(?:,\d{3})*(?:\.\d+)?)" "i";
   RE "Depreciation\s+(?:GH\xC2\xA2)?\s*(\d{1,3}(?:,\d{3})*(?:\.\d+)?)" "i"].

Fixpoint first_some {A B : Type} (f : A -> option B) (l : list A) : option B :=
  match l with
  | [] => None
  | x :: l' => match f x with Some y => Some y | None => first_some f l' end
  end.

(** The amount of one element of [numberMatches], when the loop
    returns on it. *)
Definition amount_of_match (m : option found) : option number :=
  match m, group1 m with
  | Some f, Some g =>
      (* Remove commas and convert to number *)
      let amount := parseFloat (replace re_comma EmptyString g) in
      (* Handle negative amounts (parentheses notation) *)
      let amount :=
        if includes (matched f) "(" && includes (matched f) ")"
        then neg (abs amount) else amount in
      if negb (isNaN amount) && negb (eq amount zero) then Some amount else None
  | _, _ => None
  end.

Definition line_amount (pattern : RegExp) (line : string) : option number :=
  if test pattern line then
    let numberMatches :=
      [exec re_paren_cedis line;   (* Ghana Cedis with parentheses (negative) *)
       exec re_cedis line;         (* Ghana Cedis positive amounts *)
       exec re_paren_number line;  (* Numbers in parentheses (negative) *)
       exec re_number line]        (* Regular positive numbers *) in
    first_some amount_of_match numberMatches
  else None.

(** The first of [patterns] that matches [text]. *)
Fixpoint first_match (text : string) (patterns : list RegExp)
  : option (RegExp * found) :=
  match patterns with
  | [] => None
  | p :: ps =>
      match exec p text with
      | Some m => Some (p, m)
      | None => first_match text ps
      end
  end.

Definition captured_amount (m : found) : number :=
  parseFloat (replace re_comma EmptyString
                (match group 1 m with Some g => g | None => EmptyString end)).

(** The backslash followed by an opening parenthesis. *)
Definition escaped_paren : string := String (ascii_of_nat 92) "(".

(** [extractAmountFromText] *)
Definition extractAmountFromText (text : string) (pattern : RegExp) : number :=
  let lines := split newline text in
  match first_some (line_amount pattern) lines with
  | Some amount => amount
  | None =>
      (* Enhanced specific searches for Ghana financial statements *)
      let revenue :=
        if includes (source pattern) "revenue" then
          option_map (fun pm => captured_amount (snd pm)) (first_match text revenuePatterns)
        else None in
      let profit :=
        if includes (source pattern) "profit.*before.*tax" then
          option_map (fun pm =>
              let amount := captured_amount (snd pm) in
              (* If found in parentheses pattern, make it negative *)
              if includes (source (fst pm)) escaped_paren then neg amount else amount)
            (first_match text profitPatterns)
        else None in
      let expenses :=
        if includes (source pattern) "expenses" then
          option_map (fun pm => captured_amount (snd pm)) (first_match text expensePatterns)
        else None in
      let deductions :=
        if includes (source pattern) "capital.*allowances?|deductions?" then
          option_map (fun pm => captured_amount (snd pm)) (first_match text deductionPatterns)
        else None in
      match revenue, profit, expenses, deductions with
      | Some a, _, _, _ => a
      | None, Some a, _, _ => a
      | None, None, Some a, _ => a
      | None, None, None, Some a => a
      | None, None, None, None => zero
      end
  end.

(** *** The shapes of a parsed response *)

Definition simplifiedKeys : list string :=
  ["Revenue"; "ProfitBeforeTax"; "Expenses"; "Income"; "Sales"; "Turnover"].

(** [isSimplifiedResponse] *)
Definition isSimplifiedResponse (data : value) : result bool :=
  if existsb (fun key => existsb (string_eqb key) simplifiedKeys) (keys data) then
    a <- has "taxpayerName" data ;;
    if a then Ok false else
    b <- has "Balance_Sheet" data ;;
    if b then Ok false else
    c <- has "Profit_and_Loss" data ;;
    Ok (negb c)
  else Ok false.

Definition re_simple_revenue := Eval vm_compute in RE "revenue|sales|turnover" "i".
Definition re_simple_expenses := Eval vm_compute in RE "expenses|costs" "i".
Definition re_simple_profit := Eval vm_compute in RE "profit.*before.*tax" "i".
Definition re_simple_deductions :=
  Eval vm_compute in RE "capital.*allowances?|deductions?" "i".

Definition re_item_revenue := Eval vm_compute in RE "revenue|income|sales|turnover" "i".
Definition re_item_expenses := Eval vm_compute in
  RE "(?:general|administrative|operating|total).*expenses?|expenses?.*(?:general|administrative|operating|total)" "i".
Definition re_item_profit :=
  Eval vm_compute in RE "profit.*before.*tax|income.*before.*tax" "i".
Definition re_item_deductions :=
  Eval vm_compute in RE "capital.*allowances?|depreciation|deductions?|tax.*relief" "i".

(** [items.find(item => accountPattern.test(item.Account))]; reading
    [Account] of an element that is null or undefined throws. *)
Fixpoint find_item (accountPattern : RegExp) (items : list value)
  : result (option value) :=
  match items with
  | [] => Ok None
  | item :: others =>
      account <- member "Account" item ;;
      if test accountPattern (ToString account) then Ok (Some item)
      else find_item accountPattern others
  end.

(** The loop over [propertyNames]: the first property that is a number
    and not NaN, or 0. *)
Fixpoint first_numeric (matchingItem : value) (propertyNames : list string) : number :=
  match propertyNames with
  | [] => zero
  | prop :: others =>
      match get prop matchingItem with
      | VNum n => if negb (isNaN n) then n else first_numeric matchingItem others
      | _ => first_numeric matchingItem others
      end
  end.

(** [findFinancialItem] *)
Definition findFinancialItem (items : list value) (accountPattern : RegExp)
  (propertyNames : list string) : result number :=
  matchingItem <- find_item accountPattern items ;;
  match matchingItem with
  | None => Ok zero
  | Some item =>
      if negb (ToBoolean item) then Ok zero
      else Ok (first_numeric item propertyNames)
  end.

Record FinancialData : Type := mkFinancial {
  fdRevenue : number;
  fdExpenses : number;
  fdDeductions : number;
  fdProfitBeforeTax : number;
  fdRetainedEarnings : value
}.

(** [Array.isArray(v) ? v : []] *)
Definition array_or_empty (v : value) : list value :=
  match v with VArr l => l | _ => [] end.

(** [extractFinancialData] *)
Definition extractFinancialData (data : value) : result FinancialData :=
  (* Ensure arrays exist *)
  let profitAndLoss := array_or_empty (get "Profit_and_Loss" data) in
  let retainedEarningsData := array_or_empty (get "Retained_Earnings" data) in
  (* Extract revenue with flexible matching *)
  revenue <- findFinancialItem profitAndLoss re_item_revenue
               ["Amount"; "Expenses"; "Total_Income"] ;;
  (* Extract expenses *)
  expenses <- findFinancialItem profitAndLoss re_item_expenses
                ["Expenses"; "Amount"; "Cost"; "Total_Expenses"] ;;
  (* Extract profit before tax *)
  profitBeforeTax <- findFinancialItem profitAndLoss re_item_profit ["Amount"] ;;
  (* Extract deductions/allowances *)
  deductions <- findFinancialItem profitAndLoss re_item_deductions
                  ["Amount"; "Expenses"] ;;
  (* Extract retained earnings *)
  let retainedEarnings :=
    or (match retainedEarningsData with
        | first :: _ => get "Retained_Earnings" first
        | [] => VUndefined
        end) (num 0) in
  Ok (mkFinancial revenue expenses deductions profitBeforeTax retainedEarnings).

Section Clock.

(** [new Date().getFullYear()] *)
Variable currentYear : Z.

(** [extractYearFromText] and the method [extractTaxYear], which read
    the same. *)
Definition extractYearFromText (text : string) : number :=
  match exec re_year text with
  | Some yearMatch => parseInt (matched yearMatch)
  | None => of_Z currentYear
  end.

Definition extractTaxYear (documentText : string) : number :=
  extractYearFromText documentText.

(** [getDefaultTaxData] *)
Definition getDefaultTaxData : ExtractedTaxData :=
  mkTaxData (VStr "Not provided") (num currentYear) (num 0) (num 0) (num 0)
    (num 0) (VStr "Not provided") (VStr "Not specified").

(** [parseSimplifiedResponse] *)
Definition parseSimplifiedResponse (data : value) (originalDocumentText : string)
  : ExtractedTaxData :=
  (* Extract company details and tax year from document text *)
  let '(companyName, businessType) := extractCompanyDetails originalDocumentText in
  let taxYear := extractTaxYear originalDocumentText in
  (* Map simplified keys to our standard format *)
  let revenue :=
    or (or (or (or (get "Revenue" data) (get "Income" data)) (get "Sales" data))
           (get "Turnover" data))
       (VNum (extractAmountFromText originalDocumentText re_simple_revenue)) in
  let expenses :=
    or (or (get "Expenses" data) (get "TotalExpenses" data))
       (VNum (extractAmountFromText originalDocumentText re_simple_expenses)) in
  let profitBeforeTax :=
    or (or (get "ProfitBeforeTax" data) (get "Profit_Before_Tax" data))
       (VNum (extractAmountFromText originalDocumentText re_simple_profit)) in
  let deductions :=
    or (or (get "Deductions" data) (get "CapitalAllowances" data))
       (VNum (extractAmountFromText originalDocumentText re_simple_deductions)) in
  let extractedData :=
    mkTaxData (VStr companyName) (VNum taxYear) revenue expenses deductions
      (or profitBeforeTax
          (VNum (sub (v_sub revenue expenses) (ToNumber deductions))))
      (VStr "Not provided") (VStr businessType) in
  fst (applySoftConstraints extractedData).

(** [parseFinancialStatementFormat] *)
Definition parseFinancialStatementFormat (data : value) (originalDocumentText : string)
  : result ExtractedTaxData :=
  (* Extract basic info *)
  let '(companyName, businessType) := extractCompanyInfo originalDocumentText in
  let taxYear := extractYearFromText originalDocumentText in
  (* Safely extract financial data *)
  financialData <- extractFinancialData data ;;
  let result :=
    mkTaxData (VStr companyName) (VNum taxYear)
      (VNum (fdRevenue financialData)) (VNum (fdExpenses financialData))
      (VNum (fdDeductions financialData))
      (or (VNum (fdProfitBeforeTax financialData))
          (VNum (sub (sub (fdRevenue financialData) (fdExpenses financialData))
                     (fdDeductions financialData))))
      (VStr "Not provided") (VStr businessType) in
  Ok (fst (applySoftConstraints result)).

(** [extractFromRawText] *)
Definition extractFromRawText (text : string) : ExtractedTaxData :=
  let '(companyName, businessType) := extractCompanyInfo text in
  let taxYear := extractYearFromText text in
  let amounts := extractTaxAmounts text in
  mkTaxData (VStr companyName) (VNum taxYear)
    (VNum (amtIncome amounts)) (VNum (amtExpenses amounts))
    (VNum (amtDeductions amounts)) (VNum (amtTaxable amounts))
    (VStr "Not provided") (VStr businessType).

(** [typeof v === 'number' ? v : 0] *)
Definition number_or_zero (v : value) : value :=
  if is_number v then v else num 0.

(** [processStandardFormat] *)
Definition processStandardFormat (data : value) (originalText : string)
  : ExtractedTaxData :=
  let breakdown := get "detailedBreakdown" data in
  (* Use detailed breakdown if available *)
  if ToBoolean breakdown then
    let normalizedData :=
      mkTaxData
        (or (get "taxpayerName" data) (VStr "Not provided"))
        (or (get "taxYear" data) (num currentYear))
        (or (or (get "revenue" breakdown) (get "totalIncome" data)) (num 0))
        (or (or (get "generalAdminExpenses" breakdown) (get "totalExpenses" data)) (num 0))
        (or (or (or (get "capitalAllowances" breakdown) (get "depreciation" breakdown))
                (get "totalDeductions" data)) (num 0))
        (or (or (or (get "profitBeforeTax" breakdown) (get "chargeableIncome" breakdown))
                (get "taxableAmount" data)) (num 0))
        (or (get "taxId" data) (VStr "Not provided"))
        (or (get "businessType" data) (VStr "Not provided")) in
    fst (applySoftConstraints normalizedData)
  else
    (* Standard format processing *)
    let normalizedData :=
      mkTaxData
        (or (get "taxpayerName" data) (VStr "Not provided"))
        (or (get "taxYear" data) (num currentYear))
        (number_or_zero (get "totalIncome" data))
        (number_or_zero (get "totalExpenses" data))
        (number_or_zero (get "totalDeductions" data))
        (number_or_zero (get "taxableAmount" data))
        (or (get "taxId" data) (VStr "Not provided"))
        (or (get "businessType" data) (VStr "Not provided")) in
    fst (applySoftConstraints normalizedData).

(** [originalDocumentText || content] for an optional first operand. *)
Definition text_or (originalDocumentText : option string) (content : string) : string :=
  match originalDocumentText with
  | Some t => if string_eqb t EmptyString then content else t
  | None => content
  end.

(** The shape of a parsed response, in the order the tests are made. *)
Inductive shape : Type :=
| Enhanced
| FinancialStatement
| Simplified
| Standard.

Definition classify (extractedData : value) : result shape :=
  v <- has "validationData" extractedData ;;
  if v then Ok Enhanced else
  b <- has "Balance_Sheet" extractedData ;;
  p <- (if b then Ok true else has "Profit_and_Loss" extractedData) ;;
  if p then Ok FinancialStatement else
  s <- isSimplifiedResponse extractedData ;;
  if s then Ok Simplified else Ok Standard.

(** [parseAIResponse] *)
Definition parseAIResponse (content : string) (originalDocumentText : option string)
  : ExtractedTaxData :=
  let text := text_or originalDocumentText content in
  match fst (safeJSONParse content) with
  | Throw _ =>
      (* All JSON parsing attempts failed, falling back to text extraction *)
      extractFromRawText text
  | Ok extractedData =>
      let handled :=
        (* Handle different response formats *)
        if negb (ToBoolean extractedData) then Ok (extractFromRawText text)
        else
          s <- classify extractedData ;;
          match s with
          | Enhanced => Ok (fst (validateExtractedData extractedData))
          | FinancialStatement => parseFinancialStatementFormat extractedData text
          | Simplified => Ok (parseSimplifiedResponse extractedData text)
          | Standard => Ok (processStandardFormat extractedData text)
          end in
      match handled with
      | Ok r => r
      | Throw _ => extractFromRawText text
      end
  end.

End Clock.

(** *** The providers

    The three clients live outside the program.  A call to one of them
    is a step of the outside world: it returns the reply or throws, and
    leaves the world changed. *)

(** The state of a [RAGExtractor]: which clients were created, and the
    two provider settings. *)
Record Extractor : Type := mkExtractor {
  llm : bool;
  openai : bool;
  claude : bool;
  vectorStore : bool;
  embeddings : bool;
  availableProviders : list string;
  preferredProvider : string
}.

(** [getProvidersToTry] *)
Definition getProvidersToTry (this : Extractor) : list string :=
  if existsb (string_eqb (preferredProvider this)) (availableProviders this)
  then preferredProvider this ::
       filter (fun p => negb (string_eqb p (preferredProvider this)))
         (availableProviders this)
  else availableProviders this.

(** [isAIEnabled] *)
Definition isAIEnabled (this : Extractor) : bool :=
  (0 <? List.length (availableProviders this))%nat.

Section Providers.

Variable currentYear : Z.
Variable World : Type.

(** [llm.invoke(prompt)] of the local model: the reply. *)
Variable ollama_invoke : string -> World -> result string * World.
(** [openai.chat.completions.create]: the content of the first choice,
    when there is one. *)
Variable openai_create : string -> World -> result (option string) * World.
(** [claude.messages.create]: the content blocks of the reply, each with
    its type and text, when the reply has a content. *)
Variable claude_create : string -> World -> result (option (list (string * string))) * World.
(** [vectorStore.addDocuments]; a failure is caught and ignored. *)
Variable addDocuments : string -> string -> World -> World.
(** The fixed instructions of the extraction prompt, before the context
    and the document. *)
Variable instructions : string.

(** [buildExtractionPrompt]: the instructions, the context and the
    document text, in this order. *)
Definition buildExtractionPrompt (documentText context : string) : string :=
  instructions ++ "Additional context: " ++ context ++
  "Document text: " ++ documentText ++
  "Return the complete JSON object with ALL extracted financial data:".

(** [extractWithOllama] *)
Definition extractWithOllama (this : Extractor) (prompt originalDocumentText : string)
  (w : World) : result ExtractedTaxData * World :=
  if negb (llm this) then (Throw (Error "Ollama not initialized"), w)
  else
    match ollama_invoke prompt w with
    | (Ok response, w') =>
        (Ok (parseAIResponse currentYear response (Some originalDocumentText)), w')
    | (Throw e, w') => (Throw e, w')
    end.

(** [extractWithOpenAI] *)
Definition extractWithOpenAI (this : Extractor) (prompt originalDocumentText : string)
  (w : World) : result ExtractedTaxData * World :=
  if negb (openai this) then (Throw (Error "OpenAI not initialized"), w)
  else
    match openai_create prompt w with
    | (Ok response, w') =>
        let content :=
          match response with
          | Some c => c
          | None => EmptyString
          end in
        (Ok (parseAIResponse currentYear content (Some originalDocumentText)), w')
    | (Throw e, w') => (Throw e, w')
    end.

(** [extractWithClaude] *)
Definition extractWithClaude (this : Extractor) (prompt originalDocumentText : string)
  (w : World) : result ExtractedTaxData * World :=
  if negb (claude this) then (Throw (Error "Claude not initialized"), w)
  else
    match claude_create prompt w with
    | (Ok response, w') =>
        match response with
        | None | Some [] => (Throw (Error "Empty response from Claude"), w')
        | Some blocks =>
            let content :=
              join EmptyString
                (map snd (filter (fun block => string_eqb (fst block) "text") blocks)) in
            if string_eqb content EmptyString
            then (Throw (Error "No text content in Claude response"), w')
            else (Ok (parseAIResponse currentYear content (Some originalDocumentText)), w')
        end
    | (Throw e, w') => (Throw e, w')
    end.

(** [extractWithProvider] *)
Definition extractWithProvider (this : Extractor) (provider documentText context : string)
  (w : World) : result ExtractedTaxData * World :=
  let prompt := buildExtractionPrompt documentText context in
  if string_eqb provider "ollama" then extractWithOllama this prompt documentText w
  else if string_eqb provider "openai" then extractWithOpenAI this prompt documentText w
  else if string_eqb provider "claude" then extractWithClaude this prompt documentText w
  else (Throw (Error ("Unknown provider: " ++ provider)), w).

(** The loop over [providersToTry]: the first provider that does not
    throw gives the result; after the last one the default record. *)
Fixpoint try_providers (this : Extractor) (providersToTry : list string)
  (documentText context : string) (w : World) : ExtractedTaxData * World :=
  match providersToTry with
  | [] => (getDefaultTaxData currentYear, w)
  | provider :: others =>
      match extractWithProvider this provider documentText context w with
      | (Ok result, w') => (result, w')
      | (Throw _, w') => try_providers this others documentText context w'
      end
  end.

(** [extractTaxData] *)
Definition extractTaxData (this : Extractor) (documentText context : string) (w : World)
  : ExtractedTaxData * World :=
  if (List.length (availableProviders this) =? 0)%nat
  then (getDefaultTaxData currentYear, w)
  else
    (* Store document in vector store for RAG if available *)
    let w :=
      if vectorStore this && embeddings this
      then addDocuments documentText context w else w in
    (* Try providers in order of preference *)
    let providersToTry := getProvidersToTry this in
    try_providers this providersToTry documentText context w.

End Providers.

End RagExtractor.
(* ===================================================================== *)
(** ** The earlier version of the soft constraints

    The file holds an earlier copy of the class.  Its
    [applySoftConstraints] works on the fields as they are, writes its
    warnings straight to the console, and checks the numeric fields
    last. *)
(* ===================================================================== *)

Module Earlier.
Import JSString JSNumber JSValue RagExtractor.
Local Open Scope string_scope.
Local Open Scope list_scope.

(** One turn of [numericFields.forEach]. *)
Definition reset_field (st : ExtractedTaxData * list message) (f : field)
  : ExtractedTaxData * list message :=
  let '(constrainedData, log) := st in
  match get_field f constrainedData with
  | VNum n =>
      if isNaN n || negb (isFinite n)
      then (set_field f (num 0) constrainedData, log ++ [InvalidNumericValue f])
      else (constrainedData, log)
  | _ => (constrainedData, log)
  end.

(** [applySoftConstraints], earlier version *)
Definition applySoftConstraints (data : ExtractedTaxData)
  : ExtractedTaxData * list message :=
  let constrainedData := data in
  (* Soft constraint 1: Revenue should be positive for operational companies *)
  let log :=
    if v_le (totalIncome constrainedData) (num 0) &&
       negb (strict_eq (businessType constrainedData) (VStr "Holding Company"))
    then [RevenueNotPositive] else [] in
  (* Soft constraint 2: Total expenses shouldn't exceed revenue by more than 200% *)
  let log :=
    if gt (ToNumber (totalExpenses constrainedData))
          (mul (ToNumber (totalIncome constrainedData)) (of_Z 3))
    then log ++ [ExpensesExceedRevenue] else log in
  (* Soft constraint 3: Taxable amount should be reasonable *)
  let calculatedTaxable :=
    sub (v_sub (totalIncome constrainedData) (totalExpenses constrainedData))
        (ToNumber (totalDeductions constrainedData)) in
  let '(constrainedData, log) :=
    if gt (abs (sub calculatedTaxable (ToNumber (taxableAmount constrainedData))))
          (max (of_Z 1000) (mul (ToNumber (totalIncome constrainedData)) (Fin (1 # 10))))
    then
      (* Use calculated value if the difference is substantial *)
      if strict_eq (taxableAmount constrainedData) (num 0) &&
         negb (eq calculatedTaxable zero)
      then (set_taxableAmount (VNum calculatedTaxable) constrainedData,
            log ++ [TaxableDiffers; TaxableCorrected calculatedTaxable])
      else (constrainedData, log ++ [TaxableDiffers])
    else (constrainedData, log) in
  (* Soft constraint 4: Ensure numeric values are reasonable *)
  fold_left reset_field numericFields (constrainedData, log).

End Earlier.

(* ===================================================================== *)
(** ** The loop of a quantifier, by itself

    The matcher runs a quantifier through a loop on a bound of its own.
    The same loop is given a name here, so that it can be reasoned about
    for any bound. *)
(* ===================================================================== *)

Module RegexLoop.
Import JSString Regex.

Section Loop.

Variables ci ml : bool.
Variable r' : regex.
Variable greedy : bool.
Variable k : mstate -> option mstate.

Fixpoint rep (fuel min : nat) (max : option nat) (s : mstate) {struct fuel}
  : option mstate :=
  match fuel with
  | O => None
  | S fuel' =>
      if is_zero_max max then k s
      else
        let again := fun s' =>
          if ((min =? 0)%nat && (pos s' =? pos s)%nat)%bool then None
          else rep fuel' (Nat.pred min) (option_map Nat.pred max) s' in
        let s0 := clear_caps (groups r') s in
        if (0 <? min)%nat then rmatch ci ml r' s0 again
        else if greedy then
          match rmatch ci ml r' s0 again with
          | Some e => Some e
          | None => k s
          end
        else
          match k s with
          | Some e => Some e
          | None => rmatch ci ml r' s0 again
          end
  end.

End Loop.

End RegexLoop.

(* ===================================================================== *)
(** ** The utility functions of the server *)
(* ===================================================================== *)

Module Utils.
Import JSString JSNumber JSValue Regex RegexSyntax.
Local Open Scope string_scope.
Local Open Scope list_scope.

Record bracket : Type := mkBracket {
  threshold : number;
  rate : number
}.

(** The GRA tax brackets (2023) of [calculateTax]. *)
Definition brackets : list bracket :=
  [mkBracket (of_Z 4380) (of_Z 0);
   mkBracket (of_Z 5940) (Fin (5 # 100));
   mkBracket (of_Z 8280) (Fin (10 # 100));
   mkBracket (of_Z 11880) (Fin (175 # 1000));
   mkBracket (of_Z 35880) (Fin (25 # 100));
   mkBracket PInf (Fin (30 # 100))].

(** The loop over the brackets, with its three variables. *)
Fixpoint tax_loop (brackets : list bracket)
  (remainingAmount totalTax previousThreshold : number) : number :=
  match brackets with
  | [] => totalTax
  | bracket :: others =>
      let taxableInBracket :=
        min (max remainingAmount (of_Z 0)) (sub (threshold bracket) previousThreshold) in
      let totalTax := add totalTax (mul taxableInBracket (rate bracket)) in
      let remainingAmount := sub remainingAmount taxableInBracket in
      let previousThreshold := threshold bracket in
      if le remainingAmount (of_Z 0) then totalTax
      else tax_loop others remainingAmount totalTax previousThreshold
  end.

(** [calculateTax] *)
Definition calculateTax (taxableAmount : number) : number :=
  tax_loop brackets taxableAmount (of_Z 0) (of_Z 0).

(** [s.toUpperCase()], on the letters of ASCII. *)
Definition toUpperCase (s : string) : string := str (map to_upper (chars s)).

Definition re_non_alphanumeric := Eval vm_compute in RE "[^a-zA-Z0-9]" "g".

(** [formatTIN] *)
Definition formatTIN (tin : string) : string :=
  (* Remove all non-alphanumeric characters *)
  toUpperCase (replace re_non_alphanumeric EmptyString tin).

Definition re_business_reg_number := Eval vm_compute in RE "^[CPS]-\d{8}$" "".

(** [isValidBusinessRegNumber] *)
Definition isValidBusinessRegNumber (regNumber : string) : bool :=
  test re_business_reg_number regNumber.

Definition re_ghana_phone := Eval vm_compute in RE "^(?:\+233|0)\d{9}$" "".

(** [isValidGhanaPhone] *)
Definition isValidGhanaPhone (phone : string) : bool :=
  test re_ghana_phone phone.

Definition re_email :=
  Eval vm_compute in RE "^[a-zA-Z0-9._%+-]+@[a-zA-Z0-9.-]+\.[a-zA-Z]{2,}$" "".

(** [isValidEmail] *)
Definition isValidEmail (email : string) : bool :=
  test re_email email.

End Utils.

(* ===================================================================== *)
(** ** The document parser: cleaning the text and validating the file *)
(* ===================================================================== *)

Module DocumentParser.
Import JSString JSNumber JSValue Regex RegexSyntax.
Local Open Scope string_scope.
Local Open Scope list_scope.

Definition re_crlf := Eval vm_compute in RE "\r\n" "g".
Definition re_line_breaks := Eval vm_compute in RE "\n{3,}" "g".
Definition re_white_space := Eval vm_compute in RE "\s{2,}" "g".

(** [cleanText] *)
Definition cleanText (text : string) : string :=
  let text := replace re_crlf (String newline EmptyString) text in
    (* Normalize line endings *)
  let text := replace re_line_breaks (String newline (String newline EmptyString)) text in
    (* Remove excessive line breaks *)
  let text := replace re_white_space " " text in
    (* Replace multiple spaces with single space *)
  trim text.

(** The fields of an uploaded file that the parser reads. *)
Record UploadedFile : Type := mkFile {
  originalname : string;
  mimetype : string;
  path : string;
  size : number
}.

Definition allowedTypes : list string :=
  ["application/pdf";
   "application/vnd.openxmlformats-officedocument.wordprocessingml.document";
   "application/vnd.openxmlformats-officedocument.spreadsheetml.sheet";
   "application/vnd.ms-excel";
   "text/csv"].

(** 10MB *)
Definition maxSize : number := mul (mul (of_Z 10) (of_Z 1024)) (of_Z 1024).

(** [validateFile]; [existsSync] is the state of the file system. *)
Definition validateFile (existsSync : string -> bool) (file : UploadedFile)
  : result unit :=
  if negb (existsb (string_eqb (mimetype file)) allowedTypes)
  then Throw (Error "Invalid file type. Allowed types: PDF, DOCX, XLSX, CSV")
  else if gt (size file) maxSize
  then Throw (Error "File too large. Maximum size: 10MB")
  else if negb (existsSync (path file))
  then Throw (Error "File not found")
  else Ok tt.

Inductive format : Type :=
| PDF
| Word
| Excel
| CSV.

(** The cases of the switch of [parseDocument] on the extension. *)
Definition parser_for (fileExtension : string) : option format :=
  if string_eqb fileExtension ".pdf" then Some PDF
  else if string_eqb fileExtension ".docx" then Some Word
  else if string_eqb fileExtension ".xlsx" then Some Excel
  else if string_eqb fileExtension ".xls" then Some Excel
  else if string_eqb fileExtension ".csv" then Some CSV
  else None.

Section Files.

(** [path.extname] *)
Variable extname : string -> string.
(** The methods parsePDF, parseWord, parseExcel and parseCSV: each reads
    the file at a path with its library and returns the cleaned text, or
    throws. *)
Variable parse : format -> string -> result string.

(** [s.toLowerCase()], on the letters of ASCII. *)
Definition toLowerCase (s : string) : string := str (map to_lower (chars s)).

(** [error instanceof Error ? error.message : 'Unknown error'] for the
    errors of the model. *)
Definition message_of (e : error) : string :=
  match e with
  | Error msg => msg
  | TypeError => "TypeError"
  | SyntaxError => "SyntaxError"
  end.

(** The handler of the try block of [parseDocument]. *)
Definition reported (r : result string) : result string :=
  match r with
  | Ok text => Ok text
  | Throw e => Throw (Error ("Failed to parse document: " ++ message_of e))
  end.

(** [parseDocument] *)
Definition parseDocument (file : UploadedFile) : result string :=
  let fileExtension := toLowerCase (extname (originalname file)) in
  reported
    match parser_for fileExtension with
    | Some f => parse f (path file)
    | None => Throw (Error ("Unsupported file type: " ++ fileExtension))
    end.

Definition mimeTypes : list (string * string) :=
  [(".pdf", "application/pdf");
   (".docx", "application/vnd.openxmlformats-officedocument.wordprocessingml.document");
   (".xlsx", "application/vnd.openxmlformats-officedocument.spreadsheetml.sheet");
   (".xls", "application/vnd.ms-excel");
   (".csv", "text/csv")].

Fixpoint assoc (k : string) (table : list (string * string)) : option string :=
  match table with
  | [] => None
  | (k', v) :: others => if string_eqb k' k then Some v else assoc k others
  end.

(** [getMimeType] of the MCP server *)
Definition getMimeType (fileName : string) : string :=
  let ext := toLowerCase (extname fileName) in
  match assoc ext mimeTypes with
  | Some t => t
  | None => "application/octet-stream"
  end.

(** The file object that the tools process_document and validate_document
    of the MCP server build from their arguments; [statSize] is the size of
    the file when it exists. *)
Definition mockFile (existsSync : string -> bool) (statSize : string -> number)
  (filePath fileName : string) : UploadedFile :=
  mkFile fileName (getMimeType fileName) filePath
    (if existsSync filePath then statSize filePath else of_Z 0).

End Files.

End DocumentParser.

(* ===================================================================== *)
(** ** The upload controller: what counts as extracted data *)
(* ===================================================================== *)

Module UploadController.
Import JSString JSNumber JSValue RagExtractor.
Local Open Scope string_scope.
Local Open Scope list_scope.

(** The entries of the eight canonical fields of a record, in the order
    of the object literals of the extractor.  The record of an enhanced
    reply may carry further keys of the reply. *)
Definition entries (r : ExtractedTaxData) : list (string * value) :=
  [("taxpayerName", taxpayerName r); ("taxYear", taxYear r);
   ("totalIncome", totalIncome r); ("totalExpenses", totalExpenses r);
   ("totalDeductions", totalDeductions r); ("taxableAmount", taxableAmount r);
   ("taxId", taxId r); ("businessType", businessType r)].

(** The test of [hasData] on one entry. *)
Definition meaningful (entry : string * value) : bool :=
  let '(key, value) := entry in
  match typeof value with
  | TString =>
      negb (strict_eq value (VStr "Not provided")) &&
      negb (strict_eq value (VStr "Not specified"))
  | TNumber => negb (strict_eq value (num 0))
  | _ => false
  end.

(** [Object.entries(extractedData).some(...)] *)
Definition hasData (extractedData : list (string * value)) : bool :=
  existsb meaningful extractedData.

Section Upload.

Variable currentYear : Z.
Variable World : Type.
Variable ollama_invoke : string -> World -> result string * World.
Variable openai_create : string -> World -> result (option string) * World.
Variable claude_create : string -> World -> result (option (list (string * string))) * World.
Variable addDocuments : string -> string -> World -> World.
Variable instructions : string.

(** The default structure of the controller. *)
Definition defaultStructure : ExtractedTaxData :=
  mkTaxData (VStr "Not provided") (num currentYear) (num 0) (num 0) (num 0) (num 0)
    (VStr "Not provided") (VStr "Not specified").

(** The extraction step of [uploadDocument]: the data that is saved and
    the extraction method that is saved with it. *)
Definition extract_for_upload (ragExtractor : option Extractor) (documentText : string)
  (w : World) : ExtractedTaxData * string * World :=
  match ragExtractor with
  | Some this =>
      let '(extractedData, w') :=
        extractTaxData currentYear ollama_invoke openai_create claude_create
          addDocuments instructions this documentText EmptyString w in
      (* Check if meaningful data was extracted *)
      if hasData (entries extractedData) then (extractedData, "ai", w')
      else (defaultStructure, "manual", w')
  | None => (defaultStructure, "manual", w)
  end.

End Upload.

End UploadController.

(* ===================================================================== *)
(** ** The annual report

    The same three clients write the annual report.  The prompt and the
    default report format the record with JSON.stringify, toLocaleString
    and toFixed; they are taken as given. *)
(* ===================================================================== *)

Module AnnualReport.
Import JSString JSNumber JSValue RagExtractor.
Local Open Scope string_scope.
Local Open Scope list_scope.

Section Report.

Variable World : Type.
Variable ollama_invoke : string -> World -> result string * World.
Variable openai_create : string -> World -> result (option string) * World.
Variable claude_create : string -> World -> result (option (list (string * string))) * World.
Variable buildReportGenerationPrompt : ExtractedTaxData -> string.
Variable getDefaultAnnualReport : ExtractedTaxData -> string.

(** [generateReportWithOllama] *)
Definition generateReportWithOllama (this : Extractor) (prompt : string) (w : World)
  : result string * World :=
  if negb (llm this) then (Throw (Error "Ollama not initialized"), w)
  else ollama_invoke prompt w.

(** [generateReportWithOpenAI] *)
Definition generateReportWithOpenAI (this : Extractor) (prompt : string) (w : World)
  : result string * World :=
  if negb (openai this) then (Throw (Error "OpenAI not initialized"), w)
  else
    match openai_create prompt w with
    | (Ok response, w') =>
        (Ok (match response with Some c => c | None => EmptyString end), w')
    | (Throw e, w') => (Throw e, w')
    end.

(** [generateReportWithClaude] *)
Definition generateReportWithClaude (this : Extractor) (prompt : string) (w : World)
  : result string * World :=
  if negb (claude this) then (Throw (Error "Claude not initialized"), w)
  else
    match claude_create prompt w with
    | (Ok response, w') =>
        match response with
        | None | Some [] => (Throw (Error "Empty response from Claude"), w')
        | Some blocks =>
            let content :=
              join EmptyString
                (map snd (filter (fun block => string_eqb (fst block) "text") blocks)) in
            if string_eqb content EmptyString
            then (Throw (Error "No text content in Claude response"), w')
            else (Ok content, w')
        end
    | (Throw e, w') => (Throw e, w')
    end.

(** [generateReportWithProvider] *)
Definition generateReportWithProvider (this : Extractor) (provider : string)
  (extractedData : ExtractedTaxData) (w : World) : result string * World :=
  let prompt := buildReportGenerationPrompt extractedData in
  if string_eqb provider "ollama" then generateReportWithOllama this prompt w
  else if string_eqb provider "openai" then generateReportWithOpenAI this prompt w
  else if string_eqb provider "claude" then generateReportWithClaude this prompt w
  else (Throw (Error ("Unknown provider: " ++ provider)), w).

(** The loop over [providersToTry]. *)
Fixpoint try_reports (this : Extractor) (providersToTry : list string)
  (extractedData : ExtractedTaxData) (w : World) : string * World :=
  match providersToTry with
  | [] => (getDefaultAnnualReport extractedData, w)
  | provider :: others =>
      match generateReportWithProvider this provider extractedData w with
      | (Ok report, w') => (report, w')
      | (Throw _, w') => try_reports this others extractedData w'
      end
  end.

(** [generateAnnualReport] *)
Definition generateAnnualReport (this : Extractor) (extractedData : ExtractedTaxData)
  (w : World) : string * World :=
  if (List.length (availableProviders this) =? 0)%nat
  then (getDefaultAnnualReport extractedData, w)
  else try_reports this (getProvidersToTry this) extractedData w.

End Report.

End AnnualReport.

(* ===================================================================== *)
(** * Notions used in the statements *)
(* ===================================================================== *)

Import JSString JSNumber JSValue Regex RegexSyntax RagExtractor.
Open Scope string_scope.
Open Scope list_scope.

(** The record after the loop over the numeric fields. *)
Definition validated_fields (d : ExtractedTaxData) : ExtractedTaxData :=
  mkTaxData (taxpayerName d) (taxYear d)
    (VNum (validateNumericValue (totalIncome d)))
    (VNum (validateNumericValue (totalExpenses d)))
    (VNum (validateNumericValue (totalDeductions d)))
    (VNum (validateNumericValue (taxableAmount d)))
    (taxId d) (businessType d).

(** What [applySoftConstraints] leaves in each field. *)
Definition constrained (d : ExtractedTaxData) : ExtractedTaxData :=
  let i := validateNumericValue (totalIncome d) in
  let e := validateNumericValue (totalExpenses d) in
  let dd := validateNumericValue (totalDeductions d) in
  let t := validateNumericValue (taxableAmount d) in
  let e' := validateExpensesRatio e i in
  let t' := fst (validateTaxableAmount t (sub (sub i e') dd) i) in
  mkTaxData (taxpayerName d) (taxYear d) (VNum i) (VNum e') (VNum dd) (VNum t')
    (taxId d) (businessType d).

(** The record of the example of the claim, with its validation payload. *)
Definition cross_validation_example : value :=
  VObj [("totalIncome", num 0); ("taxableAmount", num 0);
        ("validationData",
         VObj [("revenue", num 50000); ("profitBeforeTax", num 15000)])].

(** A value that the loop of [findFinancialItem] returns on: a number
    that is not NaN. *)
Definition numeric (v : value) : Prop :=
  exists n, v = VNum n /\ isNaN n = false.

(** The amount of an item under a list of property names, in the words
    of the specification: the first property of the list that is
    present as a number, and 0 when there is none. *)
Definition first_present (props : list string) (item : value) (n : number) : Prop :=
  (exists earlier prop later,
      props = earlier ++ prop :: later /\
      get prop item = VNum n /\ isNaN n = false /\
      forall p, In p earlier -> ~ numeric (get p item))
  \/ ((forall p, In p props -> ~ numeric (get p item)) /\ n = zero).

(** The amount of a category: that of the first item whose account
    label matches the pattern, and 0 when no item matches. *)
Definition category_amount (items : list value) (re : RegExp) (props : list string)
  (n : number) : Prop :=
  ((forall item, In item items -> test re (ToString (get "Account" item)) = false)
   /\ n = zero)
  \/ (exists before item after,
         items = before ++ item :: after /\
         (forall x, In x before -> test re (ToString (get "Account" x)) = false) /\
         test re (ToString (get "Account" item)) = true /\
         first_present props item n).

(** A statement with one expense item that carries both an Amount and an
    Expenses figure, and a profit item that carries only an Expenses figure. *)
Definition statement_example : value :=
  VObj [("Profit_and_Loss",
         VArr [VObj [("Account", VStr "Operating expenses");
                     ("Amount", num 1); ("Expenses", num 2)];
               VObj [("Account", VStr "Profit before tax");
                     ("Expenses", num 7)]])].

(** The keys that [parseSimplifiedResponse] reads from the response. *)
Definition recognized_keys : list string :=
  ["Revenue"; "Income"; "Sales"; "Turnover"; "Expenses"; "TotalExpenses";
   "ProfitBeforeTax"; "Profit_Before_Tax"; "Deductions"; "CapitalAllowances"].

(** The response without the key [k]. *)
Definition without (k : string) (data : value) : value :=
  match data with
  | VObj o => VObj (delete k o)
  | _ => data
  end.

(** The three stages, each from the raw text. *)
Definition direct_parse (content : string) : result value :=
  JSON.parse content.

Definition cleaned_parse (content : string) : result value :=
  (cleaned <- cleanJSONString content ;; JSON.parse cleaned)%js.

Definition rescue_parse (content : string) : result value :=
  JSON.parse (rescue content).

(** The policy in the words of the specification: the stages are tried
    in the order of the list, a stage is tried only when every stage
    before it has thrown, and the first one that succeeds gives the
    result.  The number returned is that of the stages that threw. *)
Fixpoint first_success (stages : list (string -> result value)) (content : string)
  : result value * nat :=
  match stages with
  | [] => (Throw (Error "Failed to parse JSON after multiple attempts"), 0%nat)
  | stage :: later =>
      match stage content with
      | Ok v => (Ok v, 0%nat)
      | Throw _ =>
          let '(r, failed) := first_success later content in (r, S failed)
      end
  end.

(** A world that only remembers which clients were called, three clients
    of which the hosted one that is preferred fails, and an extractor on
    which all three are live. *)
Definition logging_ollama (prompt : string) (w : list string)
  : result string * list string :=
  (Ok "{}", w ++ ["ollama"]).

Definition logging_openai (prompt : string) (w : list string)
  : result (option string) * list string :=
  (Ok (Some "{}"), w ++ ["openai"]).

Definition failing_claude (prompt : string) (w : list string)
  : result (option (list (string * string))) * list string :=
  (Throw (Error "overloaded"), w ++ ["claude"]).

Definition three_providers : Extractor :=
  mkExtractor true true true false false ["ollama"; "openai"; "claude"] "claude".

(** A field that is neither undefined nor null. *)
Definition present (v : value) : bool :=
  match v with
  | VUndefined | VNull => false
  | _ => true
  end.

(** A record whose eight fields are all present. *)
Definition complete (r : ExtractedTaxData) : bool :=
  present (taxpayerName r) && present (taxYear r) && present (totalIncome r) &&
  present (totalExpenses r) && present (totalDeductions r) &&
  present (taxableAmount r) && present (taxId r) && present (businessType r).

(** ** Notions of the further properties *)

Import Utils DocumentParser.

(** A field that holds a finite number. *)
Definition finite_number (v : value) : bool :=
  match v with
  | VNum (Fin _) => true
  | _ => false
  end.

(** A field that holds a number other than NaN. *)
Definition proper_number (v : value) : bool :=
  match v with
  | VNum n => negb (isNaN n)
  | _ => false
  end.

(** The numeric fields as the soft constraints leave them. *)
Definition numbers_checked (r : ExtractedTaxData) : bool :=
  finite_number (totalIncome r) && finite_number (totalExpenses r) &&
  finite_number (totalDeductions r) && proper_number (taxableAmount r).

(** A record whose four numeric fields hold finite numbers. *)
Definition finite_fields (d : ExtractedTaxData) : bool :=
  finite_number (totalIncome d) && finite_number (totalExpenses d) &&
  finite_number (totalDeductions d) && finite_number (taxableAmount d).

(** The record of a reply that holds none of the fields. *)
Definition empty_reply_record (currentYear : Z) : ExtractedTaxData :=
  mkTaxData (VStr "Not provided") (num currentYear) (num 0) (num 0) (num 0) (num 0)
    (VStr "Not provided") (VStr "Not provided").

(** What parseAIResponse returns for a reply that is valid JSON and not
    an object. *)
Definition not_an_object_record (currentYear : Z) (v : value) (text : string)
  : ExtractedTaxData :=
  match v with
  | VArr _ => empty_reply_record currentYear
  | _ => extractFromRawText currentYear text
  end.

(** A pattern that matches exactly one character, namely one that
    satisfies [P], and captures nothing. *)
Definition one_char (ci ml : bool) (r : regex) (P : ascii -> bool) : Prop :=
  groups r = [] /\
  forall s k,
    rmatch ci ml r s k =
    match rest s with
    | c :: l => if P c then k (advance c l s) else None
    | [] => None
    end.

(** The longest prefix of characters that satisfy [P], and what follows it. *)
Fixpoint takeWhile (P : ascii -> bool) (l : list ascii) : list ascii :=
  match l with
  | c :: l' => if P c then c :: takeWhile P l' else []
  | [] => []
  end.

Definition dropWhile (P : ascii -> bool) (l : list ascii) : list ascii :=
  drop_while P l.

(** The character before the position reached after [run]. *)
Definition prev_after (run : list ascii) (pv : option ascii) : option ascii :=
  last (map Some run) pv.

(** The literal text of a replacement template. *)
Definition literals (t : list tpart) : list ascii :=
  flat_map (fun p => match p with TLit c => [c] | TGroup _ => [] end) t.

(** Whether a match was found. *)
Definition is_some {A : Type} (o : option A) : bool :=
  match o with Some _ => true | None => false end.

(** The progressive tax of an amount, bracket by bracket, in closed form. *)
Definition progressive_tax (x : Q) : Q :=
  if Qle_bool x 4380 then 0
  else if Qle_bool x 5940 then (x - 4380) * (5 # 100)
  else if Qle_bool x 8280 then 78 + (x - 5940) * (10 # 100)
  else if Qle_bool x 11880 then 312 + (x - 8280) * (175 # 1000)
  else if Qle_bool x 35880 then 942 + (x - 11880) * (25 # 100)
  else 6942 + (x - 35880) * (30 # 100).

(** A letter or a digit of ASCII. *)
Definition is_alnum (c : ascii) : bool := is_alpha c || is_digit c.

(** The characters of the two parts of an address. *)
Definition local_char (c : ascii) : bool :=
  is_alnum c || existsb (fun x => (code x =? code c)%nat) (chars "._%+-").

Definition domain_char (c : ascii) : bool :=
  is_alnum c || existsb (fun x => (code x =? code c)%nat) (chars ".-").

(** No two characters in a row satisfy [P]. *)
Fixpoint no_adjacent (P : ascii -> bool) (l : list ascii) : bool :=
  match l with
  | a :: l' =>
      match l' with
      | b :: _ => negb (P a && P b) && no_adjacent P l'
      | [] => true
      end
  | [] => true
  end.

(** A text without white space at either end and without two white-space
    characters in a row. *)
Definition tidy (l : list ascii) : Prop :=
  no_adjacent is_space l = true /\ trim_start l = l /\ trim_end l = l.

(* ===================================================================== *)
(** * Properties *)
(* ===================================================================== *)

(** ** Comparisons of rationals *)

Lemma Qltb_true (a b : Q) : Qltb a b = true <-> (a < b)%Q.
Proof.
  unfold Qltb. rewrite negb_true_iff. split; intro H.
  - apply Qnot_le_lt. intro L. apply Qle_bool_iff in L. congruence.
  - destruct (Qle_bool b a) eqn:E; [|reflexivity].
    apply Qle_bool_iff in E. exfalso. apply (Qlt_not_le _ _ H E).
Qed.

Lemma Qltb_false (a b : Q) : Qltb a b = false <-> (b <= a)%Q.
Proof.
  unfold Qltb. rewrite negb_false_iff. apply Qle_bool_iff.
Qed.

Lemma Qeq_bool_false (a b : Q) : Qeq_bool a b = false <-> ~ (a == b)%Q.
Proof.
  split; intro H.
  - intro E. apply Qeq_bool_iff in E. congruence.
  - destruct (Qeq_bool a b) eqn:E; [|reflexivity].
    apply Qeq_bool_iff in E. contradiction.
Qed.

Ltac to_Q :=
  repeat match goal with
  | H : Qltb _ _ = true |- _ => apply Qltb_true in H
  | H : Qltb _ _ = false |- _ => apply Qltb_false in H
  | H : Qeq_bool _ _ = true |- _ => apply Qeq_bool_iff in H
  | H : Qeq_bool _ _ = false |- _ => apply Qeq_bool_false in H
  | |- Qltb _ _ = true => apply Qltb_true
  | |- Qltb _ _ = false => apply Qltb_false
  | |- Qeq_bool _ _ = true => apply Qeq_bool_iff
  | |- Qeq_bool _ _ = false => apply Qeq_bool_false
  end.

(** ** The numeric validation *)

Lemma validateNumericValue_fin (v : value) :
  exists q, validateNumericValue v = Fin q.
Proof.
  destruct v as [| | b | n | s | l | o]; simpl; try (exists 0%Q; reflexivity).
  destruct n; simpl; try (exists 0%Q; reflexivity). now exists q.
Qed.

Lemma validateNumericValue_Fin (q : Q) : validateNumericValue (VNum (Fin q)) = Fin q.
Proof. reflexivity. Qed.

Lemma strict_eq_validated (v : value) :
  strict_eq (VNum (validateNumericValue v)) v = true ->
  VNum (validateNumericValue v) = v.
Proof.
  destruct v as [| | b | n | s | l | o]; simpl; try discriminate.
  destruct n; simpl; try discriminate. reflexivity.
Qed.

Lemma set_get_field (f : field) (d : ExtractedTaxData) :
  set_field f (get_field f d) d = d.
Proof. destruct d, f; reflexivity. Qed.

Lemma validate_field_fst (st : ExtractedTaxData * list message) (f : field) :
  fst (validate_field st f) =
  set_field f (VNum (validateNumericValue (get_field f (fst st)))) (fst st).
Proof.
  destruct st as [d ws]. unfold validate_field. cbn [fst].
  destruct (strict_eq (VNum (validateNumericValue (get_field f d))) (get_field f d))
    eqn:E; cbn [negb fst].
  - apply strict_eq_validated in E. rewrite E. symmetry. apply set_get_field.
  - reflexivity.
Qed.

Lemma validate_loop (d : ExtractedTaxData) (ws : list message) :
  fst (fold_left validate_field numericFields (d, ws)) = validated_fields d.
Proof.
  unfold numericFields. cbn [fold_left].
  rewrite !validate_field_fst. cbn [fst]. destruct d; reflexivity.
Qed.

(** ** The two corrections on finite numbers *)

Lemma validateExpensesRatio_fin (e i : Q) :
  exists q, validateExpensesRatio (Fin e) (Fin i) = Fin q.
Proof.
  unfold validateExpensesRatio, gt, min, MAX_EXPENSE_RATIO, of_Z, zero, of_Z; simpl.
  destruct (Qltb _ i && Qltb _ e); [|now exists e].
  destruct (Qltb _ e); eauto.
Qed.

Lemma validateExpensesRatio_unchanged (e i : Q) :
  eq (validateExpensesRatio (Fin e) (Fin i)) (Fin e) = true ->
  validateExpensesRatio (Fin e) (Fin i) = Fin e.
Proof.
  unfold validateExpensesRatio, gt, min, MAX_EXPENSE_RATIO, of_Z, zero, of_Z; simpl.
  destruct (Qltb _ i && Qltb _ e); [|reflexivity].
  destruct (Qltb _ e) eqn:L; [|reflexivity].
  simpl. intro E. to_Q. lra.
Qed.

Lemma Qltb_irrefl (a : Q) : Qltb a a = false.
Proof. apply Qltb_false. apply Qle_refl. Qed.

Lemma validateExpensesRatio_idem (e i : Q) :
  validateExpensesRatio (validateExpensesRatio (Fin e) (Fin i)) (Fin i) =
  validateExpensesRatio (Fin e) (Fin i).
Proof.
  unfold validateExpensesRatio, gt, min, lt, mul, MAX_EXPENSE_RATIO, zero, of_Z.
  destruct (Qltb (inject_Z 0) i && Qltb (i * inject_Z 3) e) eqn:C.
  - destruct (Qltb (i * inject_Z 5) e) eqn:L.
    + rewrite Qltb_irrefl.
      destruct (Qltb (inject_Z 0) i && Qltb (i * inject_Z 3) (i * inject_Z 5));
        reflexivity.
    + rewrite C, L. reflexivity.
  - rewrite C. reflexivity.
Qed.

Lemma significant_positive (i : Q) :
  exists s, max (of_Z 1000) (mul (Fin i) (Fin (1 # 10))) = Fin s /\ (1000 <= s)%Q.
Proof.
  unfold max, of_Z, mul, lt. simpl.
  destruct (Qltb _ _) eqn:L.
  - eexists; split; [reflexivity|]. to_Q. unfold inject_Z in L. lra.
  - eexists; split; [reflexivity|]. unfold inject_Z. lra.
Qed.

Lemma validateTaxableAmount_fin (t c i : Q) :
  exists q, fst (validateTaxableAmount (Fin t) (Fin c) (Fin i)) = Fin q.
Proof.
  unfold validateTaxableAmount.
  destruct (gt _ _); [|now exists t].
  destruct (eq _ _ && _); simpl; eauto.
Qed.

Lemma validateTaxableAmount_idem (t c i : Q) :
  fst (validateTaxableAmount (fst (validateTaxableAmount (Fin t) (Fin c) (Fin i)))
         (Fin c) (Fin i)) =
  fst (validateTaxableAmount (Fin t) (Fin c) (Fin i)).
Proof.
  destruct (significant_positive i) as [s [Hs Ls]].
  unfold validateTaxableAmount at 2 3. rewrite Hs.
  destruct (gt (abs (sub (Fin c) (Fin t))) (Fin s)) eqn:G.
  - destruct (eq (Fin t) zero && negb (eq (Fin c) zero)) eqn:Z; simpl fst.
    + unfold validateTaxableAmount. rewrite Hs.
      replace (gt (abs (sub (Fin c) (Fin c))) (Fin s)) with false; [reflexivity|].
      symmetry. unfold gt, lt, abs, sub, add, neg. to_Q.
      assert (Qabs (c + - c) == 0)%Q as A.
      { assert (c + - c == 0)%Q as Z0 by lra. rewrite Z0. reflexivity. }
      lra.
    + unfold validateTaxableAmount. rewrite Hs, G, Z. reflexivity.
  - simpl fst. unfold validateTaxableAmount. rewrite Hs, G. reflexivity.
Qed.

(** ** The soft constraints, field by field *)

Lemma applySoftConstraints_fields (d : ExtractedTaxData) :
  fst (applySoftConstraints d) = constrained d.
Proof.
  unfold applySoftConstraints, constrained.
  destruct (fold_left validate_field numericFields (d, [])) as [c ws] eqn:E.
  assert (c = validated_fields d) as ->.
  { rewrite <- (validate_loop d []), E. reflexivity. }
  destruct (validateNumericValue_fin (totalIncome d)) as [i Hi].
  destruct (validateNumericValue_fin (totalExpenses d)) as [e He].
  destruct (validateNumericValue_fin (totalDeductions d)) as [dd Hd].
  destruct (validateNumericValue_fin (taxableAmount d)) as [t Ht].
  unfold validated_fields.
  cbn [totalIncome totalExpenses totalDeductions taxableAmount businessType
       taxpayerName taxYear taxId].
  rewrite Hi, He, Hd, Ht.
  unfold v_sub. cbn [ToNumber strict_eq].
  destruct (validateExpensesRatio_fin e i) as [e' He'].
  destruct (eq (validateExpensesRatio (Fin e) (Fin i)) (Fin e)) eqn:X; cbn [negb].
  - apply validateExpensesRatio_unchanged in X. rewrite X.
    cbn [totalIncome totalExpenses totalDeductions taxableAmount set_totalExpenses
         ToNumber].
    destruct (validateTaxableAmount (Fin t) (sub (sub (Fin i) (Fin e)) (Fin dd)) (Fin i))
      as [vt [w|]] eqn:V; cbn [fst]; [reflexivity|].
    unfold validateTaxableAmount in V.
    destruct (gt _ _); [destruct (_ && _)|]; inversion V; reflexivity.
  - rewrite He'.
    cbn [totalIncome totalExpenses totalDeductions taxableAmount set_totalExpenses
         ToNumber taxpayerName taxYear taxId businessType].
    destruct (validateTaxableAmount (Fin t) (sub (sub (Fin i) (Fin e')) (Fin dd)) (Fin i))
      as [vt [w|]] eqn:V; cbn [fst]; [reflexivity|].
    unfold validateTaxableAmount in V.
    destruct (gt _ _); [destruct (_ && _)|]; inversion V; reflexivity.
Qed.

Lemma constrained_idem (d : ExtractedTaxData) :
  constrained (constrained d) = constrained d.
Proof.
  unfold constrained at 1.
  destruct (validateNumericValue_fin (totalIncome d)) as [i Hi].
  destruct (validateNumericValue_fin (totalExpenses d)) as [e He].
  destruct (validateNumericValue_fin (totalDeductions d)) as [dd Hd].
  destruct (validateNumericValue_fin (taxableAmount d)) as [t Ht].
  unfold constrained.
  cbn [totalIncome totalExpenses totalDeductions taxableAmount businessType
       taxpayerName taxYear taxId].
  rewrite Hi, He, Hd, Ht.
  destruct (validateExpensesRatio_fin e i) as [e' He'].
  pose proof (validateExpensesRatio_idem e i) as IE. rewrite He' in *.
  assert (sub (sub (Fin i) (Fin e')) (Fin dd) = Fin (i + - e' + - dd)) as C by reflexivity.
  rewrite C.
  destruct (validateTaxableAmount_fin t (i + - e' + - dd) i) as [t' Ht'].
  pose proof (validateTaxableAmount_idem t (i + - e' + - dd) i) as IT.
  rewrite Ht' in *.
  rewrite !validateNumericValue_Fin, IE, C, IT. reflexivity.
Qed.

Lemma validate_field_snd (st : ExtractedTaxData * list message) (f : field) (m : message) :
  In m (snd (validate_field st f)) ->
  In m (snd st) \/ m = InvalidNumericValue f.
Proof.
  destruct st as [d ws]. unfold validate_field.
  destruct (negb _); cbn [snd]; [|now left].
  intro H. apply in_app_or in H. destruct H as [H|[H|[]]]; [now left|now right].
Qed.

Lemma validate_loop_warnings (d : ExtractedTaxData) (m : message) :
  In m (snd (fold_left validate_field numericFields (d, []))) ->
  exists f, m = InvalidNumericValue f.
Proof.
  unfold numericFields. cbn [fold_left]. intro H.
  repeat (apply validate_field_snd in H; destruct H as [H|H]; [|eauto]).
  destruct H.
Qed.


(** C9. A second application of applySoftConstraints changes nothing: the
    record it returns is a fixed point of the function. *)
Theorem applySoftConstraints_idempotent (d : ExtractedTaxData) :
  fst (applySoftConstraints (fst (applySoftConstraints d))) =
  fst (applySoftConstraints d).
Proof.
  rewrite !applySoftConstraints_fields. apply constrained_idem.
Qed.



(** ** Cross-validation *)

Lemma validateExtractedData_eq (data : value) :
  ToBoolean (get "validationData" data) = true ->
  let res := performCrossValidation (get "validationData" data) (record_of data) in
  let v1 := match correctedRevenue res with
            | Some r => set_totalIncome r (record_of data)
            | None => record_of data
            end in
  let v2 := match correctedProfitBeforeTax res with
            | Some p => set_taxableAmount p v1
            | None => v1
            end in
  validateExtractedData data =
  (fst (applySoftConstraints v2),
   mkDiagnostics (warnings res) (corrections res) (snd (applySoftConstraints v2))).
Proof.
  intro T. cbv zeta. unfold validateExtractedData. rewrite T.
  destruct (applySoftConstraints _). reflexivity.
Qed.

Lemma get_number_object (k : string) (v : value) (n : number) :
  get k v = VNum n -> ToBoolean v = true.
Proof. destruct v; simpl; try discriminate. reflexivity. Qed.

Lemma Qabs_pos_neq (a b c : Q) : (c < Qabs (a - b))%Q -> (0 <= c)%Q -> ~ (a == b)%Q.
Proof.
  intros H C E. assert (a - b == 0)%Q as Z by lra.
  rewrite Z in H. change (Qabs 0) with 0%Q in H. lra.
Qed.

Lemma corrected_revenue (validation : value) (d : ExtractedTaxData) (r i : Q) :
  get "revenue" validation = VNum (Fin r) ->
  (0 < r)%Q ->
  totalIncome d = VNum (Fin i) ->
  (i == 0 \/ 1 # 10 < Qabs (r - i) / r)%Q ->
  correctedRevenue (performCrossValidation validation d) = Some (VNum (Fin r)) /\
  In (RevenueCorrected (VNum (Fin i)) (VNum (Fin r)))
     (corrections (performCrossValidation validation d)).
Proof.
  intros Hr Pr Hi C.
  assert (~ (r == i)%Q) as N.
  { destruct C as [C|C]; [lra|].
    intro E. assert (r - i == 0)%Q as Z by lra.
    rewrite Z in C. change (Qabs 0) with 0%Q in C.
    assert (0 / r == 0)%Q as Z' by (field; lra). lra. }
  assert (correctedRevenue (performCrossValidation validation d) = Some (VNum (Fin r))) as R.
  { unfold performCrossValidation. cbn [correctedRevenue]. rewrite Hr, Hi.
    unfold v_gt, v_sub, num. cbn [ToBoolean ToNumber strict_eq isNaN orb].
    unfold eq, gt, lt, abs, sub, add, neg, div, zero, of_Z.
    replace (Qeq_bool r (inject_Z 0)) with false
      by (symmetry; to_Q; unfold inject_Z; lra).
    replace (Qeq_bool r i) with false by (symmetry; to_Q; exact N).
    replace (Qltb (inject_Z 0) r) with true by (symmetry; to_Q; unfold inject_Z; lra).
    replace (Qeq_bool r 0) with false by (symmetry; to_Q; lra).
    cbn [negb andb].
    destruct C as [C|C].
    - replace (Qeq_bool i (inject_Z 0)) with true
        by (symmetry; to_Q; unfold inject_Z; lra).
      reflexivity.
    - replace (Qltb (1 # 10) (Qabs (r + - i) / r)) with true
        by (symmetry; to_Q; exact C).
      rewrite orb_true_r. reflexivity. }
  split; [exact R|].
  unfold performCrossValidation in *. cbn [correctedRevenue corrections] in *.
  rewrite R, Hi. apply in_or_app. left. now left.
Qed.

Lemma corrected_profit (validation : value) (d : ExtractedTaxData) (p t : Q) :
  get "profitBeforeTax" validation = VNum (Fin p) ->
  ~ (p == 0)%Q ->
  taxableAmount d = VNum (Fin t) ->
  (100 < Qabs (p - t))%Q ->
  correctedProfitBeforeTax (performCrossValidation validation d) = Some (VNum (Fin p)) /\
  In (ProfitBeforeTaxCorrected (VNum (Fin t)) (VNum (Fin p)))
     (corrections (performCrossValidation validation d)).
Proof.
  intros Hp Np Ht C.
  assert (~ (p == t)%Q) as N by (apply (Qabs_pos_neq C); lra).
  assert (correctedProfitBeforeTax (performCrossValidation validation d) =
          Some (VNum (Fin p))) as R.
  { unfold performCrossValidation. cbn [correctedProfitBeforeTax]. rewrite Hp, Ht.
    unfold v_sub. cbn [ToBoolean ToNumber strict_eq isNaN orb].
    unfold eq, gt, lt, abs, sub, add, neg, zero, of_Z.
    replace (Qeq_bool p (inject_Z 0)) with false
      by (symmetry; to_Q; unfold inject_Z; lra).
    replace (Qeq_bool p t) with false by (symmetry; to_Q; exact N).
    replace (Qltb (inject_Z 100) (Qabs (p + - t))) with true
      by (symmetry; to_Q; unfold inject_Z; exact C).
    reflexivity. }
  split; [exact R|].
  unfold performCrossValidation in *. cbn [correctedProfitBeforeTax corrections] in *.
  rewrite R, Ht. apply in_or_app. right. now left.
Qed.

Lemma constrained_totalIncome (d : ExtractedTaxData) :
  totalIncome (fst (applySoftConstraints d)) = VNum (validateNumericValue (totalIncome d)).
Proof. rewrite applySoftConstraints_fields. reflexivity. Qed.

Lemma validateTaxableAmount_nonzero (p : Q) (c i : number) :
  ~ (p == 0)%Q -> fst (validateTaxableAmount (Fin p) c i) = Fin p.
Proof.
  intro N. unfold validateTaxableAmount.
  replace (eq (Fin p) zero) with false
    by (symmetry; unfold eq, zero, of_Z; to_Q; unfold inject_Z; exact N).
  destruct (gt _ _); reflexivity.
Qed.

Lemma constrained_taxableAmount_nonzero (d : ExtractedTaxData) (p : Q) :
  taxableAmount d = VNum (Fin p) -> ~ (p == 0)%Q ->
  taxableAmount (fst (applySoftConstraints d)) = VNum (Fin p).
Proof.
  intros H N. rewrite applySoftConstraints_fields. unfold constrained.
  cbn [taxableAmount]. rewrite H, validateNumericValue_Fin.
  rewrite validateTaxableAmount_nonzero by exact N. reflexivity.
Qed.




(** ** The line items of a financial statement *)

Lemma first_numeric_first_present (item : value) (props : list string) :
  first_present props item (first_numeric item props).
Proof.
  induction props as [|prop props IH].
  - right. split; [intros p []|reflexivity].
  - cbn [first_numeric].
    destruct (get prop item) as [| | b | n | s | l | o] eqn:G;
      try (destruct IH as [(earlier & q & later & E & Gq & Nq & B)|[None Z]];
           [ left; exists (prop :: earlier), q, later;
             split; [rewrite E; reflexivity|];
             split; [exact Gq|]; split; [exact Nq|];
             intros p [<-|Hp]; [rewrite G; intros (m & Hm & _); discriminate|now apply B]
           | right; split; [|exact Z];
             intros p [<-|Hp]; [rewrite G; intros (m & Hm & _); discriminate|now apply None] ]).
    destruct (isNaN n) eqn:N; cbn [negb].
    + destruct IH as [(earlier & q & later & E & Gq & Nq & B)|[None Z]].
      * left. exists (prop :: earlier), q, later.
        split; [rewrite E; reflexivity|].
        split; [exact Gq|]. split; [exact Nq|].
        intros p [<-|Hp]; [|now apply B].
        rewrite G. intros (m & Hm & Nm). inversion Hm. subst. congruence.
      * right. split; [|exact Z].
        intros p [<-|Hp]; [|now apply None].
        rewrite G. intros (m & Hm & Nm). inversion Hm. subst. congruence.
    + left. exists [], prop, props.
      split; [reflexivity|]. split; [exact G|]. split; [exact N|]. intros p [].
Qed.

Lemma member_ok (k : string) (item v : value) :
  member k item = Ok v -> v = get k item.
Proof. destruct item; simpl; intro H; inversion H; reflexivity. Qed.

Lemma find_item_none (re : RegExp) (items : list value) :
  find_item re items = Ok None ->
  forall item, In item items -> test re (ToString (get "Account" item)) = false.
Proof.
  induction items as [|x items IH]; intros H item []; cbn [find_item] in H;
    destruct (member "Account" x) as [a|] eqn:M; try discriminate;
    cbn [bind] in H; apply member_ok in M; subst a;
    destruct (test re (ToString (get "Account" x))) eqn:T; try discriminate.
  - subst. exact T.
  - now apply IH.
Qed.

Lemma find_item_some (re : RegExp) (items : list value) (item : value) :
  find_item re items = Ok (Some item) ->
  exists before after,
    items = before ++ item :: after /\
    (forall x, In x before -> test re (ToString (get "Account" x)) = false) /\
    test re (ToString (get "Account" item)) = true.
Proof.
  induction items as [|x items IH]; intro H; cbn [find_item] in H; [discriminate|].
  destruct (member "Account" x) as [a|] eqn:M; try discriminate.
  cbn [bind] in H. apply member_ok in M. subst a.
  destruct (test re (ToString (get "Account" x))) eqn:T.
  - inversion H. subst. exists [], items.
    split; [reflexivity|]. split; [intros y []|exact T].
  - destruct (IH H) as (before & after & E & B & Ti).
    exists (x :: before), after.
    split; [rewrite E; reflexivity|]. split; [|exact Ti].
    intros y [<-|Hy]; [exact T|now apply B].
Qed.

Lemma first_numeric_no_object (item : value) (props : list string) :
  ToBoolean item = false -> first_numeric item props = zero.
Proof.
  intro F. induction props as [|p props IH]; [reflexivity|].
  cbn [first_numeric]. destruct item; try discriminate; cbn [get]; exact IH.
Qed.

Lemma findFinancialItem_category (items : list value) (re : RegExp)
  (props : list string) (n : number) :
  findFinancialItem items re props = Ok n -> category_amount items re props n.
Proof.
  unfold findFinancialItem. intro H.
  destruct (find_item re items) as [[item|]|] eqn:F; cbn [bind] in H; try discriminate.
  - right. destruct (find_item_some _ _ F) as (before & after & E & B & T).
    exists before, item, after. split; [exact E|]. split; [exact B|]. split; [exact T|].
    destruct (ToBoolean item) eqn:TB; cbn [negb] in H; inversion H.
    + apply first_numeric_first_present.
    + rewrite <- (first_numeric_no_object item props TB).
      apply first_numeric_first_present.
  - left. inversion H. split; [|reflexivity]. now apply find_item_none.
Qed.




(** ** The simplified shape *)

Lemma string_eqb_eq (a b : string) : string_eqb a b = true <-> a = b.
Proof. apply String.eqb_eq. Qed.

Lemma lookup_delete (k k' : string) (o : object) :
  lookup k' (delete k o) = if string_eqb k' k then None else lookup k' o.
Proof.
  induction o as [|[key v] o IH]; cbn [delete filter lookup fst].
  - destruct (string_eqb k' k); reflexivity.
  - destruct (string_eqb key k) eqn:K; cbn [negb].
    + fold (delete k o). rewrite IH.
      apply string_eqb_eq in K. subst key.
      destruct (string_eqb k' k) eqn:K'; [reflexivity|].
      unfold string_eqb in *. rewrite String.eqb_sym, K'. reflexivity.
    + fold (delete k o). cbn [lookup]. rewrite IH.
      destruct (string_eqb key k') eqn:K'; [|reflexivity].
      apply string_eqb_eq in K'. subst key.
      unfold string_eqb in *. rewrite K. reflexivity.
Qed.

Lemma get_without (k k' : string) (data : value) :
  get k' (without k data) = if string_eqb k' k then VUndefined else get k' data.
Proof.
  destruct data; cbn [without get]; try (destruct (string_eqb k' k); reflexivity).
  rewrite lookup_delete. destruct (string_eqb k' k); reflexivity.
Qed.

Lemma or_falsy_first (a y : value) :
  ToBoolean a = false -> or a y = or VUndefined y.
Proof. intro F. unfold or. rewrite F. reflexivity. Qed.

Lemma or_falsy_next (x a y : value) :
  ToBoolean a = false -> or (or x a) y = or (or x VUndefined) y.
Proof.
  intro F. unfold or. destruct (ToBoolean x); [reflexivity|].
  rewrite F. reflexivity.
Qed.

Ltac same_chain F :=
  unfold parseSimplifiedResponse;
  destruct (extractCompanyDetails _) as [companyName businessType];
  rewrite !get_without;
  repeat match goal with
  | |- context [string_eqb ?a ?b] =>
      let v := eval vm_compute in (string_eqb a b) in
      change (string_eqb a b) with v
  end;
  cbv iota;
  rewrite ?(@or_falsy_next _ _ _ F), ?(@or_falsy_first _ _ F);
  reflexivity.

(** C10. In parseSimplifiedResponse a recognized key whose value is 0, or
    falsy in another way, is treated as if the key were absent: the function
    returns the record it returns for the same response without the key, so
    the figure comes from the next key of the chain or from the scan of the
    document text. *)
Theorem simplified_falsy_key_is_absent (currentYear : Z) (data : value)
  (originalDocumentText k : string) :
  In k recognized_keys ->
  ToBoolean (get k data) = false ->
  parseSimplifiedResponse currentYear data originalDocumentText =
  parseSimplifiedResponse currentYear (without k data) originalDocumentText.
Proof.
  intros K F. unfold recognized_keys in K. cbn [In] in K.
  repeat (destruct K as [<-|K]; [same_chain F|]).
  destruct K.
Qed.

(** C10, at a response with an explicit revenue of 0: the record is that of
    the response without the key, and its income is the 1200 of the document. *)
Lemma simplified_zero_revenue_example :
  let data := VObj [("Revenue", num 0); ("Expenses", num 5)] in
  parseSimplifiedResponse 2025 data "Revenue 1,200" =
  parseSimplifiedResponse 2025 (without "Revenue" data) "Revenue 1,200" /\
  totalIncome (parseSimplifiedResponse 2025 data "Revenue 1,200") = num 1200.
Proof.
  cbv zeta. split.
  - assert (In "Revenue" recognized_keys) as K by (left; reflexivity).
    assert (ToBoolean (get "Revenue" (VObj [("Revenue", num 0); ("Expenses", num 5)]))
            = false) as F by (vm_compute; reflexivity).
    exact (@simplified_falsy_key_is_absent 2025
             (VObj [("Revenue", num 0); ("Expenses", num 5)]) "Revenue 1,200" "Revenue" K F).
  - vm_compute. reflexivity.
Defined.

(** ** The recovery cascade *)


(** A response in a markdown fence with a trailing comma: the direct parse
    throws and the cleaned parse gives the two figures. *)
Example fenced_response_is_cleaned :
  let content :=
    ("```json" ++ String newline
       (quoted "{'totalIncome': 500, 'totalExpenses': 300,}") ++
       String newline "```")%string in
  safeJSONParse content =
  (Ok (VObj [("totalIncome", num 500); ("totalExpenses", num 300)]),
   [InitialParseFailed]).
Proof. vm_compute. reflexivity. Qed.

(** The first stage wins even where a later one would give another value:
    the cleaning collapses the two spaces inside the string. *)
Example first_stage_wins :
  let content := quoted "{'a': 'x  y'}" in
  safeJSONParse content = (Ok (VObj [("a", VStr "x  y")]), []) /\
  cleaned_parse content = Ok (VObj [("a", VStr "x y")]).
Proof. vm_compute. split; reflexivity. Qed.

(** ** The provider loop *)

Section ProviderLoop.

Variable currentYear : Z.
Variable World : Type.
Variable ollama_invoke : string -> World -> result string * World.
Variable openai_create : string -> World -> result (option string) * World.
Variable claude_create :
  string -> World -> result (option (list (string * string))) * World.
Variable addDocuments : string -> string -> World -> World.
Variable instructions : string.

Local Abbreviation attempt :=
  (extractWithProvider currentYear ollama_invoke openai_create claude_create
     instructions).
Local Abbreviation extract :=
  (extractTaxData currentYear ollama_invoke openai_create claude_create
     addDocuments instructions).
Local Abbreviation try_all :=
  (try_providers currentYear ollama_invoke openai_create claude_create instructions).

Lemma existsb_In (a : string) (l : list string) :
  In a l -> existsb (string_eqb a) l = true.
Proof.
  intro H. apply existsb_exists. exists a. split; [exact H|].
  apply String.eqb_refl.
Qed.

Lemma try_providers_all_fail (this : Extractor) (documentText context : string)
  (providers : list string) (w : World) :
  (forall p w', exists e w'', attempt this p documentText context w' = (Throw e, w'')) ->
  fst (try_all this providers documentText context w) = getDefaultTaxData currentYear.
Proof.
  intro F. revert w. induction providers as [|p providers IH]; intro w.
  - reflexivity.
  - cbn [try_providers]. destruct (F p w) as (e & w'' & E). rewrite E. apply IH.
Qed.


End ProviderLoop.


(** ** Responses on which the pipeline leaves the record incomplete *)

(** C1, at a failing input.  A response that carries only a validation payload
    is of the enhanced shape; the record returned for it has no taxpayerName,
    no taxYear, no taxId and no businessType, whatever the document is. *)
Theorem enhanced_response_lacks_fields (currentYear : Z) (originalDocumentText : option string) :
  let r := parseAIResponse currentYear (quoted "{'validationData': {}}")
             originalDocumentText in
  taxpayerName r = VUndefined /\ taxYear r = VUndefined /\
  taxId r = VUndefined /\ businessType r = VUndefined.
Proof. vm_compute. repeat split. Qed.

(** C2, at a failing input.  The reply of the model is no JSON at all, so the
    record comes from the scan of the document; the line of the document
    makes parseFloat return NaN, and the record is returned with NaN in
    totalIncome and in taxableAmount. *)
Theorem fallback_returns_NaN (currentYear : Z) :
  let r := parseAIResponse currentYear "I could not read the document."
             (Some "Revenue (unaudited)") in
  fst (safeJSONParse "I could not read the document.") =
    Throw (Error "Failed to parse JSON after multiple attempts") /\
  totalIncome r = VNum NaN /\ taxableAmount r = VNum NaN.
Proof. vm_compute. repeat split. Qed.

(** C8, at the input of the claim.  The pattern of extractTaxAmounts lets the
    run of non-digits take the opening parenthesis, so the captured text is
    1,680 followed by the closing parenthesis only, parseAmount sees no pair
    of parentheses, and the fallback returns 1680 and not -1680.  The scan of
    extractAmountFromText negates the same line. *)
Theorem fallback_keeps_parenthesized_positive (currentYear : Z) :
  option_map (group 1) (exec re_profit_before_tax "Profit before tax (1,680)") =
    Some (Some "1,680)") /\
  amtTaxable (extractTaxAmounts "Profit before tax (1,680)") = of_Z 1680 /\
  taxableAmount (extractFromRawText currentYear "Profit before tax (1,680)") = num 1680 /\
  taxableAmount (parseAIResponse currentYear EmptyString
                   (Some "Profit before tax (1,680)")) = num 1680 /\
  extractAmountFromText "Profit before tax (1,680)" re_simple_profit = of_Z (-1680).
Proof. vm_compute. repeat split. Qed.

(** Every pattern of the extractor is accepted by the parser of patterns. *)
Example every_pattern_compiles :
  forallb compiled
    ([re_fence; re_line_comment; re_block_comment; re_trailing_comma;
      re_property_name; re_bare_value; re_spaces; re_non_printable;
      re_trailing_comma2; re_unquoted_key; re_single_quoted; re_embedded_object;
      re_comma; re_parens; re_year; re_limited_line; re_limited; re_company;
      re_technology; re_trading; re_construction; re_header1; re_header2;
      re_header3; re_revenue_amount; re_other_income; re_general_expenses;
      re_cost_of_sales; re_direct_expenses; re_capital_allowances;
      re_depreciation; re_tax_relief; re_allowable_deductions;
      re_profit_before_tax; re_paren_cedis; re_cedis; re_paren_number; re_number;
      re_simple_revenue; re_simple_expenses; re_simple_profit;
      re_simple_deductions; re_item_revenue; re_item_expenses; re_item_profit;
      re_item_deductions]
     ++ revenuePatterns ++ profitPatterns ++ expensePatterns ++ deductionPatterns)
  = true.
Proof. vm_compute. reflexivity. Qed.

(** The example of the specification for a financial statement. *)
Example financial_statement_example :
  let content := quoted
    "{'Profit_and_Loss': [{'Account': 'Revenue', 'Amount': 13247}, {'Account': 'General & admin expenses', 'Expenses': 14927}]}" in
  let r := parseAIResponse 2025 content (Some "CACHE TECHNOLOGY COMPANY LIMITED") in
  taxpayerName r = VStr "CACHE TECHNOLOGY COMPANY LIMITED" /\
  totalIncome r = num 13247 /\ totalExpenses r = num 14927.
Proof. vm_compute. repeat split. Qed.

(** ** Records with all their fields *)

Lemma present_or (a b : value) : present b = true -> present (or a b) = true.
Proof.
  intro B. unfold or. destruct (ToBoolean a) eqn:T; [|exact B].
  destruct a; try discriminate; reflexivity.
Qed.

Lemma complete_constrained (d : ExtractedTaxData) :
  present (taxpayerName d) = true -> present (taxYear d) = true ->
  present (taxId d) = true -> present (businessType d) = true ->
  complete (fst (applySoftConstraints d)) = true.
Proof.
  intros A B C D. rewrite applySoftConstraints_fields.
  unfold complete, constrained.
  cbn [taxpayerName taxYear totalIncome totalExpenses totalDeductions
       taxableAmount taxId businessType present].
  rewrite A, B, C, D. reflexivity.
Qed.

Lemma complete_extractFromRawText (currentYear : Z) (text : string) :
  complete (extractFromRawText currentYear text) = true.
Proof.
  unfold extractFromRawText. destruct (extractCompanyInfo text). reflexivity.
Qed.

Lemma complete_parseSimplifiedResponse (currentYear : Z) (data : value) (text : string) :
  complete (parseSimplifiedResponse currentYear data text) = true.
Proof.
  unfold parseSimplifiedResponse. destruct (extractCompanyDetails text).
  apply complete_constrained; reflexivity.
Qed.

Lemma complete_parseFinancialStatementFormat (currentYear : Z) (data : value)
  (text : string) (r : ExtractedTaxData) :
  parseFinancialStatementFormat currentYear data text = Ok r -> complete r = true.
Proof.
  unfold parseFinancialStatementFormat. destruct (extractCompanyInfo text).
  destruct (extractFinancialData data); cbn [bind]; intro H; inversion H.
  apply complete_constrained; reflexivity.
Qed.

Lemma complete_processStandardFormat (currentYear : Z) (data : value) (text : string) :
  complete (processStandardFormat currentYear data text) = true.
Proof.
  unfold processStandardFormat.
  destruct (ToBoolean (get "detailedBreakdown" data));
    apply complete_constrained;
    cbn [taxpayerName taxYear taxId businessType]; apply present_or; reflexivity.
Qed.

(** parseAIResponse is total, so it never throws; and unless the parsed
    reply is an object with a validationData key, the record it returns
    has all eight fields, none of them undefined or null. *)
Theorem parseAIResponse_complete_unless_enhanced (currentYear : Z) (content : string)
  (originalDocumentText : option string) :
  (forall v, fst (safeJSONParse content) = Ok v -> has "validationData" v <> Ok true) ->
  complete (parseAIResponse currentYear content originalDocumentText) = true.
Proof.
  intro NE. unfold parseAIResponse.
  destruct (fst (safeJSONParse content)) as [v|e] eqn:P;
    [|apply complete_extractFromRawText].
  specialize (NE v eq_refl).
  destruct (ToBoolean v); cbn [negb]; [|apply complete_extractFromRawText].
  unfold classify.
  destruct (has "validationData" v) as [[|]|] eqn:V; cbn [bind];
    [congruence| |apply complete_extractFromRawText].
  destruct (has "Balance_Sheet" v) as [b|]; cbn [bind];
    [|apply complete_extractFromRawText].
  destruct (if b then Ok true else has "Profit_and_Loss" v) as [[|]|]; cbn [bind];
    [| |apply complete_extractFromRawText].
  - destruct (parseFinancialStatementFormat _ _ _) eqn:F;
      [apply (complete_parseFinancialStatementFormat _ _ _ F)
      |apply complete_extractFromRawText].
  - destruct (isSimplifiedResponse v) as [[|]|]; cbn [bind].
    + apply complete_parseSimplifiedResponse.
    + apply complete_processStandardFormat.
    + apply complete_extractFromRawText.
Qed.

(** The example of the specification for the recovery cascade, through
    parseAIResponse. *)
Example fenced_response_record :
  let content :=
    ("```json" ++ String newline
       (quoted "{'totalIncome': 500, 'totalExpenses': 300,}") ++
       String newline "```")%string in
  snd (safeJSONParse content) = [InitialParseFailed] /\
  totalIncome (parseAIResponse 2025 content None) = num 500 /\
  totalExpenses (parseAIResponse 2025 content None) = num 300.
Proof. vm_compute. repeat split. Qed.

(** ** The earlier version never caps *)

Lemma reset_field_expenses (st : ExtractedTaxData * list message) (f : field) (e : Q) :
  totalExpenses (fst st) = VNum (Fin e) ->
  totalExpenses (fst (Earlier.reset_field st f)) = VNum (Fin e).
Proof.
  destruct st as [d log]. cbn [fst]. intro H. unfold Earlier.reset_field.
  destruct f; cbn [get_field].
  - destruct (totalIncome d) as [| | b | n | s | l | o]; cbn [fst]; try exact H.
    destruct (isNaN n || negb (isFinite n)); cbn [fst]; exact H.
  - rewrite H. cbn [isNaN isFinite orb negb fst]. exact H.
  - destruct (totalDeductions d) as [| | b | n | s | l | o]; cbn [fst]; try exact H.
    destruct (isNaN n || negb (isFinite n)); cbn [fst]; exact H.
  - destruct (taxableAmount d) as [| | b | n | s | l | o]; cbn [fst]; try exact H.
    destruct (isNaN n || negb (isFinite n)); cbn [fst]; exact H.
Qed.

Lemma reset_fields_expenses (c : ExtractedTaxData) (log : list message) (e : Q) :
  totalExpenses c = VNum (Fin e) ->
  totalExpenses (fst (fold_left Earlier.reset_field numericFields (c, log))) =
  VNum (Fin e).
Proof.
  intro H. unfold numericFields. cbn [fold_left].
  repeat apply reset_field_expenses. exact H.
Qed.

(** The earlier applySoftConstraints leaves finite expenses as they are,
    however large they are against the income: it has no cap. *)
Theorem earlier_version_keeps_expenses (d : ExtractedTaxData) (e : Q) :
  totalExpenses d = VNum (Fin e) ->
  totalExpenses (fst (Earlier.applySoftConstraints d)) = VNum (Fin e).
Proof.
  intro H. unfold Earlier.applySoftConstraints.
  destruct (gt (abs _) _).
  - destruct (strict_eq (taxableAmount d) (num 0) && _);
      apply reset_fields_expenses; exact H.
  - apply reset_fields_expenses; exact H.
Qed.

(** In the earlier version the record with income 1000 and expenses 10000
    keeps its expenses; only the warning is written. *)
Example earlier_version_example :
  let d := mkTaxData (VStr "A") (num 2024) (num 1000) (num 10000) (num 0) (num 0)
             (VStr "T") (VStr "B") in
  totalExpenses (fst (Earlier.applySoftConstraints d)) = num 10000 /\
  In ExpensesExceedRevenue (snd (Earlier.applySoftConstraints d)).
Proof. vm_compute. split; [reflexivity|]. left. reflexivity. Qed.

(** ** The residual rule for the taxable amount *)


(** ** The policy of the first success, spelled out *)

(** [first_success] returns a value exactly when some stage of the list
    returns it and every stage before that one throws; the number it
    returns is then the number of those earlier stages. *)
Lemma first_success_first (stages : list (string -> result value)) (content : string)
  (v : value) (failed : nat) :
  first_success stages content = (Ok v, failed) <->
  exists before stage after,
    stages = before ++ stage :: after /\
    (forall s, In s before -> exists e, s content = Throw e) /\
    stage content = Ok v /\ failed = List.length before.
Proof.
  revert failed. induction stages as [|s stages IH]; intro failed; cbn [first_success].
  - split; [discriminate|]. intros (before & stage & after & E & _).
    destruct before; discriminate.
  - destruct (s content) as [x|e] eqn:S.
    + split.
      * intro H. inversion H. subst. exists [], s, stages.
        repeat split; [intros ? []|exact S].
      * intros ([|b before] & stage & after & E & B & T & L).
        -- cbn in E. inversion E. subst. rewrite S in T. inversion T. reflexivity.
        -- cbn in E. inversion E. subst.
           destruct (B b (or_introl eq_refl)) as [e F]. congruence.
    + destruct (first_success stages content) as [r n] eqn:F. split.
      * intro H. inversion H. subst.
        destruct (proj1 (IH n) eq_refl) as (before & stage & after & E & B & T & L).
        exists (s :: before), stage, after. subst.
        repeat split; [|exact T].
        intros s' [<-|I]; [eauto|now apply B].
      * intros ([|b before] & stage & after & E & B & T & L).
        -- cbn in E. inversion E. subst. congruence.
        -- cbn in E. inversion E. subst. cbn [List.length].
           assert ((r, n) = (Ok v, List.length before)) as R.
           { apply IH. exists before, stage, after.
             repeat split; [|exact T]. intros s' I. apply B. now right. }
           inversion R. reflexivity.
Qed.

(** At a reply in the standard shape the hypothesis holds and the record
    is complete. *)
Lemma standard_reply_complete :
  complete (parseAIResponse 2025 (quoted "{'totalIncome': 5}") None) = true.
Proof.
  assert (fst (safeJSONParse (quoted "{'totalIncome': 5}")) =
          Ok (VObj [("totalIncome", num 5)])) as P by (vm_compute; reflexivity).
  apply parseAIResponse_complete_unless_enhanced.
  intros v H. rewrite P in H. inversion H. subst v. vm_compute. discriminate.
Defined.

(** At expenses of ten times the income the earlier version keeps them. *)
Lemma earlier_version_keeps_expenses_example :
  totalExpenses
    (fst (Earlier.applySoftConstraints
            (mkTaxData (VStr "A") (num 2024) (num 1000) (num 10000) (num 0) (num 0)
               (VStr "T") (VStr "B")))) = VNum (Fin 10000).
Proof.
  apply (@earlier_version_keeps_expenses
           (mkTaxData (VStr "A") (num 2024) (num 1000) (num 10000) (num 0) (num 0)
              (VStr "T") (VStr "B")) 10000%Q).
  reflexivity.
Defined.


(** ** What the soft constraints guarantee *)

Lemma constrained_numbers (d : ExtractedTaxData) :
  numbers_checked (constrained d) = true.
Proof.
  unfold constrained, numbers_checked.
  destruct (validateNumericValue_fin (totalIncome d)) as [i ->].
  destruct (validateNumericValue_fin (totalExpenses d)) as [e ->].
  destruct (validateNumericValue_fin (totalDeductions d)) as [dd ->].
  destruct (validateNumericValue_fin (taxableAmount d)) as [t ->].
  destruct (validateExpensesRatio_fin e i) as [e' ->].
  cbn [totalIncome totalExpenses totalDeductions taxableAmount finite_number andb].
  change (sub (sub (Fin i) (Fin e')) (Fin dd)) with (Fin (i + - e' + - dd)).
  destruct (validateTaxableAmount_fin t (i + - e' + - dd) i) as [t' ->].
  reflexivity.
Qed.

Lemma checked_after_constraints (d : ExtractedTaxData) :
  numbers_checked (fst (applySoftConstraints d)) = true.
Proof. rewrite applySoftConstraints_fields. apply constrained_numbers. Qed.

(** Whatever the fields of a record hold, after applySoftConstraints the
    income, the expenses and the deductions are finite numbers and the
    taxable amount is a number other than NaN. *)
Theorem applySoftConstraints_numbers (d : ExtractedTaxData) :
  numbers_checked (fst (applySoftConstraints d)) = true.
Proof. rewrite applySoftConstraints_fields. apply constrained_numbers. Qed.

(** applySoftConstraints never touches the name, the year, the tax
    identifier and the business type; it leaves a finite income and finite
    deductions as they are, and it never raises the expenses. *)
Theorem applySoftConstraints_keeps (d : ExtractedTaxData) :
  let r := fst (applySoftConstraints d) in
  (taxpayerName r = taxpayerName d /\ taxYear r = taxYear d /\
   taxId r = taxId d /\ businessType r = businessType d) /\
  (forall i, totalIncome d = VNum (Fin i) -> totalIncome r = VNum (Fin i)) /\
  (forall dd, totalDeductions d = VNum (Fin dd) -> totalDeductions r = VNum (Fin dd)) /\
  (forall e, totalExpenses d = VNum (Fin e) ->
     exists e', totalExpenses r = VNum (Fin e') /\ (e' <= e)%Q).
Proof.
  intro r. subst r. rewrite applySoftConstraints_fields. unfold constrained.
  cbn [taxpayerName taxYear taxId businessType totalIncome totalDeductions totalExpenses].
  repeat split.
  - intros i ->. reflexivity.
  - intros dd ->. reflexivity.
  - intros e ->. rewrite validateNumericValue_Fin.
    destruct (validateNumericValue_fin (totalIncome d)) as [i ->].
    unfold validateExpensesRatio.
    destruct (gt (Fin i) zero && gt (Fin e) (mul (Fin i) (of_Z 3))).
    + unfold min, mul, MAX_EXPENSE_RATIO, of_Z, lt.
      destruct (Qltb (i * inject_Z 5) e) eqn:L.
      * eexists. split; [reflexivity|]. to_Q. lra.
      * eexists. split; [reflexivity|]. lra.
    + eexists. split; [reflexivity|]. lra.
Qed.



(** ** Records that pass the soft constraints untouched *)

Lemma validate_field_finite (d : ExtractedTaxData) (ws : list message) (f : field) (q : Q) :
  get_field f d = VNum (Fin q) -> validate_field (d, ws) f = (d, ws).
Proof.
  intro H. unfold validate_field. rewrite H, validateNumericValue_Fin.
  cbn [strict_eq eq]. rewrite Qeq_bool_refl. reflexivity.
Qed.



(** ** The order of the providers *)

Lemma In_filter_other (p a : string) (l : list string) :
  In p (filter (fun x => negb (string_eqb x a)) l) <-> In p l /\ p <> a.
Proof.
  rewrite filter_In. split; intros [I N]; split; try exact I.
  - intro E. subst. unfold string_eqb in N. rewrite String.eqb_refl in N. discriminate.
  - unfold string_eqb. destruct (String.eqb_spec p a); [contradiction|reflexivity].
Qed.

Lemma existsb_string_In (a : string) (l : list string) :
  existsb (string_eqb a) l = true <-> In a l.
Proof.
  rewrite existsb_exists. split.
  - intros (x & I & E). apply String.eqb_eq in E. subst. exact I.
  - intro I. exists a. split; [exact I|apply String.eqb_refl].
Qed.

(** getProvidersToTry returns the live providers and nothing else.  When
    the preferred provider is live it comes first and does not come again,
    and the others follow in the order they were registered; otherwise the
    list is that of the live providers as it is.  When no provider was
    registered twice, the result is a rearrangement of the live providers. *)
Theorem getProvidersToTry_order (this : Extractor) :
  (forall p, In p (getProvidersToTry this) <-> In p (availableProviders this)) /\
  (In (preferredProvider this) (availableProviders this) ->
   exists others,
     getProvidersToTry this = preferredProvider this :: others /\
     ~ In (preferredProvider this) others /\
     forall before p after,
       others = before ++ p :: after ->
       exists b a, availableProviders this = b ++ p :: a /\
                   (forall x, In x before -> In x b)) /\
  (~ In (preferredProvider this) (availableProviders this) ->
   getProvidersToTry this = availableProviders this) /\
  (NoDup (availableProviders this) ->
   Permutation (getProvidersToTry this) (availableProviders this)).
Proof.
  unfold getProvidersToTry.
  destruct this as [l o c v em av pref]. cbn [preferredProvider availableProviders].
  destruct (existsb (string_eqb pref) av) eqn:E.
  - apply existsb_string_In in E. repeat split.
    + intros [<-|I]; [exact E|]. apply In_filter_other in I. tauto.
    + intro I. destruct (string_dec pref p) as [->|N]; [left; reflexivity|].
      right. apply In_filter_other. split; [exact I|congruence].
    + intros _. eexists. split; [reflexivity|]. split.
      * intro I. apply In_filter_other in I. tauto.
      * clear E. induction av as [|x av IH]; intros before p after H.
        -- destruct before; discriminate.
        -- cbn [filter] in H. destruct (negb (string_eqb x pref)).
           ++ destruct before as [|y before].
              ** cbn in H. inversion H. subst. exists [], av. split; [reflexivity|].
                 intros ? [].
              ** cbn in H. inversion H. subst y.
                 destruct (IH before p after H2) as (b & a & -> & S).
                 exists (x :: b), a. split; [reflexivity|].
                 intros z [<-|I]; [left; reflexivity|right; apply S; exact I].
           ++ destruct (IH before p after H) as (b & a & -> & S).
              exists (x :: b), a. split; [reflexivity|].
              intros z I. right. apply S. exact I.
    + intro N. contradiction.
    + intro ND. revert E ND. induction av as [|x av IH]; intros E ND.
      * destruct E.
      * inversion ND as [|? ? NI ND']. subst. cbn [filter].
        unfold string_eqb at 1. destruct (String.eqb_spec x pref) as [->|NE]; cbn [negb].
        -- apply perm_skip.
           assert (filter (fun p => negb (string_eqb p pref)) av = av) as F.
           { clear IH E ND ND'. induction av as [|y av IH]; [reflexivity|].
             cbn [filter]. unfold string_eqb at 1.
             destruct (String.eqb_spec y pref) as [->|NE].
             - exfalso. apply NI. left. reflexivity.
             - cbn [negb]. f_equal. apply IH. intro I. apply NI. right. exact I. }
           rewrite F. apply Permutation_refl.
        -- destruct E as [E|E]; [congruence|].
           eapply perm_trans; [apply perm_swap|]. apply perm_skip. apply IH; assumption.
  - assert (~ In pref av) as N.
    { intro I. apply existsb_string_In in I. congruence. }
    repeat split; try tauto. intros _. apply Permutation_refl.
Qed.

(** ** The numeric fields on every path but the scan of the raw text *)

Lemma validateExtractedData_numbers (data : value) :
  numbers_checked (fst (validateExtractedData data)) = true.
Proof.
  unfold validateExtractedData.
  destruct (ToBoolean (get "validationData" data)).
  - destruct (applySoftConstraints _) as [r ws] eqn:A. cbn [fst].
    change r with (fst (r, ws)). rewrite <- A. apply checked_after_constraints.
  - destruct (applySoftConstraints _) as [r ws] eqn:A. cbn [fst].
    change r with (fst (r, ws)). rewrite <- A. apply checked_after_constraints.
Qed.

(** Every record that parseAIResponse returns is either the one scanned
    from the raw text, or one whose income, expenses and deductions are
    finite numbers and whose taxable amount is a number other than NaN. *)
Theorem parseAIResponse_numbers_unless_scanned (currentYear : Z) (content : string)
  (originalDocumentText : option string) :
  parseAIResponse currentYear content originalDocumentText =
    extractFromRawText currentYear (text_or originalDocumentText content) \/
  numbers_checked (parseAIResponse currentYear content originalDocumentText) = true.
Proof.
  unfold parseAIResponse.
  destruct (fst (safeJSONParse content)) as [v|e]; [|left; reflexivity].
  destruct (ToBoolean v); cbn [negb]; [|left; reflexivity].
  destruct (classify v) as [[| | |]|]; cbn [bind]; try (left; reflexivity).
  - right. apply validateExtractedData_numbers.
  - unfold parseFinancialStatementFormat.
    destruct (extractCompanyInfo _) as [companyName businessType].
    destruct (extractFinancialData v); cbn [bind]; [|left; reflexivity].
    right. apply checked_after_constraints.
  - right. unfold parseSimplifiedResponse.
    destruct (extractCompanyDetails _) as [companyName businessType].
    apply checked_after_constraints.
  - right. unfold processStandardFormat.
    destruct (ToBoolean _); apply checked_after_constraints.
Qed.

(** ** Replies that are valid JSON and not an object *)

Lemma index_is_no_simplified_key (i : nat) :
  existsb (string_eqb (Z_to_string (Z.of_nat i))) simplifiedKeys = false.
Proof.
  unfold Z_to_string. destruct (Z.to_int (Z.of_nat i)) as [u|u]; destruct u; reflexivity.
Qed.

Lemma array_is_not_simplified (l : list value) :
  isSimplifiedResponse (VArr l) = Ok false.
Proof.
  unfold isSimplifiedResponse.
  replace (existsb _ (keys (VArr l))) with false; [reflexivity|].
  symmetry. apply not_true_is_false. intro E.
  apply existsb_exists in E. destruct E as (k & I & E).
  cbn [keys] in I. apply in_map_iff in I. destruct I as (i & <- & _).
  rewrite index_is_no_simplified_key in E. discriminate.
Qed.

(** A reply that is valid JSON and not an object gives nothing of its own:
    an array gives the record of the defaults, whatever it holds and
    whatever the document says; a number, a text, a truth value or null
    gives the record scanned from the raw text. *)
Theorem parseAIResponse_not_an_object (currentYear : Z) (content : string)
  (originalDocumentText : option string) (v : value) :
  fst (safeJSONParse content) = Ok v ->
  (forall o, v <> VObj o) ->
  parseAIResponse currentYear content originalDocumentText =
  not_an_object_record currentYear v (text_or originalDocumentText content).
Proof.
  intros P N. unfold parseAIResponse. rewrite P.
  destruct v as [| |b|n|s|l|o]; try reflexivity.
  - destruct (ToBoolean (VBool b)); reflexivity.
  - destruct (ToBoolean (VNum n)); reflexivity.
  - destruct (ToBoolean (VStr s)); reflexivity.
  - cbn [ToBoolean negb not_an_object_record]. unfold classify.
    cbn [has bind]. rewrite array_is_not_simplified. cbn [bind].
    reflexivity.
  - exfalso. apply (N o). reflexivity.
Qed.

Lemma parseAIResponse_array_example :
  parseAIResponse 2025 "[1, 2]" (Some "Revenue 5,000") = empty_reply_record 2025.
Proof.
  assert (fst (safeJSONParse "[1, 2]") = Ok (VArr [num 1; num 2])) as P
    by (vm_compute; reflexivity).
  apply (@parseAIResponse_not_an_object 2025 "[1, 2]" (Some "Revenue 5,000") _ P).
  intros o H. discriminate H.
Defined.

(** ** The empty reply *)

Lemma parseAIResponse_empty (currentYear : Z) (documentText : string) :
  parseAIResponse currentYear EmptyString (Some documentText) =
  extractFromRawText currentYear documentText.
Proof.
  unfold parseAIResponse.
  replace (fst (safeJSONParse EmptyString))
    with (@Throw value (Error "Failed to parse JSON after multiple attempts"))
    by (vm_compute; reflexivity).
  unfold text_or. unfold string_eqb. destruct (String.eqb_spec documentText EmptyString) as [->|N];
    reflexivity.
Qed.

Section Replies.

Variable currentYear : Z.
Variable World : Type.
Variable ollama_invoke : string -> World -> result string * World.
Variable openai_create : string -> World -> result (option string) * World.
Variable claude_create :
  string -> World -> result (option (list (string * string))) * World.
Variable addDocuments : string -> string -> World -> World.
Variable instructions : string.

(** A reply without content is handled differently by the two hosted
    providers.  From OpenAI it counts as a success: the provider loop ends
    with the record scanned from the document text.  From Claude it is an
    exception, so the loop goes on to the next provider. *)
Theorem reply_without_content (this : Extractor) (prompt documentText : string)
  (w w' : World) :
  (openai this = true ->
   (openai_create prompt w = (Ok None, w') \/
    openai_create prompt w = (Ok (Some EmptyString), w')) ->
   extractWithOpenAI currentYear openai_create this prompt documentText w =
   (Ok (extractFromRawText currentYear documentText), w')) /\
  (claude this = true ->
   (claude_create prompt w = (Ok None, w') \/
    claude_create prompt w = (Ok (Some []), w')) ->
   extractWithClaude currentYear claude_create this prompt documentText w =
   (Throw (Error "Empty response from Claude"), w')).
Proof.
  split; intros L R.
  - unfold extractWithOpenAI. rewrite L. cbn [negb].
    destruct R as [-> | ->]; rewrite parseAIResponse_empty; reflexivity.
  - unfold extractWithClaude. rewrite L. cbn [negb].
    destruct R as [-> | ->]; reflexivity.
Qed.

(** ** The label of the extraction method *)

Import UploadController.

Lemma hasData_year (r : ExtractedTaxData) (y : Q) :
  taxYear r = VNum (Fin y) -> ~ (y == 0)%Q -> hasData (entries r) = true.
Proof.
  intros Y N. unfold hasData, entries. cbn [existsb].
  rewrite Y. apply orb_true_iff. right. apply orb_true_iff. left.
  cbn. replace (Qeq_bool y (inject_Z 0)) with false; [reflexivity|].
  symmetry. to_Q. exact N.
Qed.


End Replies.


(** ** The tolerances of the cross-validation *)

Lemma kept_revenue (validation : value) (d : ExtractedTaxData) (r i : Q) :
  get "revenue" validation = VNum (Fin r) ->
  totalIncome d = VNum (Fin i) ->
  ~ (i == 0)%Q ->
  (r <= 0 \/ Qabs (r - i) / r <= 1 # 10)%Q ->
  correctedRevenue (performCrossValidation validation d) = None.
Proof.
  intros Hr Hi N C. unfold performCrossValidation. cbn [correctedRevenue].
  rewrite Hr, Hi. unfold v_gt, v_sub, num.
  cbn [ToBoolean ToNumber strict_eq isNaN orb].
  unfold eq, gt, lt, abs, sub, add, neg, div, zero, of_Z.
  destruct (negb (Qeq_bool r (inject_Z 0)) && negb (Qeq_bool r i)) eqn:G; [|reflexivity].
  apply andb_prop in G. destruct G as [G1 G2].
  apply negb_true_iff in G1. apply negb_true_iff in G2. to_Q.
  unfold inject_Z in G1.
  destruct (Qltb (inject_Z 0) r) eqn:P; [|reflexivity]. to_Q. unfold inject_Z in P.
  destruct C as [C|C]; [lra|].
  replace (Qeq_bool r 0) with false by (symmetry; to_Q; lra).
  replace (Qeq_bool i (inject_Z 0)) with false
    by (symmetry; to_Q; unfold inject_Z; exact N).
  replace (Qltb (1 # 10) (Qabs (r + - i) / r)) with false; [reflexivity|].
  symmetry. to_Q. exact C.
Qed.

Lemma kept_profit (validation : value) (d : ExtractedTaxData) (p t : Q) :
  get "profitBeforeTax" validation = VNum (Fin p) ->
  taxableAmount d = VNum (Fin t) ->
  (Qabs (p - t) <= 100)%Q ->
  correctedProfitBeforeTax (performCrossValidation validation d) = None.
Proof.
  intros Hp Ht C. unfold performCrossValidation. cbn [correctedProfitBeforeTax].
  rewrite Hp, Ht. unfold v_sub. cbn [ToNumber].
  unfold gt, lt, abs, sub, add, neg, of_Z.
  replace (Qltb (inject_Z 100) (Qabs (p + - t))) with false.
  - destruct (_ && _); reflexivity.
  - symmetry. to_Q. unfold inject_Z. exact C.
Qed.



(** ** A corrected figure that is not a number *)



(** ** The earlier version, twice *)

Lemma finite_number_Fin (v : value) : finite_number v = true -> exists q, v = VNum (Fin q).
Proof. destruct v as [| | | [| | |q] | | |]; try discriminate. intros _. exists q. reflexivity. Qed.

Lemma finite_fields_Fin (d : ExtractedTaxData) :
  finite_fields d = true ->
  exists i e dd t,
    totalIncome d = VNum (Fin i) /\ totalExpenses d = VNum (Fin e) /\
    totalDeductions d = VNum (Fin dd) /\ taxableAmount d = VNum (Fin t).
Proof.
  unfold finite_fields. intro H.
  apply andb_prop in H. destruct H as [H T].
  apply andb_prop in H. destruct H as [H D].
  apply andb_prop in H. destruct H as [I E].
  destruct (finite_number_Fin _ I) as [i Hi]. destruct (finite_number_Fin _ E) as [e He].
  destruct (finite_number_Fin _ D) as [dd Hd]. destruct (finite_number_Fin _ T) as [t Ht].
  exists i, e, dd, t. tauto.
Qed.

Lemma earlier_reset_finite (c : ExtractedTaxData) (log : list message) :
  finite_fields c = true ->
  fold_left Earlier.reset_field numericFields (c, log) = (c, log).
Proof.
  intro F. destruct (finite_fields_Fin c F) as (i & e & dd & t & Hi & He & Hd & Ht).
  unfold numericFields. cbn [fold_left]. unfold Earlier.reset_field. cbn [get_field].
  rewrite Hi. cbn [isNaN isFinite orb negb]. rewrite He. cbn [isNaN isFinite orb negb].
  rewrite Hd. cbn [isNaN isFinite orb negb]. rewrite Ht. reflexivity.
Qed.

Lemma earlier_on_finite (d : ExtractedTaxData) (i e dd t : Q) :
  totalIncome d = VNum (Fin i) -> totalExpenses d = VNum (Fin e) ->
  totalDeductions d = VNum (Fin dd) -> taxableAmount d = VNum (Fin t) ->
  fst (Earlier.applySoftConstraints d) = d \/
  (fst (Earlier.applySoftConstraints d) =
     set_taxableAmount (VNum (Fin (i + - e + - dd))) d /\
   (t == 0)%Q /\ ~ (i + - e + - dd == 0)%Q).
Proof.
  intros Hi He Hd Ht.
  assert (finite_fields d = true) as F.
  { unfold finite_fields. rewrite Hi, He, Hd, Ht. reflexivity. }
  unfold Earlier.applySoftConstraints. rewrite Hi, He, Hd, Ht.
  unfold v_sub. cbn [ToNumber]. cbn [sub add neg].
  destruct (gt _ _).
  - cbn [strict_eq num eq zero of_Z].
    destruct (Qeq_bool t (inject_Z 0) && negb (Qeq_bool (i + - e + - dd) (inject_Z 0))) eqn:C.
    + right. apply andb_prop in C. destruct C as [C1 C2]. apply negb_true_iff in C2.
      to_Q. unfold inject_Z in *. split; [|split; assumption].
      rewrite earlier_reset_finite; [reflexivity|].
      unfold finite_fields. cbn [set_taxableAmount totalIncome totalExpenses
        totalDeductions taxableAmount]. rewrite Hi, He, Hd. reflexivity.
    + left. rewrite earlier_reset_finite by exact F. reflexivity.
  - left. rewrite earlier_reset_finite by exact F. reflexivity.
Qed.

(** The earlier applySoftConstraints, the one of the compiled build,
    returns the same record on a second pass when the four numeric fields
    hold finite numbers.  With a field that is not a finite number it may
    not: expenses of NaN are reset only after the taxable amount was
    checked, and the second pass then fills in the taxable amount. *)
Theorem earlier_version_twice :
  (forall d : ExtractedTaxData,
      finite_fields d = true ->
      fst (Earlier.applySoftConstraints (fst (Earlier.applySoftConstraints d))) =
      fst (Earlier.applySoftConstraints d)) /\
  (let d := mkTaxData (VStr "A") (num 2024) (num 5000) (VNum NaN) (num 0) (num 0)
              (VStr "T") (VStr "B") in
   taxableAmount (fst (Earlier.applySoftConstraints d)) = num 0 /\
   taxableAmount
     (fst (Earlier.applySoftConstraints (fst (Earlier.applySoftConstraints d)))) =
   num 5000).
Proof.
  split.
  - intros d F. destruct (finite_fields_Fin d F) as (i & e & dd & t & Hi & He & Hd & Ht).
    destruct (earlier_on_finite d Hi He Hd Ht) as [E|(E & Z & NZ)].
    + rewrite E. exact E.
    + rewrite E.
      destruct (@earlier_on_finite (set_taxableAmount (VNum (Fin (i + - e + - dd))) d)
                  i e dd (i + - e + - dd) Hi He Hd eq_refl) as [E2|(_ & Z2 & _)].
      * exact E2.
      * contradiction.
  - vm_compute. split; reflexivity.
Qed.

(** ** A line item that is null *)

Lemma find_item_present (re : RegExp) (items : list value) :
  (forall item, In item items -> present item = true) ->
  exists r, find_item re items = Ok r.
Proof.
  induction items as [|item items IH]; intro H; [eexists; reflexivity|].
  cbn [find_item].
  assert (member "Account" item = Ok (get "Account" item)) as M.
  { pose proof (H item (or_introl eq_refl)) as P. destruct item; try discriminate P; reflexivity. }
  rewrite M. cbn [bind].
  destruct (test re _); [eexists; reflexivity|].
  apply IH. intros x I. apply H. right. exact I.
Qed.

Lemma findFinancialItem_present (items : list value) (re : RegExp) (props : list string) :
  (forall item, In item items -> present item = true) ->
  exists n, findFinancialItem items re props = Ok n.
Proof.
  intro H. unfold findFinancialItem.
  destruct (find_item_present re items H) as [[item|] ->]; cbn [bind].
  - destruct (negb (ToBoolean item)); eexists; reflexivity.
  - eexists; reflexivity.
Qed.



(** ** The matcher on patterns of one character *)

Import RegexLoop.

Lemma rmatch_repeat (ci ml : bool) (min : nat) (max : option nat) (greedy : bool)
  (r : regex) (s : mstate) (k : mstate -> option mstate) :
  rmatch ci ml (RRepeat min max greedy r) s k =
  rep ci ml r greedy k (S (min + List.length (rest s))) min max s.
Proof. reflexivity. Qed.

Lemma one_char_RChar (ci ml : bool) (x : ascii) :
  one_char ci ml (RChar x) (char_match ci x).
Proof. split; reflexivity. Qed.

Lemma one_char_RSet (ci ml neg : bool) (items : list citem) :
  one_char ci ml (RSet neg items) (set_match ci neg items).
Proof. split; reflexivity. Qed.

Lemma clear_no_caps (s : mstate) : clear_caps [] s = s.
Proof.
  destruct s as [pv l i cs]. unfold clear_caps. cbn [prev rest pos caps existsb negb].
  f_equal. induction cs as [|c cs IH]; [reflexivity|]. cbn [filter]. f_equal. exact IH.
Qed.

Lemma length_chars (s : string) : List.length (chars s) = String.length s.
Proof. induction s as [|c s IH]; [reflexivity|]. cbn. f_equal. exact IH. Qed.

Lemma chars_str (l : list ascii) : chars (str l) = l.
Proof. apply list_ascii_of_string_of_list_ascii. Qed.

Lemma str_chars (s : string) : str (chars s) = s.
Proof. apply string_of_list_ascii_of_string. Qed.

Lemma expand_no_caps (t : list tpart) (e : mstate) :
  caps e = [] -> expand t e = literals t.
Proof.
  intro C. unfold expand, literals. rewrite C.
  induction t as [|p t IH]; [reflexivity|]. cbn [flat_map]. rewrite IH.
  destruct p; reflexivity.
Qed.

Lemma last_default {A : Type} (l : list A) (a d d' : A) :
  last (a :: l) d = last (a :: l) d'.
Proof.
  revert a. induction l as [|b l IH]; intro a; [reflexivity|].
  change (last (a :: b :: l) d) with (last (b :: l) d).
  change (last (a :: b :: l) d') with (last (b :: l) d').
  apply IH.
Qed.

Lemma prev_after_cons (c : ascii) (run : list ascii) (pv : option ascii) :
  prev_after (c :: run) pv = prev_after run (Some c).
Proof.
  unfold prev_after. cbn [map]. destruct (map Some run) as [|b m]; [reflexivity|].
  change (last (Some c :: b :: m) pv) with (last (b :: m) pv).
  apply last_default.
Qed.

(** A quantifier with an exact count over a pattern of one character. *)
Lemma rep_exact (ci ml greedy : bool) (r : regex) (P : ascii -> bool)
  (k : mstate -> option mstate) :
  one_char ci ml r P ->
  forall (n fuel : nat) (pv : option ascii) (l : list ascii) (i : nat)
         (cs : list (nat * list ascii)),
    (n < fuel)%nat ->
    rep ci ml r greedy k fuel n (Some n) (mkState pv l i cs) =
    if forallb P (firstn n l) && (n <=? List.length l)%nat
    then k (mkState (prev_after (firstn n l) pv) (skipn n l) (i + n) cs)
    else None.
Proof.
  intros [G M] n. induction n as [|n IH]; intros fuel pv l i cs F.
  - destruct fuel as [|fuel]; [lia|]. cbn [rep is_zero_max firstn forallb skipn andb].
    cbn [Nat.leb prev_after map last]. rewrite Nat.add_0_r. reflexivity.
  - destruct fuel as [|fuel]; [lia|]. cbn [rep is_zero_max].
    rewrite G, clear_no_caps. cbn [Nat.ltb Nat.leb]. rewrite M. cbn [rest].
    destruct l as [|c l]; [reflexivity|].
    cbn [firstn forallb skipn List.length Nat.leb].
    destruct (P c); [|reflexivity]. unfold advance.
    cbn [andb Nat.eqb pos caps Nat.pred option_map].
    rewrite IH by lia. rewrite prev_after_cons.
    replace (S i + n)%nat with (i + S n)%nat by lia. reflexivity.
Qed.

(** A greedy quantifier without an upper bound over a pattern of one
    character, when nothing has to follow: it takes the whole run. *)
Lemma rep_greedy_run (ci ml : bool) (r : regex) (P : ascii -> bool) :
  one_char ci ml r P ->
  forall (l : list ascii) (fuel min : nat) (pv : option ascii) (i : nat)
         (cs : list (nat * list ascii)),
    (List.length l + min < fuel)%nat ->
    rep ci ml r true Some fuel min None (mkState pv l i cs) =
    if (min <=? List.length (takeWhile P l))%nat
    then Some (mkState (prev_after (takeWhile P l) pv) (dropWhile P l)
                 (i + List.length (takeWhile P l)) cs)
    else None.
Proof.
  intros [G M] l. induction l as [|c l IH]; intros fuel min pv i cs F.
  - destruct fuel as [|fuel]; [lia|]. cbn [rep is_zero_max].
    rewrite G, clear_no_caps, M. cbn [rest takeWhile dropWhile drop_while List.length].
    destruct min as [|min].
    + cbn. rewrite Nat.add_0_r. reflexivity.
    + reflexivity.
  - destruct fuel as [|fuel]; [lia|]. cbn [rep is_zero_max].
    rewrite G, clear_no_caps, M. cbn [rest takeWhile dropWhile drop_while].
    destruct (P c) eqn:Pc.
    + unfold advance. cbn [pos caps option_map List.length].
      replace ((min =? 0)%nat && (S i =? i)%nat) with false
        by (symmetry; apply andb_false_iff; right; apply Nat.eqb_neq; lia).
      cbn [List.length] in F. rewrite IH by lia.
      fold (dropWhile P l).
      replace (i + S (List.length (takeWhile P l)))%nat
        with (S i + List.length (takeWhile P l))%nat by lia.
      rewrite prev_after_cons.
      destruct min as [|min].
      * cbn [Nat.ltb Nat.leb Nat.pred]. reflexivity.
      * cbn [Nat.ltb Nat.leb Nat.pred]. reflexivity.
    + cbn [List.length]. destruct min as [|min].
      * cbn. rewrite Nat.add_0_r. reflexivity.
      * reflexivity.
Qed.

(** Replacing every match of a pattern of one character. *)
Lemma replace_from_one_char (ci ml : bool) (r : regex) (P : ascii -> bool)
  (t : list tpart) :
  one_char ci ml r P ->
  forall (inp : list ascii) (fuel : nat) (pv : option ascii) (i : nat),
    (List.length inp < fuel)%nat ->
    replace_from fuel ci ml r t pv i inp =
    flat_map (fun c => if P c then literals t else [c]) inp.
Proof.
  intros [G M] inp. induction inp as [|c inp IH]; intros fuel pv i F.
  - destruct fuel as [|fuel]; [cbn in F; lia|]. cbn [replace_from]. rewrite M. reflexivity.
  - destruct fuel as [|fuel]; [cbn in F; lia|]. cbn [replace_from]. rewrite M.
    cbn [rest flat_map List.length] in *.
    destruct (P c).
    + unfold advance. cbn [pos prev rest].
      replace (S i =? i)%nat with false by (symmetry; apply Nat.eqb_neq; lia).
      rewrite expand_no_caps by reflexivity. rewrite IH by lia. reflexivity.
    + rewrite IH by lia. reflexivity.
Qed.

(** A pattern anchored at the start, without the flag m, can only match
    at the first position. *)
Lemma exec_from_bol_later (ci : bool) (r : regex) (inp : list ascii) (c : ascii) (i : nat) :
  exec_from ci false (RSeq RBol r) (Some c) i inp = None.
Proof.
  revert c i. induction inp as [|d inp IH]; intros c i; cbn; [reflexivity|apply IH].
Qed.

Lemma test_anchored (re : RegExp) (r : regex) (s : string) :
  pattern re = Some (RSeq RBol r) ->
  multiline re = false ->
  test re s =
  match rmatch (ignoreCase re) false r (mkState None (chars s) 0 []) Some with
  | Some _ => true
  | None => false
  end.
Proof.
  intros Pt Ml. unfold test, exec. rewrite Pt, Ml.
  destruct (chars s) as [|c l]; cbn [exec_from rmatch at_bol prev].
  - destruct (rmatch _ _ _ _ _); reflexivity.
  - destruct (rmatch _ _ _ _ _); [reflexivity|].
    rewrite exec_from_bol_later. reflexivity.
Qed.

(** ** The tax brackets *)

Lemma Qle_bool_false (a b : Q) : Qle_bool a b = false <-> (b < a)%Q.
Proof.
  split; intro H.
  - destruct (Qlt_le_dec b a) as [L|L]; [exact L|].
    apply Qle_bool_iff in L. congruence.
  - destruct (Qle_bool a b) eqn:E; [|reflexivity].
    apply Qle_bool_iff in E. lra.
Qed.

(** Settle every comparison of the goal that the hypotheses decide. *)
Ltac settle :=
  repeat match goal with
  | |- context [Qltb ?a ?b] =>
      first [ replace (Qltb a b) with true by (symmetry; apply Qltb_true; lra)
            | replace (Qltb a b) with false by (symmetry; apply Qltb_false; lra) ]
  | |- context [Qeq_bool ?a ?b] =>
      first [ replace (Qeq_bool a b) with true by (symmetry; apply Qeq_bool_iff; lra)
            | replace (Qeq_bool a b) with false
                by (symmetry; apply Qeq_bool_false; lra) ]
  end.

Ltac by_region x :=
  unfold progressive_tax;
  destruct (Qle_bool x 4380) eqn:R1;
  [apply Qle_bool_iff in R1|
   apply Qle_bool_false in R1;
   destruct (Qle_bool x 5940) eqn:R2;
   [apply Qle_bool_iff in R2|
    apply Qle_bool_false in R2;
    destruct (Qle_bool x 8280) eqn:R3;
    [apply Qle_bool_iff in R3|
     apply Qle_bool_false in R3;
     destruct (Qle_bool x 11880) eqn:R4;
     [apply Qle_bool_iff in R4|
      apply Qle_bool_false in R4;
      destruct (Qle_bool x 35880) eqn:R5;
      [apply Qle_bool_iff in R5|apply Qle_bool_false in R5]]]]].

(** One turn of the loop on finite numbers, for an amount that fills the
    bracket and for one that ends in it. *)
Lemma tax_loop_full (th r rem tot prev : Q) (others : list bracket) :
  (th - prev < rem)%Q -> (0 <= th - prev)%Q ->
  tax_loop (mkBracket (Fin th) (Fin r) :: others) (Fin rem) (Fin tot) (Fin prev) =
  tax_loop others (Fin (rem + - (th + - prev))) (Fin (tot + (th + - prev) * r)) (Fin th).
Proof.
  intros F W. cbn [tax_loop threshold rate].
  unfold le, min, max, sub, add, neg, mul, lt, eq, of_Z, inject_Z.
  settle. cbv iota. settle. reflexivity.
Qed.

Lemma tax_loop_last (th r rem tot prev : Q) (others : list bracket) :
  (rem <= th - prev)%Q -> (0 <= th - prev)%Q ->
  exists q, tax_loop (mkBracket (Fin th) (Fin r) :: others) (Fin rem) (Fin tot) (Fin prev) =
            Fin q /\
            (q == tot + (if Qltb 0 rem then rem else 0) * r)%Q.
Proof.
  intros L W. cbn [tax_loop threshold rate].
  unfold le, min, max, sub, add, neg, mul, lt, eq, of_Z, inject_Z.
  destruct (Qltb 0 rem) eqn:P; to_Q; settle; cbv iota; settle; cbv iota.
  - destruct (Qeq_bool (rem + - rem) 0) eqn:Z.
    + rewrite orb_true_r. eexists. split; [reflexivity|lra].
    + to_Q. exfalso. apply Z. lra.
  - destruct (Qltb rem 0) eqn:N; to_Q; settle; cbv iota; settle; cbv iota.
    + cbn [orb]. eexists. split; [reflexivity|lra].
    + assert (rem == 0)%Q as Z0 by lra.
      destruct (Qeq_bool (rem + - rem) 0) eqn:Z.
      * rewrite orb_true_r. eexists. split; [reflexivity|]. rewrite Z0. reflexivity.
      * to_Q. exfalso. apply Z. lra.
Qed.

Lemma tax_loop_top (r rem tot prev : Q) :
  (0 < rem)%Q ->
  exists q, tax_loop [mkBracket PInf (Fin r)] (Fin rem) (Fin tot) (Fin prev) = Fin q /\
            (q == tot + rem * r)%Q.
Proof.
  intros P. cbn [tax_loop threshold rate].
  unfold le, min, max, sub, add, neg, mul, lt, eq, of_Z, inject_Z.
  settle. cbv iota.
  destruct (Qeq_bool (rem + - rem) 0) eqn:Z.
  - rewrite orb_true_r. eexists. split; [reflexivity|lra].
  - to_Q. exfalso. apply Z. lra.
Qed.

Lemma calculateTax_finite (x : Q) :
  exists q, calculateTax (Fin x) = Fin q /\ (q == progressive_tax x)%Q.
Proof.
  unfold calculateTax, brackets, of_Z, inject_Z.
  by_region x.
  - destruct (@tax_loop_last 4380 0 x 0 0 (tl brackets)) as (q & E & V); [lra|lra|].
    exists q. split; [exact E|]. rewrite V. destruct (Qltb 0 x); lra.
  - rewrite tax_loop_full by lra.
    destruct (@tax_loop_last 5940 (5 # 100) (x + - (4380 + - 0)) (0 + (4380 + - 0) * 0)
                4380 (tl (tl brackets))) as (q & E & V); [lra|lra|].
    exists q. split; [exact E|]. rewrite V.
    replace (Qltb 0 (x + - (4380 + - 0))) with true by (symmetry; to_Q; lra). lra.
  - do 2 rewrite tax_loop_full by lra.
    match goal with |- context [tax_loop _ (Fin ?rem) (Fin ?tot) (Fin ?prev)] =>
      destruct (@tax_loop_last 8280 (10 # 100) rem tot prev (tl (tl (tl brackets))))
        as (q & E & V); [lra|lra|] end.
    exists q. split; [exact E|]. rewrite V.
    match goal with |- context [Qltb 0 ?a] =>
      replace (Qltb 0 a) with true by (symmetry; to_Q; lra) end. lra.
  - do 3 rewrite tax_loop_full by lra.
    match goal with |- context [tax_loop _ (Fin ?rem) (Fin ?tot) (Fin ?prev)] =>
      destruct (@tax_loop_last 11880 (175 # 1000) rem tot prev
                  (tl (tl (tl (tl brackets))))) as (q & E & V); [lra|lra|] end.
    exists q. split; [exact E|]. rewrite V.
    match goal with |- context [Qltb 0 ?a] =>
      replace (Qltb 0 a) with true by (symmetry; to_Q; lra) end. lra.
  - do 4 rewrite tax_loop_full by lra.
    match goal with |- context [tax_loop _ (Fin ?rem) (Fin ?tot) (Fin ?prev)] =>
      destruct (@tax_loop_last 35880 (25 # 100) rem tot prev
                  (tl (tl (tl (tl (tl brackets)))))) as (q & E & V); [lra|lra|] end.
    exists q. split; [exact E|]. rewrite V.
    match goal with |- context [Qltb 0 ?a] =>
      replace (Qltb 0 a) with true by (symmetry; to_Q; lra) end. lra.
  - do 5 rewrite tax_loop_full by lra.
    match goal with |- context [tax_loop _ (Fin ?rem) (Fin ?tot) (Fin ?prev)] =>
      destruct (@tax_loop_top (30 # 100) rem tot prev) as (q & E & V); [lra|] end.
    exists q. split; [exact E|]. rewrite V. lra.
Qed.

Ltac region x R :=
  let R1 := fresh R in let R2 := fresh R in let R3 := fresh R in
  let R4 := fresh R in let R5 := fresh R in
  destruct (Qle_bool x 4380) eqn:R1;
  [apply Qle_bool_iff in R1|
   apply Qle_bool_false in R1;
   destruct (Qle_bool x 5940) eqn:R2;
   [apply Qle_bool_iff in R2|
    apply Qle_bool_false in R2;
    destruct (Qle_bool x 8280) eqn:R3;
    [apply Qle_bool_iff in R3|
     apply Qle_bool_false in R3;
     destruct (Qle_bool x 11880) eqn:R4;
     [apply Qle_bool_iff in R4|
      apply Qle_bool_false in R4;
      destruct (Qle_bool x 35880) eqn:R5;
      [apply Qle_bool_iff in R5|apply Qle_bool_false in R5]]]]].

Lemma progressive_tax_order (x y : Q) :
  (x <= y)%Q ->
  (0 <= progressive_tax x)%Q /\
  (progressive_tax x <= progressive_tax y)%Q /\
  (progressive_tax y - progressive_tax x <= (30 # 100) * (y - x))%Q.
Proof.
  intro L. unfold progressive_tax. region x X; region y Y; lra.
Qed.

Lemma progressive_tax_zero (x : Q) :
  (progressive_tax x == 0)%Q <-> (x <= 4380)%Q.
Proof.
  unfold progressive_tax. region x X; lra.
Qed.




(** ** The tax identification number *)

Lemma rmatch_seq (ci ml : bool) (a b : regex) (s : mstate) (k : mstate -> option mstate) :
  rmatch ci ml (RSeq a b) s k = rmatch ci ml a s (fun s' => rmatch ci ml b s' k).
Proof. reflexivity. Qed.

Lemma rmatch_eol (ci ml : bool) (s : mstate) (k : mstate -> option mstate) :
  rmatch ci ml REol s k = if at_eol ml s then k s else None.
Proof. reflexivity. Qed.

Lemma rmatch_set (ci ml neg : bool) (items : list citem) (s : mstate)
  (k : mstate -> option mstate) :
  rmatch ci ml (RSet neg items) s k =
  match rest s with
  | c :: l => if set_match ci neg items c then k (advance c l s) else None
  | [] => None
  end.
Proof. reflexivity. Qed.

Lemma rmatch_char (ci ml : bool) (x : ascii) (s : mstate) (k : mstate -> option mstate) :
  rmatch ci ml (RChar x) s k =
  match rest s with
  | c :: l => if char_match ci x c then k (advance c l s) else None
  | [] => None
  end.
Proof. reflexivity. Qed.

Ltac each_char c := destruct c as [[] [] [] [] [] [] [] []].

Lemma non_alphanumeric_set (c : ascii) :
  set_match false true [CRange "a" "z"; CRange "A" "Z"; CRange "0" "9"] c =
  negb (is_alnum c).
Proof. each_char c; reflexivity. Qed.

Lemma digit_set (c : ascii) : set_match false false [CDigit false] c = is_digit c.
Proof. each_char c; reflexivity. Qed.

Lemma to_upper_alnum (c : ascii) :
  is_alnum c = true ->
  is_upper (to_upper c) || is_digit (to_upper c) = true /\
  is_alnum (to_upper c) = true /\ to_upper (to_upper c) = to_upper c.
Proof. each_char c; intro H; try discriminate H; repeat split. Qed.

Lemma remove_is_filter (P : ascii -> bool) (l : list ascii) :
  flat_map (fun c => if P c then [] else [c]) l = filter (fun c => negb (P c)) l.
Proof.
  induction l as [|c l IH]; [reflexivity|]. cbn [flat_map filter].
  destruct (P c); cbn [negb app]; rewrite IH; reflexivity.
Qed.

Lemma formatTIN_chars (tin : string) :
  formatTIN tin = str (map to_upper (filter is_alnum (chars tin))).
Proof.
  unfold formatTIN, toUpperCase, replace, re_non_alphanumeric.
  cbn [pattern ignoreCase multiline].
  change (template (chars EmptyString)) with (@nil tpart).
  rewrite (@replace_from_one_char false false _ _ []
             (one_char_RSet false false true
                [CRange "a" "z"; CRange "A" "Z"; CRange "0" "9"]))
    by (rewrite length_chars; lia).
  change (literals []) with (@nil ascii).
  rewrite remove_is_filter, chars_str. f_equal. f_equal.
  apply filter_ext. intro c. rewrite non_alphanumeric_set. apply negb_involutive.
Qed.

(** formatTIN keeps the letters and the digits of its argument, in their
    order, with the letters in upper case, and drops every other
    character.  So its result holds only the letters A to Z and digits, and
    formatting a formatted number changes nothing. *)
Theorem formatTIN_normal_form (tin : string) :
  formatTIN tin = str (map to_upper (filter is_alnum (chars tin))) /\
  forallb (fun c => is_upper c || is_digit c) (chars (formatTIN tin)) = true /\
  formatTIN (formatTIN tin) = formatTIN tin.
Proof.
  split; [apply formatTIN_chars|].
  rewrite !formatTIN_chars, chars_str.
  generalize (chars tin). intro l. split.
  - induction l as [|c l IH]; [reflexivity|]. cbn [filter].
    destruct (is_alnum c) eqn:A; [|exact IH]. cbn [map forallb].
    rewrite IH. destruct (to_upper_alnum c A) as (U & _ & _). rewrite U. reflexivity.
  - f_equal. induction l as [|c l IH]; [reflexivity|]. cbn [filter].
    destruct (is_alnum c) eqn:A; [|exact IH]. cbn [map filter].
    destruct (to_upper_alnum c A) as (_ & A' & I). rewrite A'. cbn [map].
    rewrite I, IH. reflexivity.
Qed.

(** ** The two anchored validators *)

Lemma code_eqb (a b : ascii) : (code a =? code b)%nat = true <-> a = b.
Proof.
  rewrite Nat.eqb_eq. unfold code. split; [|intros ->; reflexivity].
  intro H. rewrite <- (ascii_nat_embedding a), <- (ascii_nat_embedding b), H. reflexivity.
Qed.

Lemma test_is_some (re : RegExp) (r : regex) (s : string) :
  pattern re = Some (RSeq RBol r) ->
  multiline re = false ->
  test re s =
  is_some (rmatch (ignoreCase re) false r (mkState None (chars s) 0 []) Some).
Proof. intros Pt Ml. rewrite (@test_anchored re r s Pt Ml). reflexivity. Qed.

Lemma forallb_same {A : Type} (f g : A -> bool) (l : list A) :
  (forall x, f x = g x) -> forallb f l = forallb g l.
Proof.
  intro E. induction l as [|x l IH]; [reflexivity|]. cbn [forallb]. rewrite E, IH.
  reflexivity.
Qed.

(** Exactly [n] digits and then the end of the text. *)
Lemma digits_then_end (n : nat) (pv : option ascii) (l : list ascii) (i : nat) :
  is_some (rmatch false false
             (RSeq (RRepeat n (Some n) true (RSet false [CDigit false])) REol)
             (mkState pv l i []) Some) =
  forallb is_digit l && (List.length l =? n)%nat.
Proof.
  rewrite rmatch_seq, rmatch_repeat.
  rewrite (@rep_exact false false true _ _ _
             (one_char_RSet false false false [CDigit false])) by (cbn [rest]; lia).
  destruct (Nat.leb_spec n (List.length l)) as [L|L].
  - rewrite andb_true_r.
    destruct (Nat.eqb_spec (List.length l) n) as [E|E].
    + rewrite firstn_all2 by lia. rewrite skipn_all2 by lia.
      rewrite (forallb_same _ _ l digit_set). rewrite andb_true_r.
      destruct (forallb is_digit l); reflexivity.
    + rewrite andb_false_r.
      destruct (forallb _ (firstn n l)); [|reflexivity].
      rewrite rmatch_eol. unfold at_eol. cbn [rest].
      destruct (skipn n l) eqn:S; [|reflexivity].
      exfalso. apply E. pose proof (length_skipn n l) as K. rewrite S in K.
      cbn in K. lia.
  - rewrite andb_false_r.
    replace (List.length l =? n)%nat with false by (symmetry; apply Nat.eqb_neq; lia).
    rewrite andb_false_r. reflexivity.
Qed.

Lemma isValidBusinessRegNumber_chars (regNumber : string) :
  isValidBusinessRegNumber regNumber =
  match chars regNumber with
  | k :: h :: ds =>
      ((code "C" =? code k)%nat || (code "P" =? code k)%nat || (code "S" =? code k)%nat) &&
      (code "-" =? code h)%nat && forallb is_digit ds && (List.length ds =? 8)%nat
  | _ => false
  end.
Proof.
  unfold isValidBusinessRegNumber.
  rewrite (@test_is_some re_business_reg_number _ regNumber eq_refl eq_refl).
  cbn [ignoreCase re_business_reg_number].
  rewrite rmatch_seq, rmatch_set. cbn [rest].
  destruct (chars regNumber) as [|k l]; [reflexivity|].
  unfold set_match. cbn [existsb item_match item_mem xorb]. rewrite orb_false_r.
  rewrite <- orb_assoc.
  destruct (_ || _); [|destruct l; reflexivity]. cbn [andb].
  rewrite rmatch_seq, rmatch_char. unfold advance. cbn [rest pos prev caps].
  destruct l as [|h ds]; [reflexivity|].
  unfold char_match at 1.
  destruct (code "-" =? code h)%nat; [|reflexivity]. cbn [andb].
  apply digits_then_end.
Qed.

(** isValidBusinessRegNumber accepts exactly the texts of ten characters
    made of one of the letters C, P and S, a hyphen and eight digits:
    nothing may come before or after, not even a line break, and a letter
    in lower case is refused. *)
Theorem isValidBusinessRegNumber_shape (regNumber : string) :
  isValidBusinessRegNumber regNumber = true <->
  exists (k : ascii) (ds : list ascii),
    regNumber = String k (String "-" (str ds)) /\
    (k = "C" \/ k = "P" \/ k = "S")%char /\
    List.length ds = 8%nat /\ forallb is_digit ds = true.
Proof.
  rewrite isValidBusinessRegNumber_chars. split.
  - intro H. destruct (chars regNumber) as [|k [|h ds]] eqn:E; try discriminate H.
    apply andb_prop in H. destruct H as [H L].
    apply andb_prop in H. destruct H as [H D].
    apply andb_prop in H. destruct H as [K Hy].
    apply code_eqb in Hy. subst h.
    exists k, ds. repeat split.
    + rewrite <- (str_chars regNumber), E. reflexivity.
    + apply orb_prop in K. destruct K as [K|K].
      * apply orb_prop in K. destruct K as [K|K]; apply code_eqb in K; auto.
      * apply code_eqb in K. auto.
    + apply Nat.eqb_eq. exact L.
    + exact D.
  - intros (k & ds & -> & K & L & D).
    change (chars (String k (String "-" (str ds)))) with (k :: "-"%char :: chars (str ds)).
    rewrite chars_str, D, L.
    destruct K as [ -> | [ -> | -> ] ]; reflexivity.
Qed.

Lemma rmatch_alt (ci ml : bool) (a b : regex) (s : mstate) (k : mstate -> option mstate) :
  rmatch ci ml (RAlt a b) s k =
  match rmatch ci ml a s k with
  | Some e => Some e
  | None => rmatch ci ml b s k
  end.
Proof. reflexivity. Qed.

Lemma literal_step (x : ascii) (pv : option ascii) (c : ascii) (l : list ascii) (i : nat)
  (cs : list (nat * list ascii)) (k : mstate -> option mstate) :
  rmatch false false (RChar x) (mkState pv (c :: l) i cs) k =
  if (code x =? code c)%nat then k (mkState (Some c) l (S i) cs) else None.
Proof. reflexivity. Qed.

Lemma literal_end (x : ascii) (pv : option ascii) (i : nat)
  (cs : list (nat * list ascii)) (k : mstate -> option mstate) :
  rmatch false false (RChar x) (mkState pv [] i cs) k = None.
Proof. reflexivity. Qed.

Lemma is_some_or (o1 o2 : option mstate) :
  is_some (match o1 with Some e => Some e | None => o2 end) = is_some o1 || is_some o2.
Proof. destruct o1; reflexivity. Qed.

Lemma isValidGhanaPhone_chars (phone : string) :
  isValidGhanaPhone phone =
  match chars phone with
  | c :: l =>
      (code "+" =? code c)%nat &&
      match l with
      | c2 :: c3 :: c4 :: ds =>
          (code "2" =? code c2)%nat && (code "3" =? code c3)%nat &&
          (code "3" =? code c4)%nat && forallb is_digit ds && (List.length ds =? 9)%nat
      | _ => false
      end
      || (code "0" =? code c)%nat && forallb is_digit l && (List.length l =? 9)%nat
  | [] => false
  end.
Proof.
  unfold isValidGhanaPhone.
  rewrite (@test_is_some re_ghana_phone _ phone eq_refl eq_refl).
  cbn [ignoreCase re_ghana_phone].
  rewrite rmatch_seq, rmatch_alt, is_some_or.
  destruct (chars phone) as [|c l]; [reflexivity|].
  rewrite rmatch_seq, !literal_step. f_equal.
  - destruct (code "+" =? code c)%nat; [|reflexivity]. cbn [andb].
    rewrite rmatch_seq.
    destruct l as [|c2 l]; [reflexivity|]. rewrite literal_step.
    destruct (code "2" =? code c2)%nat; [|destruct l as [|? [|? ?]]; reflexivity].
    cbn [andb]. rewrite rmatch_seq.
    destruct l as [|c3 l]; [reflexivity|]. rewrite literal_step.
    destruct (code "3" =? code c3)%nat; [|destruct l as [|? ?]; reflexivity].
    cbn [andb].
    destruct l as [|c4 ds]; [reflexivity|]. rewrite literal_step.
    destruct (code "3" =? code c4)%nat; [|reflexivity]. cbn [andb].
    apply digits_then_end.
  - destruct (code "0" =? code c)%nat; [|reflexivity]. cbn [andb].
    apply digits_then_end.
Qed.

(** isValidGhanaPhone accepts exactly the texts made of +233 or of 0 and
    then nine digits, with nothing before or after. *)
Theorem isValidGhanaPhone_shape (phone : string) :
  isValidGhanaPhone phone = true <->
  exists ds : list ascii,
    (phone = ("+233" ++ str ds)%string \/ phone = ("0" ++ str ds)%string) /\
    List.length ds = 9%nat /\ forallb is_digit ds = true.
Proof.
  rewrite isValidGhanaPhone_chars. split.
  - intro H. destruct (chars phone) as [|c l] eqn:E; [discriminate H|].
    apply orb_prop in H. destruct H as [H|H].
    + apply andb_prop in H. destruct H as [C H]. apply code_eqb in C. subst c.
      destruct l as [|c2 [|c3 [|c4 ds]]]; try discriminate H.
      apply andb_prop in H. destruct H as [H L].
      apply andb_prop in H. destruct H as [H D].
      apply andb_prop in H. destruct H as [H C4].
      apply andb_prop in H. destruct H as [C2 C3].
      apply code_eqb in C2, C3, C4. subst.
      exists ds. split; [left|split; [apply Nat.eqb_eq; exact L|exact D]].
      rewrite <- (str_chars phone), E. reflexivity.
    + apply andb_prop in H. destruct H as [H L].
      apply andb_prop in H. destruct H as [C D]. apply code_eqb in C. subst c.
      exists l. split; [right|split; [apply Nat.eqb_eq; exact L|exact D]].
      rewrite <- (str_chars phone), E. reflexivity.
  - intros (ds & [-> | ->] & L & D).
    + change (chars ("+233" ++ str ds))
        with ("+"%char :: "2"%char :: "3"%char :: "3"%char :: chars (str ds)).
      rewrite chars_str, D, L. reflexivity.
    + change (chars ("0" ++ str ds)) with ("0"%char :: chars (str ds)).
      rewrite chars_str, D, L. cbn. apply orb_true_r.
Qed.

(** ** The validator of addresses *)

(** A greedy quantifier without an upper bound over a pattern of one
    character, with something that follows: it succeeds exactly when what
    follows succeeds after some number of characters of the run, not
    fewer than the minimum. *)
Lemma rep_greedy_some (ci ml : bool) (r : regex) (P : ascii -> bool)
  (k : mstate -> option mstate) :
  one_char ci ml r P ->
  forall (l : list ascii) (fuel min : nat) (pv : option ascii) (i : nat)
         (cs : list (nat * list ascii)),
    (List.length l + min < fuel)%nat ->
    is_some (rep ci ml r true k fuel min None (mkState pv l i cs)) = true <->
    exists n,
      (min <= n)%nat /\ (n <= List.length (takeWhile P l))%nat /\
      is_some (k (mkState (prev_after (firstn n l) pv) (skipn n l) (i + n) cs)) = true.
Proof.
  intros [G M] l. induction l as [|c l IH]; intros fuel min pv i cs F.
  - destruct fuel as [|fuel]; [lia|]. cbn [rep is_zero_max].
    rewrite G, clear_no_caps, M. cbn [rest takeWhile List.length].
    destruct min as [|min]; cbn [Nat.ltb Nat.leb].
    + split.
      * intro H. exists 0%nat. cbn [firstn skipn prev_after map last].
        rewrite Nat.add_0_r. repeat split; [lia|lia|exact H].
      * intros (n & _ & N & H). assert (n = 0)%nat as -> by lia.
        cbn [firstn skipn prev_after map last] in H. rewrite Nat.add_0_r in H. exact H.
    + split; [discriminate|]. intros (n & A & B & _). lia.
  - destruct fuel as [|fuel]; [lia|]. cbn [rep is_zero_max].
    rewrite G, clear_no_caps, M. cbn [rest takeWhile].
    cbn [List.length] in F.
    destruct (P c) eqn:Pc.
    + unfold advance. cbn [pos caps option_map List.length].
      replace ((min =? 0)%nat && (S i =? i)%nat) with false
        by (symmetry; apply andb_false_iff; right; apply Nat.eqb_neq; lia).
      assert (forall n,
                 mkState (prev_after (firstn (S n) (c :: l)) pv) (skipn (S n) (c :: l))
                   (i + S n) cs =
                 mkState (prev_after (firstn n l) (Some c)) (skipn n l) (S i + n) cs) as St.
      { intro n. cbn [firstn skipn]. rewrite prev_after_cons.
        replace (i + S n)%nat with (S i + n)%nat by lia. reflexivity. }
      destruct min as [|min]; cbn [Nat.ltb Nat.leb Nat.pred].
      * pose proof (IH fuel 0%nat (Some c) (S i) cs ltac:(lia)) as I.
        destruct (rep ci ml r true k fuel 0 None _) as [e|] eqn:R.
        -- split; [|reflexivity]. intros _.
           destruct (proj1 I eq_refl) as (n & A & B & H).
           exists (S n). rewrite St. repeat split; [lia|lia|exact H].
        -- split.
           ++ intro H. exists 0%nat. cbn [firstn skipn prev_after map last].
              rewrite Nat.add_0_r. repeat split; [lia|lia|exact H].
           ++ intros (n & _ & B & H). destruct n as [|n].
              ** cbn [firstn skipn prev_after map last] in H.
                 rewrite Nat.add_0_r in H. exact H.
              ** rewrite St in H. assert (false = true); [|discriminate].
                 apply I. exists n. repeat split; [lia|lia|exact H].
      * rewrite (IH fuel min (Some c) (S i) cs) by lia. split.
        -- intros (n & A & B & H). exists (S n). rewrite St.
           repeat split; [lia|lia|exact H].
        -- intros (n & A & B & H). destruct n as [|n]; [lia|].
           rewrite St in H. exists n. repeat split; [lia|lia|exact H].
    + cbn [List.length]. destruct min as [|min]; cbn [Nat.ltb Nat.leb].
      * split.
        -- intro H. exists 0%nat. cbn [firstn skipn prev_after map last].
           rewrite Nat.add_0_r. repeat split; [lia|lia|exact H].
        -- intros (n & _ & N & H). assert (n = 0)%nat as -> by lia.
           cbn [firstn skipn prev_after map last] in H. rewrite Nat.add_0_r in H. exact H.
      * split; [discriminate|]. intros (n & A & B & _). lia.
Qed.

Lemma takeWhile_firstn (P : ascii -> bool) (l : list ascii) (n : nat) :
  (n <= List.length (takeWhile P l))%nat ->
  forallb P (firstn n l) = true /\ List.length (firstn n l) = n.
Proof.
  revert n. induction l as [|c l IH]; intros n N.
  - cbn in N. assert (n = 0)%nat as -> by lia. split; reflexivity.
  - destruct n as [|n]; [split; reflexivity|]. cbn [takeWhile] in N.
    destruct (P c) eqn:Pc; [|cbn in N; lia]. cbn [List.length] in N.
    destruct (IH n ltac:(lia)) as [A B]. cbn [firstn forallb List.length].
    rewrite Pc, A, B. split; reflexivity.
Qed.

Lemma takeWhile_app (P : ascii -> bool) (a l : list ascii) :
  forallb P a = true -> (List.length a <= List.length (takeWhile P (a ++ l)))%nat.
Proof.
  induction a as [|c a IH]; intro A; [cbn; lia|].
  cbn [forallb] in A. apply andb_prop in A. destruct A as [Pc A].
  cbn [app takeWhile]. rewrite Pc. cbn [List.length]. specialize (IH A). lia.
Qed.

(** A literal character, and then the rest of the pattern. *)
Lemma literal_then (x : ascii) (R : regex) (pv : option ascii) (l : list ascii) (i : nat)
  (cs : list (nat * list ascii)) (k : mstate -> option mstate) :
  is_some (rmatch false false (RSeq (RChar x) R) (mkState pv l i cs) k) = true <->
  exists l', l = x :: l' /\
             is_some (rmatch false false R (mkState (Some x) l' (S i) cs) k) = true.
Proof.
  rewrite rmatch_seq. destruct l as [|c l].
  - rewrite literal_end. split; [discriminate|]. intros (l' & E & _). discriminate E.
  - rewrite literal_step. destruct (code x =? code c)%nat eqn:C.
    + apply code_eqb in C. subst c. split.
      * intro H. exists l. split; [reflexivity|exact H].
      * intros (l' & E & H). inversion E. subst l'. exact H.
    + split; [discriminate|]. intros (l' & E & _). inversion E. subst c.
      assert ((code x =? code x)%nat = true) as T by (apply code_eqb; reflexivity).
      congruence.
Qed.

(** A run of characters, and then the rest of the pattern. *)
Lemma run_then (r : regex) (P : ascii -> bool) (min : nat) (R : regex)
  (pv : option ascii) (l : list ascii) (i : nat) (cs : list (nat * list ascii))
  (k : mstate -> option mstate) :
  one_char false false r P ->
  is_some (rmatch false false (RSeq (RRepeat min None true r) R) (mkState pv l i cs) k)
    = true <->
  exists a l',
    l = a ++ l' /\ (min <= List.length a)%nat /\ forallb P a = true /\
    is_some (rmatch false false R (mkState (prev_after a pv) l' (i + List.length a) cs) k)
      = true.
Proof.
  intro O. rewrite rmatch_seq, rmatch_repeat.
  rewrite (@rep_greedy_some false false r P _ O) by (cbn [rest]; lia). split.
  - intros (n & A & B & H). destruct (@takeWhile_firstn P l n B) as [F L].
    exists (firstn n l), (skipn n l). rewrite L.
    repeat split; [symmetry; apply firstn_skipn|exact A|exact F|exact H].
  - intros (a & l' & -> & A & F & H). exists (List.length a).
    rewrite firstn_app, Nat.sub_diag, firstn_all, firstn_O, app_nil_r.
    rewrite skipn_app, Nat.sub_diag, skipn_all, skipn_O. cbn [app].
    repeat split; [exact A|apply takeWhile_app; exact F|exact H].
Qed.

Lemma at_the_end (pv : option ascii) (l : list ascii) (i : nat)
  (cs : list (nat * list ascii)) :
  is_some (rmatch false false REol (mkState pv l i cs) Some) = true <-> l = [].
Proof.
  rewrite rmatch_eol. unfold at_eol. cbn [rest]. destruct l; cbn [andb].
  - split; reflexivity.
  - split; discriminate.
Qed.

Lemma local_set (c : ascii) :
  set_match false false
    [CRange "a" "z"; CRange "A" "Z"; CRange "0" "9"; CChar "."; CChar "_"; CChar "%";
     CChar "+"; CChar "-"] c = local_char c.
Proof. each_char c; reflexivity. Qed.

Lemma domain_set (c : ascii) :
  set_match false false
    [CRange "a" "z"; CRange "A" "Z"; CRange "0" "9"; CChar "."; CChar "-"] c =
  domain_char c.
Proof. each_char c; reflexivity. Qed.

Lemma letter_set (c : ascii) :
  set_match false false [CRange "a" "z"; CRange "A" "Z"] c = is_alpha c.
Proof. each_char c; reflexivity. Qed.

(** isValidEmail accepts exactly the texts made of a local part, the sign
    @, a domain, a dot and a last label: the local part is not empty and
    made of letters, digits and the characters . _ % + -, the domain is not
    empty and made of letters, digits, dots and hyphens, and the last label
    is made of two letters or more. *)
Theorem isValidEmail_shape (email : string) :
  isValidEmail email = true <->
  exists a d t : list ascii,
    email = str (a ++ "@"%char :: d ++ "."%char :: t) /\
    (1 <= List.length a)%nat /\ forallb local_char a = true /\
    (1 <= List.length d)%nat /\ forallb domain_char d = true /\
    (2 <= List.length t)%nat /\ forallb is_alpha t = true.
Proof.
  unfold isValidEmail.
  rewrite (@test_is_some re_email _ email eq_refl eq_refl).
  cbn [ignoreCase re_email].
  rewrite (@run_then _ _ _ _ _ _ _ _ _ (one_char_RSet false false false _)).
  split.
  - intros (a & l1 & E & A & Fa & H).
    apply literal_then in H. destruct H as (l2 & -> & H).
    apply (@run_then _ _ _ _ _ _ _ _ _ (one_char_RSet false false false _)) in H.
    destruct H as (d & l3 & -> & D & Fd & H).
    apply literal_then in H. destruct H as (l4 & -> & H).
    apply (@run_then _ _ _ _ _ _ _ _ _ (one_char_RSet false false false _)) in H.
    destruct H as (t & l5 & -> & T & Ft & H).
    apply at_the_end in H. subst l5. rewrite app_nil_r in E.
    exists a, d, t.
    rewrite (forallb_same _ _ a local_set) in Fa.
    rewrite (forallb_same _ _ d domain_set) in Fd.
    rewrite (forallb_same _ _ t letter_set) in Ft.
    split; [rewrite <- E; symmetry; apply str_chars|].
    repeat (split; [assumption|]). assumption.
  - intros (a & d & t & -> & A & Fa & D & Fd & T & Ft).
    rewrite chars_str.
    exists a, ("@"%char :: d ++ "."%char :: t).
    split; [reflexivity|]. split; [exact A|]. split.
    { rewrite (forallb_same _ _ a local_set). exact Fa. }
    apply literal_then. eexists. split; [reflexivity|].
    apply (@run_then _ _ _ _ _ _ _ _ _ (one_char_RSet false false false _)).
    exists d, ("."%char :: t).
    split; [reflexivity|]. split; [exact D|]. split.
    { rewrite (forallb_same _ _ d domain_set). exact Fd. }
    apply literal_then. eexists. split; [reflexivity|].
    apply (@run_then _ _ _ _ _ _ _ _ _ (one_char_RSet false false false _)).
    exists t, [].
    split; [symmetry; apply app_nil_r|]. split; [exact T|]. split.
    { rewrite (forallb_same _ _ t letter_set). exact Ft. }
    apply at_the_end. reflexivity.
Qed.

(** ** The year read from the text *)

Lemma is_digit_code (d : ascii) : is_digit d = true -> (48 <= code d <= 57)%nat.
Proof.
  unfold is_digit, in_range. intro H. apply andb_prop in H. destruct H as [A B].
  apply Nat.leb_le in A, B. lia.
Qed.

Lemma year_match (inp : list ascii) :
  forall (pv : option ascii) (i : nat) (m : found),
    exec_from false false
      (RSeq (RChar "2") (RSeq (RChar "0")
         (RRepeat 2 (Some 2) true (RSet false [CDigit false])))) pv i inp = Some m ->
    exists d1 d2 : ascii,
      matched m = str ["2"; "0"; d1; d2]%char /\ is_digit d1 = true /\ is_digit d2 = true.
Proof.
  induction inp as [|c1 l1 IH]; intros pv i m; cbn [exec_from].
  - rewrite rmatch_seq, literal_end. discriminate.
  - rewrite rmatch_seq, literal_step.
    destruct (code "2" =? code c1)%nat eqn:C1; [|apply IH].
    rewrite rmatch_seq.
    destruct l1 as [|c2 l2].
    + rewrite literal_end. intro H. apply IH in H. exact H.
    + rewrite literal_step.
      destruct (code "0" =? code c2)%nat eqn:C2; [|apply IH].
      rewrite rmatch_repeat.
      rewrite (@rep_exact false false true _ _ _
                 (one_char_RSet false false false [CDigit false])) by (cbn [rest]; lia).
      destruct (forallb _ (firstn 2 l2) && (2 <=? List.length l2)%nat) eqn:D; [|apply IH].
      intro H. inversion H. subst m. clear H. cbv [matched pos].
      apply andb_prop in D. destruct D as [D L].
      destruct l2 as [|d1 [|d2 l3]]; try discriminate L.
      cbn [firstn forallb] in D. rewrite !digit_set, andb_true_r in D.
      apply andb_prop in D. destruct D as [D1 D2].
      apply code_eqb in C1, C2. subst c1 c2.
      exists d1, d2. repeat split; try assumption.
      match goal with |- context [firstn ?n _] =>
        replace n with 4%nat by (destruct i as [|[|?]]; lia) end.
      reflexivity.
Qed.

Lemma digits_step (c : ascii) (l : list ascii) (acc : Z) (n : nat) :
  is_digit c = true ->
  digits (c :: l) acc n = digits l (10 * acc + Z.of_nat (code c - 48))%Z (S n).
Proof. intro D. cbn [digits]. rewrite D. reflexivity. Qed.

(** The year that extractYearFromText returns is the current year, or a
    year from 2000 to 2099. *)
Theorem extractYearFromText_range (currentYear : Z) (text : string) :
  exists y : Z,
    extractYearFromText currentYear text = of_Z y /\
    (y = currentYear \/ (2000 <= y <= 2099)%Z).
Proof.
  unfold extractYearFromText, exec, re_year. cbn [pattern ignoreCase multiline].
  destruct (exec_from _ _ _ _ _ _) as [m|] eqn:E.
  - destruct (year_match _ _ _ E) as (d1 & d2 & M & D1 & D2). rewrite M.
    unfold parseInt.
    change (chars (str ["2"; "0"; d1; d2]%char)) with ["2"; "0"; d1; d2]%char.
    change (trim_start ["2"; "0"; d1; d2]%char) with ["2"; "0"; d1; d2]%char.
    change (signed ["2"; "0"; d1; d2]%char) with (false, ["2"; "0"; d1; d2]%char).
    cbv iota beta.
    rewrite (@digits_step "2" _ _ _ eq_refl), (@digits_step "0" _ _ _ eq_refl).
    rewrite (@digits_step d1 _ _ _ D1), (@digits_step d2 _ _ _ D2).
    cbn [digits Nat.eqb].
    eexists. split; [reflexivity|]. right.
    apply is_digit_code in D1, D2.
    change (code "2") with 50%nat. change (code "0") with 48%nat. lia.
  - exists currentYear. split; [reflexivity|left; reflexivity].
Qed.

(** ** Cleaning the text of a document *)

Lemma space_set (c : ascii) : set_match false false [CSpace false] c = is_space c.
Proof. each_char c; reflexivity. Qed.

Lemma newline_is_space (c : ascii) : char_match false newline c = true -> is_space c = true.
Proof. each_char c; intro H; try discriminate H; reflexivity. Qed.

Lemma takeWhile_dropWhile (P : ascii -> bool) (l : list ascii) :
  l = takeWhile P l ++ dropWhile P l.
Proof.
  induction l as [|c l IH]; [reflexivity|]. cbn [takeWhile dropWhile drop_while].
  destruct (P c); [|reflexivity]. cbn [app]. f_equal. exact IH.
Qed.

Lemma dropWhile_head (P : ascii -> bool) (l : list ascii) (c : ascii) (l' : list ascii) :
  dropWhile P l = c :: l' -> P c = false.
Proof.
  induction l as [|d l IH]; [discriminate|]. cbn [dropWhile drop_while].
  destruct (P d) eqn:Pd; [exact IH|]. intro H. inversion H. subst. exact Pd.
Qed.

(** One step of the replacement of the runs of a pattern of one
    character. *)
Lemma replace_runs_step (ci ml : bool) (r : regex) (P : ascii -> bool) (t : list tpart)
  (min fuel : nat) (pv : option ascii) (i : nat) (inp : list ascii) :
  one_char ci ml r P ->
  (1 <= min)%nat ->
  replace_from (S fuel) ci ml (RRepeat min None true r) t pv i inp =
  match inp with
  | [] => []
  | c :: inp' =>
      if (min <=? List.length (takeWhile P inp))%nat
      then literals t ++
           replace_from fuel ci ml (RRepeat min None true r) t
             (prev_after (takeWhile P inp) pv) (i + List.length (takeWhile P inp))
             (dropWhile P inp)
      else c :: replace_from fuel ci ml (RRepeat min None true r) t (Some c) (S i) inp'
  end.
Proof.
  intros O M. cbn [replace_from]. rewrite rmatch_repeat.
  rewrite (rep_greedy_run O) by (cbn [rest]; lia).
  destruct inp as [|c inp'].
  - cbn [takeWhile List.length]. destruct min; [lia|]. reflexivity.
  - destruct (min <=? List.length (takeWhile P (c :: inp')))%nat eqn:L; [|reflexivity].
    apply Nat.leb_le in L. cbn [pos prev rest].
    replace (i + List.length (takeWhile P (c :: inp')) =? i)%nat with false
      by (symmetry; apply Nat.eqb_neq; lia).
    rewrite expand_no_caps by reflexivity. reflexivity.
Qed.

(** Where the pattern matches nowhere, nothing is replaced. *)
Lemma replace_no_match (ci ml : bool) (r : regex) (t : list tpart) (inp : list ascii) :
  forall (fuel : nat) (pv : option ascii) (i : nat),
    (forall pre suf pv' i', inp = pre ++ suf ->
       rmatch ci ml r (mkState pv' suf i' []) Some = None) ->
    replace_from fuel ci ml r t pv i inp = inp.
Proof.
  induction inp as [|c inp IH]; intros fuel pv i N.
  - destruct fuel; [reflexivity|]. cbn [replace_from].
    rewrite (N [] [] pv i eq_refl). reflexivity.
  - destruct fuel; [reflexivity|]. cbn [replace_from].
    rewrite (N [] (c :: inp) pv i eq_refl). f_equal. apply IH.
    intros pre suf pv' i' E. apply (N (c :: pre) suf). rewrite E. reflexivity.
Qed.

Lemma no_adjacent_tail (P : ascii -> bool) (c : ascii) (l : list ascii) :
  no_adjacent P (c :: l) = true -> no_adjacent P l = true.
Proof.
  cbn [no_adjacent]. destruct l as [|d l]; [reflexivity|].
  intro H. apply andb_prop in H. tauto.
Qed.

Lemma no_adjacent_suffix (P : ascii -> bool) (pre suf : list ascii) :
  no_adjacent P (pre ++ suf) = true -> no_adjacent P suf = true.
Proof.
  induction pre as [|c pre IH]; [tauto|]. intro H. apply IH.
  apply (no_adjacent_tail P c). exact H.
Qed.

Lemma no_adjacent_cons (P : ascii -> bool) (c : ascii) (l : list ascii) :
  no_adjacent P l = true ->
  (P c = false \/ l = [] \/ exists d l', l = d :: l' /\ P d = false) ->
  no_adjacent P (c :: l) = true.
Proof.
  intros N H. cbn [no_adjacent]. destruct l as [|d l]; [reflexivity|].
  rewrite N, andb_true_r. apply negb_true_iff. apply andb_false_iff.
  destruct H as [H|[H|(d' & l' & E & H)]]; [left; exact H|discriminate H|].
  inversion E. subst. right. exact H.
Qed.

(** In a text without two adjacent characters of [P], a run has at most
    one character. *)
Lemma short_run (P Q : ascii -> bool) (l : list ascii) :
  (forall c, Q c = true -> P c = true) ->
  no_adjacent P l = true -> (List.length (takeWhile Q l) <= 1)%nat.
Proof.
  intros S N. destruct l as [|c [|d l]]; cbn [takeWhile].
  - cbn. lia.
  - destruct (Q c); cbn; lia.
  - destruct (Q c) eqn:Qc; [|cbn; lia].
    destruct (Q d) eqn:Qd; [|cbn; lia].
    cbn [no_adjacent] in N. apply andb_prop in N. destruct N as [N _].
    rewrite (S c Qc), (S d Qd) in N. discriminate N.
Qed.

(** The replacement of the runs of white space: what it returns. *)
Lemma collapsed (n : nat) :
  forall (inp : list ascii) (fuel : nat) (pv : option ascii) (i : nat),
    (List.length inp <= n)%nat -> (List.length inp < fuel)%nat ->
    let out :=
      replace_from fuel false false
        (RRepeat 2 None true (RSet false [CSpace false])) [TLit " "] pv i inp in
    no_adjacent is_space out = true /\
    (inp = [] -> out = []) /\
    (forall c l, inp = c :: l -> is_space c = false -> exists l', out = c :: l').
Proof.
  pose proof (one_char_RSet false false false [CSpace false]) as O.
  induction n as [|n IH]; intros inp fuel pv i L F out; subst out.
  - destruct inp; [|cbn in L; lia]. destruct fuel; [lia|].
    rewrite (replace_runs_step _ _ _ _ _ O) by lia.
    repeat split; try reflexivity. intros c l E. discriminate E.
  - destruct fuel as [|fuel]; [lia|].
    rewrite (replace_runs_step _ _ _ _ _ O) by lia.
    destruct inp as [|c inp']; [repeat split; try reflexivity; intros ? ? E; discriminate E|].
    cbn [List.length] in L, F.
    destruct (2 <=? List.length (takeWhile _ (c :: inp')))%nat eqn:R.
    + apply Nat.leb_le in R.
      pose proof (takeWhile_dropWhile (set_match false false [CSpace false]) (c :: inp')) as TD.
      apply (f_equal (@List.length ascii)) in TD. rewrite length_app in TD.
      cbn [List.length] in TD.
      match goal with |- context [replace_from fuel _ _ _ _ ?pv' ?i' ?inp2] =>
        destruct (IH inp2 fuel pv' i') as (N & E & H); [lia|lia|]
      end.
      cbn [literals flat_map app]. split; [|split].
      * apply no_adjacent_cons; [exact N|].
        destruct (dropWhile _ (c :: inp')) as [|d l'] eqn:D.
        -- right. left. apply E. reflexivity.
        -- right. right. pose proof (dropWhile_head _ _ D) as Pd.
           rewrite space_set in Pd.
           destruct (H d l' eq_refl Pd) as (l'' & ->). exists d, l''. tauto.
      * discriminate.
      * intros c0 l E0 S0. inversion E0. subst c0 l. exfalso.
        cbn [takeWhile] in R. rewrite space_set, S0 in R. cbn in R. lia.
    + destruct (IH inp' fuel (Some c) (S i)) as (N & E & H); [lia|lia|].
      split; [|split].
      * apply no_adjacent_cons; [exact N|].
        destruct (is_space c) eqn:Sc; [|left; reflexivity]. right.
        destruct inp' as [|d l']; [left; apply E; reflexivity|right].
        apply Nat.leb_gt in R. cbn [takeWhile] in R. rewrite !space_set, Sc in R.
        destruct (is_space d) eqn:Sd; [cbn in R; lia|].
        destruct (H d l' eq_refl Sd) as (l'' & ->). exists d, l''. tauto.
      * discriminate.
      * intros c0 l E0 _. inversion E0. subst. eexists. reflexivity.
Qed.

Lemma no_adjacent_spec (P : ascii -> bool) (l : list ascii) :
  no_adjacent P l = true <->
  forall pre a b suf, l = pre ++ a :: b :: suf -> P a && P b = false.
Proof.
  induction l as [|c l IH].
  - split; [|reflexivity]. intros _ pre a b suf E. destruct pre; discriminate E.
  - split.
    + intros N pre a b suf E. destruct pre as [|x pre].
      * cbn [app] in E. inversion E. subst. cbn [no_adjacent] in N.
        apply andb_prop in N. destruct N as [N _]. apply negb_true_iff in N. exact N.
      * cbn [app] in E. injection E as Ex El.
        apply (proj1 IH (@no_adjacent_tail P c l N) pre a b suf El).
    + intro H. cbn [no_adjacent]. destruct l as [|d l]; [reflexivity|].
      apply andb_true_intro. split.
      * apply negb_true_iff. apply (H [] c d l eq_refl).
      * apply IH. intros pre a b suf E. apply (H (c :: pre) a b suf).
        rewrite E. reflexivity.
Qed.

Lemma no_adjacent_prefix (P : ascii -> bool) (pre suf : list ascii) :
  no_adjacent P (pre ++ suf) = true -> no_adjacent P pre = true.
Proof.
  intro N. apply no_adjacent_spec. intros p a b s E.
  apply (proj1 (no_adjacent_spec P _) N p a b (s ++ suf)).
  rewrite E, <- app_assoc. reflexivity.
Qed.

Lemma drop_while_suffix (P : ascii -> bool) (l : list ascii) :
  exists pre, l = pre ++ drop_while P l.
Proof. exists (takeWhile P l). apply takeWhile_dropWhile. Qed.

Lemma drop_while_fixed (P : ascii -> bool) (l : list ascii) :
  drop_while P (drop_while P l) = drop_while P l.
Proof.
  induction l as [|c l IH]; [reflexivity|]. cbn [drop_while].
  destruct (P c) eqn:Pc; [exact IH|]. cbn [drop_while]. rewrite Pc. reflexivity.
Qed.

Lemma drop_while_last (P : ascii -> bool) (x : list ascii) (a : ascii) :
  P a = false -> drop_while P (x ++ [a]) = drop_while P x ++ [a].
Proof.
  intro Pa. induction x as [|c x IH]; cbn [app drop_while].
  - rewrite Pa. reflexivity.
  - destruct (P c); [exact IH|reflexivity].
Qed.

Lemma trim_end_prefix (l : list ascii) : exists suf, l = trim_end l ++ suf.
Proof.
  unfold trim_end. destruct (drop_while_suffix is_space (rev l)) as [pre E].
  exists (rev pre). rewrite <- rev_app_distr, <- E, rev_involutive. reflexivity.
Qed.

Lemma trim_end_fixed (l : list ascii) : trim_end (trim_end l) = trim_end l.
Proof. unfold trim_end. rewrite rev_involutive, drop_while_fixed. reflexivity. Qed.

Lemma trim_end_head (a : ascii) (l : list ascii) :
  is_space a = false -> exists l', trim_end (a :: l) = a :: l'.
Proof.
  intro Sa. unfold trim_end. cbn [rev]. rewrite (@drop_while_last is_space (rev l) a Sa).
  rewrite rev_app_distr. cbn [rev app]. eexists. reflexivity.
Qed.

(** What [trim] returns has no white space at either end, and keeps the
    text free of adjacent white space when it was. *)
Lemma trimmed_tidy (l : list ascii) :
  no_adjacent is_space l = true -> tidy (trim_end (trim_start l)).
Proof.
  intro N. unfold tidy. split; [|split].
  - destruct (drop_while_suffix is_space l) as [pre E].
    destruct (trim_end_prefix (trim_start l)) as [suf E'].
    unfold trim_start in *. rewrite E in N. apply no_adjacent_suffix in N.
    rewrite E' in N. apply no_adjacent_prefix in N. exact N.
  - assert (forall a l', trim_start l = a :: l' -> is_space a = false) as H.
    { intros a l' D. apply (@dropWhile_head is_space l a l' D). }
    destruct (trim_start l) as [|a l'].
    + reflexivity.
    + pose proof (H a l' eq_refl) as Sa.
      destruct (@trim_end_head a l' Sa) as [l'' ->].
      unfold trim_start. cbn [drop_while]. rewrite Sa. reflexivity.
  - apply trim_end_fixed.
Qed.

Lemma cleanText_chars (text : string) :
  exists l, no_adjacent is_space l = true /\
            chars (cleanText text) = trim_end (trim_start l).
Proof.
  unfold cleanText, trim.
  set (t2 := replace re_line_breaks _ _).
  unfold replace at 1. unfold re_white_space. cbn [pattern ignoreCase multiline].
  change (template (chars " ")) with [TLit " "].
  rewrite !chars_str. eexists. split; [|reflexivity].
  apply (@collapsed (String.length t2) (chars t2)); rewrite length_chars; lia.
Qed.

Lemma cleanText_is_tidy (text : string) : tidy (chars (cleanText text)).
Proof.
  destruct (cleanText_chars text) as (l & N & ->). apply trimmed_tidy. exact N.
Qed.

(** What cleanText returns has no white space at either end and no two
    white-space characters in a row; in particular no blank line is left in
    it, although the function sets out to keep the breaks between
    paragraphs. *)
Theorem cleanText_tidy (text : string) : tidy (chars (cleanText text)).
Proof. apply cleanText_is_tidy. Qed.

(** ** The fixed points of the cleaning *)

Lemma cr_is_space (c : ascii) :
  (code "013" =? code c)%nat = true -> is_space c = true.
Proof. each_char c; intro H; try discriminate H; reflexivity. Qed.

Lemma lf_is_space (c : ascii) :
  (code "010" =? code c)%nat = true -> is_space c = true.
Proof. each_char c; intro H; try discriminate H; reflexivity. Qed.

Lemma no_crlf (suf : list ascii) (pv : option ascii) (i : nat) :
  no_adjacent is_space suf = true ->
  rmatch false false (RSeq (RChar "013") (RChar "010")) (mkState pv suf i []) Some = None.
Proof.
  intro N. rewrite rmatch_seq. destruct suf as [|c [|d l]].
  - apply literal_end.
  - rewrite literal_step. destruct (_ =? _)%nat; [apply literal_end|reflexivity].
  - rewrite literal_step. destruct (code "013" =? code c)%nat eqn:C; [|reflexivity].
    rewrite literal_step. destruct (code "010" =? code d)%nat eqn:D; [|reflexivity].
    cbn [no_adjacent] in N. rewrite (@cr_is_space c C), (@lf_is_space d D) in N.
    discriminate N.
Qed.

Lemma no_run (ci ml : bool) (r : regex) (Q : ascii -> bool) (min : nat)
  (suf : list ascii) (pv : option ascii) (i : nat) :
  one_char ci ml r Q ->
  (forall c, Q c = true -> is_space c = true) ->
  (2 <= min)%nat ->
  no_adjacent is_space suf = true ->
  rmatch ci ml (RRepeat min None true r) (mkState pv suf i []) Some = None.
Proof.
  intros O S M N. rewrite rmatch_repeat.
  rewrite (@rep_greedy_run ci ml r Q O) by (cbn [rest]; lia).
  pose proof (@short_run is_space Q suf S N) as R.
  replace (min <=? _)%nat with false by (symmetry; apply Nat.leb_gt; lia).
  reflexivity.
Qed.

Lemma cleanText_fixed (t : string) : tidy (chars t) -> cleanText t = t.
Proof.
  intros (N & Ts & Te). unfold cleanText.
  assert (forall pre suf, chars t = pre ++ suf -> no_adjacent is_space suf = true) as Suf.
  { intros pre suf E. rewrite E in N. apply (@no_adjacent_suffix is_space pre suf N). }
  assert (replace re_crlf (String newline EmptyString) t = t) as R1.
  { unfold replace, re_crlf. cbn [pattern ignoreCase multiline].
    rewrite replace_no_match; [apply str_chars|].
    intros pre suf pv' i' E. apply no_crlf. apply (Suf pre suf E). }
  rewrite R1.
  assert (replace re_line_breaks (String newline (String newline EmptyString)) t = t) as R2.
  { unfold replace, re_line_breaks. cbn [pattern ignoreCase multiline].
    rewrite replace_no_match; [apply str_chars|].
    intros pre suf pv' i' E.
    apply (@no_run false false _ _ 3 suf pv' i' (one_char_RChar false false "010"));
      [apply newline_is_space|lia|apply (Suf pre suf E)]. }
  rewrite R2.
  assert (replace re_white_space " " t = t) as R3.
  { unfold replace, re_white_space. cbn [pattern ignoreCase multiline].
    rewrite replace_no_match; [apply str_chars|].
    intros pre suf pv' i' E.
    apply (@no_run false false _ _ 2 suf pv' i'
             (one_char_RSet false false false [CSpace false]));
      [intros c H; rewrite space_set in H; exact H|lia|apply (Suf pre suf E)]. }
  rewrite R3. unfold trim. rewrite Ts, Te. apply str_chars.
Qed.


(** ** The file types of the MCP server *)

Lemma parser_for_mime (ext : string) :
  existsb (string_eqb (match assoc ext mimeTypes with
                       | Some t => t
                       | None => "application/octet-stream"
                       end)) allowedTypes =
  match parser_for ext with Some _ => true | None => false end.
Proof.
  unfold parser_for, mimeTypes, assoc.
  rewrite !(String.eqb_sym _ ext). unfold string_eqb.
  destruct (String.eqb ext ".pdf"); [reflexivity|].
  destruct (String.eqb ext ".docx"); [reflexivity|].
  destruct (String.eqb ext ".xlsx"); [reflexivity|].
  destruct (String.eqb ext ".xls"); [reflexivity|].
  destruct (String.eqb ext ".csv"); reflexivity.
Qed.

(** For a file object built by the MCP server, the type that validateFile
    checks and the extension that parseDocument reads agree: validateFile
    refuses the type exactly when parseDocument has no reader for the
    extension.  So a file that validateFile lets through always reaches one
    of the four readers of parseDocument, whatever path.extname returns. *)
Theorem validated_type_has_reader (extname : string -> string)
  (existsSync : string -> bool) (statSize : string -> number)
  (filePath fileName : string) :
  let file := mockFile extname existsSync statSize filePath fileName in
  (validateFile existsSync file =
     Throw (Error "Invalid file type. Allowed types: PDF, DOCX, XLSX, CSV") <->
   parser_for (toLowerCase (extname fileName)) = None) /\
  (validateFile existsSync file = Ok tt ->
   exists f, forall parse,
     parseDocument extname parse file = reported (parse f filePath)).
Proof.
  intro file. subst file. unfold validateFile, mockFile.
  cbn [mimetype size path originalname]. unfold getMimeType.
  rewrite parser_for_mime. unfold parseDocument. cbn [originalname path].
  destruct (parser_for (toLowerCase (extname fileName))) as [f|] eqn:P; cbn [negb].
  - split.
    + split; [|discriminate]. intro H.
      destruct (gt _ maxSize); [discriminate H|].
      destruct (negb (existsSync filePath)); discriminate H.
    + intros _. exists f. reflexivity.
  - split.
    + split; reflexivity.
    + discriminate.
Qed.

Lemma validated_type_has_reader_example :
  DocumentParser.validateFile (fun _ => true)
    (DocumentParser.mockFile (fun _ => ".PDF") (fun _ => true) (fun _ => of_Z 100)
       "/tmp/a.PDF" "a.PDF") = Ok tt /\
  exists f, forall parse,
    DocumentParser.parseDocument (fun _ => ".PDF") parse
      (DocumentParser.mockFile (fun _ => ".PDF") (fun _ => true) (fun _ => of_Z 100)
         "/tmp/a.PDF" "a.PDF") =
    DocumentParser.reported (parse f "/tmp/a.PDF").
Proof.
  split; [vm_compute; reflexivity|].
  destruct (validated_type_has_reader (fun _ => ".PDF") (fun _ => true)
              (fun _ => of_Z 100) "/tmp/a.PDF" "a.PDF") as [_ H].
  apply H. vm_compute. reflexivity.
Defined.

(** ** The annual report *)

Section Reports.

Import AnnualReport.

Variable World : Type.
Variable ollama_invoke : string -> World -> result string * World.
Variable openai_create : string -> World -> result (option string) * World.
Variable claude_create :
  string -> World -> result (option (list (string * string))) * World.
Variable buildReportGenerationPrompt : ExtractedTaxData -> string.
Variable getDefaultAnnualReport : ExtractedTaxData -> string.

Local Abbreviation report_with :=
  (generateReportWithProvider ollama_invoke openai_create claude_create
     buildReportGenerationPrompt).
Local Abbreviation report :=
  (generateAnnualReport ollama_invoke openai_create claude_create
     buildReportGenerationPrompt getDefaultAnnualReport).

Lemma try_reports_all_fail (this : Extractor) (extractedData : ExtractedTaxData)
  (providers : list string) (w : World) :
  (forall p w1, exists e w2, report_with this p extractedData w1 = (Throw e, w2)) ->
  fst (try_reports ollama_invoke openai_create claude_create
         buildReportGenerationPrompt getDefaultAnnualReport
         this providers extractedData w) = getDefaultAnnualReport extractedData.
Proof.
  intro F. revert w. induction providers as [|p ps IH]; intro w; [reflexivity|].
  cbn [try_reports]. destruct (F p w) as (e & w2 & ->). apply IH.
Qed.


End Reports.


